(** * Zoom meeting scheduler: credential lifecycle and request pipeline

    A shallow embedding of

    - [AgentAI/app.py]: the token helpers ([load_token], [save_token],
      [token_expired], [refresh_access_token]) and the HTTP handler
      [schedule_meeting] of [POST /api/schedule/];
    - [AgentAI/root_agent/ZoomAPI.py]: the agent-facing tool
      [schedule_meeting];
    - [AgentAI/root_agent/agent.py]: the tool [convert_to_iso].

    Python values that travel through these functions are JSON values;
    exceptions are an explicit outcome; the token file, the clock and the
    log of outgoing HTTP calls are threaded through a state monad.

    Conventions of the model.  Numbers are exact integers: a JSON number
    and a reading of [time.time()] are both in [Z] (whole seconds), so
    floating-point rounding is outside the model.  A string is the
    sequence of the UTF-8 bytes of the Python text.  The libraries [pytz], [dateutil] and [requests]
    are not part of the repository: the zone table, the remote servers
    and the free-text parser past its first token are parameters. *)

From Stdlib Require Import ZArith List String Ascii Bool Lia DecimalString.
From Stdlib Require DecimalPos DecimalZ.
Import ListNotations.
Open Scope string_scope.
Open Scope Z_scope.

(* ================================================================== *)
(** * Python values *)
(* ================================================================== *)

Module Py.

(** A value as produced by [json.load], [request.get_json] or
    [Response.json]. *)
#[warnings="-register-all"]
Inductive json : Type :=
| JNull
| JBool (b : bool)
| JNum (z : Z)
| JStr (s : string)
| JArr (l : list json)
| JObj (d : list (string * json)).

(** A Python [dict] with string keys. *)
Definition dict : Type := list (string * json).

(** [d.get(k)] / [k in d] *)
Fixpoint dict_get (k : string) (d : dict) : option json :=
  match d with
  | [] => None
  | (k', v) :: d' => if String.eqb k k' then Some v else dict_get k d'
  end.

Definition dict_has (k : string) (d : dict) : bool :=
  match dict_get k d with Some _ => true | None => false end.

(** [d.get(k, default)] *)
Definition dict_get_default (k : string) (default : json) (d : dict) : json :=
  match dict_get k d with Some v => v | None => default end.

(** [d[k] = v] *)
Fixpoint dict_set (k : string) (v : json) (d : dict) : dict :=
  match d with
  | [] => [(k, v)]
  | (k', v') :: d' =>
      if String.eqb k k' then (k, v) :: d' else (k', v') :: dict_set k v d'
  end.

(** Exceptions, by class, with the text of [str(e)]. *)
Inductive exn : Type :=
| FileNotFoundError (msg : string)
| RuntimeError (msg : string)
| ValueError (msg : string)
| TypeError (msg : string)
| KeyError (msg : string)
| AttributeError (msg : string)
| OverflowError (msg : string)
| UnknownTimeZoneError (msg : string)
| ParserError (msg : string)
| HTTPError (msg : string)
| RequestException (msg : string).

Definition str_exn (e : exn) : string :=
  match e with
  | FileNotFoundError m | RuntimeError m | ValueError m | TypeError m
  | KeyError m | AttributeError m | OverflowError m
  | UnknownTimeZoneError m | ParserError m | HTTPError m
  | RequestException m => m
  end.

(** The result of evaluating an expression that may raise. *)
Inductive result (A : Type) : Type :=
| Ok (a : A)
| Raise (e : exn).
Arguments Ok {A} a.
Arguments Raise {A} e.

Definition rbind {A B} (r : result A) (k : A -> result B) : result B :=
  match r with Ok a => k a | Raise e => Raise e end.

(** Truth value of an object ([if not data], [if not topic]). *)
Definition truthy (v : json) : bool :=
  match v with
  | JNull => false
  | JBool b => b
  | JNum z => negb (z =? 0)
  | JStr s => negb (String.eqb s "")
  | JArr l => match l with [] => false | _ => true end
  | JObj d => match d with [] => false | _ => true end
  end.

(** ** Characters and decimal numerals *)

Definition is_digit (c : ascii) : bool :=
  ((48 <=? nat_of_ascii c) && (nat_of_ascii c <=? 57))%nat.

Definition digit_val (c : ascii) : Z := Z.of_nat (nat_of_ascii c) - 48.

(** The character of a decimal digit [0 <= d <= 9]. *)
Definition digit_char (d : Z) : ascii := ascii_of_nat (Z.to_nat (48 + d)).

(** ** Integer literals: [int(s)]

    [int] first turns the text into ASCII: a code point below 127 stays,
    a Unicode space becomes a blank, a Unicode decimal digit becomes its
    ASCII digit, and anything else ends the text with a [?].  The result
    is read as C reads it: ASCII white space, a sign, digits with single
    underscores between them, ASCII white space. *)

Definition continuation (b : N) : bool := ((128 <=? b) && (b <=? 191))%N.

Definition cons_opt (x : N) (r : option (list N)) : option (list N) :=
  option_map (cons x) r.

(** The code points of a text, from its UTF-8 bytes; [None] for bytes
    that are not the encoding of a text. *)
Fixpoint utf8_decode (s : string) : option (list N) :=
  match s with
  | EmptyString => Some []
  | String c0 s1 =>
      let b0 := N_of_ascii c0 in
      if (b0 <? 128)%N then cons_opt b0 (utf8_decode s1)
      else if ((194 <=? b0) && (b0 <=? 223))%N then
        match s1 with
        | String c1 s2 =>
            let b1 := N_of_ascii c1 in
            if continuation b1
            then cons_opt ((b0 - 192) * 64 + (b1 - 128))%N (utf8_decode s2)
            else None
        | EmptyString => None
        end
      else if ((224 <=? b0) && (b0 <=? 239))%N then
        match s1 with
        | String c1 (String c2 s3) =>
            let b1 := N_of_ascii c1 in
            let b2 := N_of_ascii c2 in
            let cp := ((b0 - 224) * 4096 + (b1 - 128) * 64 + (b2 - 128))%N in
            if continuation b1 && continuation b2 && (2048 <=? cp)%N
               && negb ((55296 <=? cp) && (cp <=? 57343))%N
            then cons_opt cp (utf8_decode s3)
            else None
        | _ => None
        end
      else if ((240 <=? b0) && (b0 <=? 244))%N then
        match s1 with
        | String c1 (String c2 (String c3 s4)) =>
            let b1 := N_of_ascii c1 in
            let b2 := N_of_ascii c2 in
            let b3 := N_of_ascii c3 in
            let cp := ((b0 - 240) * 262144 + (b1 - 128) * 4096
                       + (b2 - 128) * 64 + (b3 - 128))%N in
            if continuation b1 && continuation b2 && continuation b3
               && (65536 <=? cp)%N && (cp <=? 1114111)%N
            then cons_opt cp (utf8_decode s4)
            else None
        | _ => None
        end
      else None
  end.

(** [Py_UNICODE_ISSPACE] from 127 on. *)
Definition unicode_space (cp : N) : bool :=
  existsb (N.eqb cp)
    [133; 160; 5760; 8192; 8193; 8194; 8195; 8196; 8197; 8198; 8199; 8200;
     8201; 8202; 8232; 8233; 8239; 8287; 12288]%N.

(** The code points of the digit zero in every script that has decimal
    digits (Unicode 14.0, the table of CPython 3.11); the other nine
    digits of a script follow its zero. *)
Definition decimal_zeros : list N :=
  [48; 1632; 1776; 1984; 2406; 2534; 2662; 2790; 2918; 3046; 3174; 3302;
   3430; 3558; 3664; 3792; 3872; 4160; 4240; 6112; 6160; 6470; 6608; 6784;
   6800; 6992; 7088; 7232; 7248; 42528; 43216; 43264; 43472; 43504; 43600;
   44016; 65296; 66720; 68912; 69734; 69872; 69942; 70096; 70384; 70736;
   70864; 71248; 71360; 71472; 71904; 72016; 72784; 73040; 73120; 92768;
   92864; 93008; 120782; 120792; 120802; 120812; 120822; 123200; 123632;
   125264; 130032]%N.

(** [Py_UNICODE_TODECIMAL] *)
Definition unicode_decimal (cp : N) : option N :=
  match find (fun z => (z <=? cp) && (cp <? z + 10))%N decimal_zeros with
  | Some z => Some (cp - z)%N
  | None => None
  end.

Fixpoint to_ascii (cps : list N) : list N :=
  match cps with
  | [] => []
  | ch :: rest =>
      if (ch <? 127)%N then ch :: to_ascii rest
      else if unicode_space ch then 32%N :: to_ascii rest
      else match unicode_decimal ch with
           | Some d => (48 + d)%N :: to_ascii rest
           | None => [63%N]
           end
  end.

(** A text that is ASCII already is taken as it is. *)
Definition decimal_and_space_to_ascii (cps : list N) : list N :=
  if forallb (fun ch => ch <? 128)%N cps then cps else to_ascii cps.

(** [Py_ISSPACE] *)
Definition is_space (c : N) : bool :=
  ((c =? 32) || ((9 <=? c) && (c <=? 13)))%N.

Fixpoint skip_space (l : list N) : list N :=
  match l with
  | c :: rest => if is_space c then skip_space rest else l
  | [] => []
  end.

(** The run of digits and underscores at the head of [l]: its value, the
    number of digits, and what follows; [None] for two underscores in a
    row and for an underscore at the end of the run. *)
Fixpoint scan_digits (acc : Z) (digits : N) (prev : N) (l : list N)
  : option (Z * N * list N) :=
  match l with
  | c :: rest =>
      if ((48 <=? c) && (c <=? 57))%N
      then scan_digits (10 * acc + (Z.of_N c - 48)) (digits + 1)%N c rest
      else if (c =? 95)%N then
        if (prev =? 95)%N then None else scan_digits acc digits c rest
      else if (prev =? 95)%N then None else Some (acc, digits, l)
  | [] => if (prev =? 95)%N then None else Some (acc, digits, [])
  end.

(** What [int] makes of a text: a number, no literal at all, or more
    digits than the interpreter converts (4300 unless configured). *)
Inductive literal : Type :=
| Literal (z : Z)
| NoLiteral
| TooManyDigits (digits : N).

Definition int_max_str_digits : N := 4300.

Definition long_from_string (l : list N) : literal :=
  let l1 := skip_space l in
  let '(sign, l2) := match l1 with
                     | 43%N :: r => (1, r)
                     | 45%N :: r => (-1, r)
                     | _ => (1, l1)
                     end in
  match l2 with
  | 95%N :: _ => NoLiteral
  | _ =>
      match scan_digits 0 0 0 l2 with
      | None => NoLiteral
      | Some (v, digits, rest) =>
          if (int_max_str_digits <? digits)%N then TooManyDigits digits
          else if (digits =? 0)%N then NoLiteral
          else match skip_space rest with
               | [] => Literal (sign * v)
               | _ :: _ => NoLiteral
               end
      end
  end.

Definition int_literal (s : string) : literal :=
  match utf8_decode s with
  | Some cps => long_from_string (decimal_and_space_to_ascii cps)
  | None => NoLiteral
  end.

(** [int(s)] for a string [s], when it does not raise. *)
Definition int_of_string (s : string) : option Z :=
  match int_literal s with
  | Literal z => Some z
  | _ => None
  end.

(** [str(z)] for an integer. *)
Definition str_int (z : Z) : string := NilZero.string_of_int (Z.to_int z).

(** The [ValueError] of [int(s)]. *)
Definition int_error (s : string) : exn :=
  match int_literal s with
  | TooManyDigits digits =>
      ValueError ("Exceeds the limit (" ++ str_int (Z.of_N int_max_str_digits)
                  ++ " digits) for integer string conversion: value has "
                  ++ str_int (Z.of_N digits)
                  ++ " digits; use sys.set_int_max_str_digits() to increase the limit")
  | _ => ValueError ("invalid literal for int() with base 10: '" ++ s ++ "'")
  end.

(** Names of the value's class, as they appear in messages. *)
Definition type_name (v : json) : string :=
  match v with
  | JNull => "NoneType"
  | JBool _ => "bool"
  | JNum _ => "int"
  | JStr _ => "str"
  | JArr _ => "list"
  | JObj _ => "dict"
  end.

(** [int(v)] *)
Definition py_int (v : json) : result Z :=
  match v with
  | JNum z => Ok z
  | JBool b => Ok (if b then 1 else 0)
  | JStr s =>
      match int_of_string s with
      | Some z => Ok z
      | None => Raise (int_error s)
      end
  | _ => Raise (TypeError ("int() argument must be a string, a bytes-like object or a real number, not '" ++ type_name v ++ "'"))
  end.

(** A value used as a number in [+], [-] and [>] against a number
    ([bool] is a subclass of [int]). *)
Definition as_number (v : json) : result Z :=
  match v with
  | JNum z => Ok z
  | JBool b => Ok (if b then 1 else 0)
  | _ => Raise (TypeError ("unsupported operand type(s): '" ++ type_name v ++ "'"))
  end.

(** [str.lower] on the ASCII range. *)
Definition lower_char (c : ascii) : ascii :=
  let n := nat_of_ascii c in
  if ((65 <=? n) && (n <=? 90))%nat then ascii_of_nat (n + 32) else c.

Fixpoint lower (s : string) : string :=
  match s with
  | EmptyString => EmptyString
  | String c s' => String (lower_char c) (lower s')
  end.

(** [sub in s] for two strings. *)
Definition str_contains (sub s : string) : bool :=
  match index 0 sub s with Some _ => true | None => false end.

(** [c not in s] *)
Fixpoint lacks (c : ascii) (s : string) : bool :=
  match s with
  | EmptyString => true
  | String a s' => negb (Ascii.eqb a c) && lacks c s'
  end.

(** ** [str.replace] *)

(** [replace_aux old new skip s]: [skip] characters of a match that has
    just been replaced are still to be dropped. *)
Fixpoint replace_aux (old new : string) (skip : nat) (s : string) : string :=
  match s with
  | EmptyString => EmptyString
  | String c s' =>
      match skip with
      | S k => replace_aux old new k s'
      | O =>
          if prefix old s
          then new ++ replace_aux old new (String.length old - 1)%nat s'
          else String c (replace_aux old new 0 s')
      end
  end.

(** [s.replace(old, new)] for a non-empty [old]: every non-overlapping
    occurrence, leftmost first. *)
Definition replace (old new s : string) : string := replace_aux old new 0 s.

(** ** [urllib.parse.urlencode] *)

Definition is_alnum (c : ascii) : bool :=
  let n := nat_of_ascii c in
  (((48 <=? n) && (n <=? 57)) || ((65 <=? n) && (n <=? 90))
   || ((97 <=? n) && (n <=? 122)))%nat.

(** The characters [quote] never escapes: letters, digits and [_.-~]. *)
Definition always_safe (c : ascii) : bool :=
  is_alnum c || Ascii.eqb c "_" || Ascii.eqb c "." || Ascii.eqb c "-"
  || Ascii.eqb c "~".

Definition hex_digit (n : nat) : ascii :=
  if (n <? 10)%nat then ascii_of_nat (48 + n) else ascii_of_nat (55 + n).

(** One character under [quote_plus]: kept, turned into [+] (a space),
    or escaped as [%XX]. *)
Definition quote_char (c : ascii) : string :=
  if always_safe c then String c ""
  else if Ascii.eqb c " " then "+"
  else String "%" (String (hex_digit (nat_of_ascii c / 16))
                     (String (hex_digit (nat_of_ascii c mod 16)) "")).

Fixpoint quote_plus (s : string) : string :=
  match s with
  | EmptyString => EmptyString
  | String c s' => quote_char c ++ quote_plus s'
  end.

(** The characters a quoted string is made of: the ones never escaped,
    [+] for a space, and [%] that starts an escape. *)
Definition quoted_char (c : ascii) : bool :=
  always_safe c || Ascii.eqb c "+" || Ascii.eqb c "%".

(** [urlencode(params)] for a dict of strings, in insertion order. *)
Fixpoint urlencode (params : list (string * string)) : string :=
  match params with
  | [] => ""
  | [(k, v)] => quote_plus k ++ "=" ++ quote_plus v
  | (k, v) :: rest => quote_plus k ++ "=" ++ quote_plus v ++ "&" ++ urlencode rest
  end.

(** The decimal numeral that starts with the digit [d]. *)
Definition decimal_digit (d : Z) (rest : Decimal.uint) : Decimal.uint :=
  match d with
  | 0 => Decimal.D0 rest | 1 => Decimal.D1 rest | 2 => Decimal.D2 rest
  | 3 => Decimal.D3 rest | 4 => Decimal.D4 rest | 5 => Decimal.D5 rest
  | 6 => Decimal.D6 rest | 7 => Decimal.D7 rest | 8 => Decimal.D8 rest
  | _ => Decimal.D9 rest
  end.

(** The double quote and the line feed, for the texts that hold them. *)
Definition dq : string := String (ascii_of_nat 34) "".
Definition lf : string := String (ascii_of_nat 10) "".

End Py.

(* ================================================================== *)
(** * The [datetime] module and [pytz] *)
(* ================================================================== *)

Module Datetime.
Import Py.

(** A [datetime.datetime].  The attached [tzinfo] is represented by the
    UTC offset it gives this value, in microseconds east of UTC (the
    resolution of [timedelta]); [None] is a naive value. *)
Record datetime : Type := mkdatetime {
  year : Z;
  month : Z;
  day : Z;
  hour : Z;
  minute : Z;
  second : Z;
  microsecond : Z;
  utcoffset : option Z
}.

Definition MINYEAR : Z := 1.
Definition MAXYEAR : Z := 9999.

Definition is_leap (y : Z) : bool :=
  (y mod 4 =? 0) && (negb (y mod 100 =? 0) || (y mod 400 =? 0)).

Definition days_in_month (y m : Z) : Z :=
  if m =? 2 then (if is_leap y then 29 else 28)
  else if (m =? 4) || (m =? 6) || (m =? 9) || (m =? 11) then 30
  else 31.

Definition valid_date (y m d : Z) : bool :=
  (MINYEAR <=? y) && (y <=? MAXYEAR) && (1 <=? m) && (m <=? 12)
  && (1 <=? d) && (d <=? days_in_month y m).

Definition valid_time (h mi s us : Z) : bool :=
  (0 <=? h) && (h <=? 23) && (0 <=? mi) && (mi <=? 59)
  && (0 <=? s) && (s <=? 59) && (0 <=? us) && (us <=? 999999).

(** The fields of [dt] are those of a date and of a time. *)
Definition well_formed (dt : datetime) : bool :=
  valid_date (year dt) (month dt) (day dt)
  && valid_time (hour dt) (minute dt) (second dt) (microsecond dt).

(** [dt] without its fraction of a second, at offset zero. *)
Definition utc_seconds (dt : datetime) : datetime :=
  mkdatetime (year dt) (month dt) (day dt) (hour dt) (minute dt) (second dt)
    0 (Some 0).

(** One day, in microseconds. *)
Definition DAY : Z := 86400 * 1000000.

(** ** [datetime.fromisoformat]

    The grammar documented for Python 3.7 to 3.10, the versions for
    which callers write [.replace("Z", "+00:00")]:
    [YYYY-MM-DD[*HH[:MM[:SS[.fff[fff]]]][+HH:MM[:SS[.ffffff]]]]]. *)

Fixpoint take_digits (n : nat) (acc : Z) (s : string) : option (Z * string) :=
  match n with
  | O => Some (acc, s)
  | S n' =>
      match s with
      | String c r =>
          if is_digit c then take_digits n' (10 * acc + digit_val c) r else None
      | EmptyString => None
      end
  end.

Definition parse_fraction (s : string) : option (Z * string) :=
  match take_digits 6 0 s with
  | Some r => Some r
  | None =>
      match take_digits 3 0 s with
      | Some (v, r) => Some (v * 1000, r)
      | None => None
      end
  end.

(** [HH[:MM[:SS[.fff[fff]]]]], returning what follows. *)
Definition parse_hh_mm_ss_ff (s : string) : option (Z * Z * Z * Z * string) :=
  match take_digits 2 0 s with
  | None => None
  | Some (h, String ":" r1) =>
      match take_digits 2 0 r1 with
      | None => None
      | Some (mi, String ":" r2) =>
          match take_digits 2 0 r2 with
          | None => None
          | Some (sec, String "." r3) =>
              match parse_fraction r3 with
              | None => None
              | Some (us, r4) => Some (h, mi, sec, us, r4)
              end
          | Some (sec, r3) => Some (h, mi, sec, 0, r3)
          end
      | Some (mi, r2) => Some (h, mi, 0, 0, r2)
      end
  | Some (h, r1) => Some (h, 0, 0, 0, r1)
  end.

(** The zone suffix after its sign: [HH:MM], [HH:MM:SS] or
    [HH:MM:SS.ffffff], as a number of microseconds. *)
Definition parse_tz (tzstr : string) : option Z :=
  let n := String.length tzstr in
  if ((n =? 5) || (n =? 8) || (n =? 15))%nat then
    match parse_hh_mm_ss_ff tzstr with
    | Some (h, mi, sec, us, EmptyString) =>
        Some ((h * 3600 + mi * 60 + sec) * 1000000 + us)
    | _ => None
    end
  else None.

(** The part after the separator: the time and an optional zone. *)
Definition parse_isoformat_time (tstr : string)
  : option (Z * Z * Z * Z * option Z) :=
  match parse_hh_mm_ss_ff tstr with
  | None => None
  | Some (h, mi, sec, us, EmptyString) => Some (h, mi, sec, us, None)
  | Some (h, mi, sec, us, String sign tzstr) =>
      if Ascii.eqb sign "+" then
        match parse_tz tzstr with
        | Some off => Some (h, mi, sec, us, Some off)
        | None => None
        end
      else if Ascii.eqb sign "-" then
        match parse_tz tzstr with
        | Some off => Some (h, mi, sec, us, Some (- off))
        | None => None
        end
      else None
  end.

(** [YYYY-MM-DD], returning what follows. *)
Definition parse_isoformat_date (s : string) : option (Z * Z * Z * string) :=
  match take_digits 4 0 s with
  | Some (y, String "-" r1) =>
      match take_digits 2 0 r1 with
      | Some (m, String "-" r2) =>
          match take_digits 2 0 r2 with
          | Some (d, r3) => Some (y, m, d, r3)
          | None => None
          end
      | _ => None
      end
  | _ => None
  end.

Definition invalid_isoformat (s : string) : exn :=
  ValueError ("Invalid isoformat string: '" ++ s ++ "'").

(** The messages of the constructor's range checks, in their order. *)
Definition date_error (y m d : Z) : exn :=
  if negb ((MINYEAR <=? y) && (y <=? MAXYEAR)) then
    ValueError ("year " ++ str_int y ++ " is out of range")
  else if negb ((1 <=? m) && (m <=? 12)) then
    ValueError "month must be in 1..12"
  else ValueError "day is out of range for month".

Definition time_error (h mi s us : Z) : exn :=
  if negb ((0 <=? h) && (h <=? 23)) then ValueError "hour must be in 0..23"
  else if negb ((0 <=? mi) && (mi <=? 59)) then
    ValueError "minute must be in 0..59"
  else if negb ((0 <=? s) && (s <=? 59)) then
    ValueError "second must be in 0..59"
  else ValueError "microsecond must be in 0..999999".

(** [timezone(offset)] accepts offsets strictly within a day. *)
Definition valid_offset (off : option Z) : bool :=
  match off with
  | Some o => (- DAY <? o) && (o <? DAY)
  | None => true
  end.

(** The zone is built first, then the constructor checks the fields. *)
Definition new_datetime (y m d h mi s us : Z) (off : option Z)
  : result datetime :=
  if negb (valid_offset off) then
    Raise (ValueError "offset must be a timedelta strictly between -timedelta(hours=24) and timedelta(hours=24).")
  else if negb (valid_date y m d) then Raise (date_error y m d)
  else if negb (valid_time h mi s us) then Raise (time_error h mi s us)
  else Ok (mkdatetime y m d h mi s us off).

Definition fromisoformat (date_string : string) : result datetime :=
  match parse_isoformat_date date_string with
  | None => Raise (invalid_isoformat date_string)
  | Some (y, m, d, EmptyString) => new_datetime y m d 0 0 0 0 None
  | Some (y, m, d, String _ tstr) =>
      match parse_isoformat_time tstr with
      | None => Raise (invalid_isoformat date_string)
      | Some (h, mi, s, us, off) => new_datetime y m d h mi s us off
      end
  end.

(** ** [datetime.isoformat(timespec='seconds')] *)

Definition pad2 (n : Z) : string :=
  String (digit_char (n / 10)) (String (digit_char (n mod 10)) "").

Definition pad4 (n : Z) : string :=
  String (digit_char (n / 1000))
    (String (digit_char (n / 100 mod 10)) (pad2 (n mod 100))).

Definition pad6 (n : Z) : string :=
  pad2 (n / 10000) ++ pad4 (n mod 10000).

Definition format_offset (off : option Z) : string :=
  match off with
  | None => ""
  | Some o =>
      let sign := if o <? 0 then "-" else "+" in
      let a := Z.abs o in
      let hh := a / 3600000000 in
      let mm := a / 60000000 mod 60 in
      let ss := a / 1000000 mod 60 in
      let us := a mod 1000000 in
      sign ++ pad2 hh ++ ":" ++ pad2 mm
      ++ (if (ss =? 0) && (us =? 0) then "" else ":" ++ pad2 ss)
      ++ (if us =? 0 then "" else "." ++ pad6 us)
  end.

(** The date and the time, to the second. *)
Definition isoformat_naive (dt : datetime) : string :=
  pad4 (year dt) ++ "-" ++ pad2 (month dt) ++ "-" ++ pad2 (day dt) ++ "T"
  ++ pad2 (hour dt) ++ ":" ++ pad2 (minute dt) ++ ":" ++ pad2 (second dt).

Definition isoformat_seconds (dt : datetime) : string :=
  isoformat_naive dt ++ format_offset (utcoffset dt).

(** [%Y] of [strftime], as glibc prints it: no padding. *)
Definition str_year (y : Z) : string := str_int y.

(** [strftime("%Y-%m-%dT%H:%M:%S")] *)
Definition strftime_iso (dt : datetime) : string :=
  str_year (year dt) ++ "-" ++ pad2 (month dt) ++ "-" ++ pad2 (day dt) ++ "T"
  ++ pad2 (hour dt) ++ ":" ++ pad2 (minute dt) ++ ":" ++ pad2 (second dt).

Definition month_name (m : Z) : string :=
  match m with
  | 1 => "January" | 2 => "February" | 3 => "March" | 4 => "April"
  | 5 => "May" | 6 => "June" | 7 => "July" | 8 => "August"
  | 9 => "September" | 10 => "October" | 11 => "November"
  | _ => "December"
  end.

(** [strftime("%B %d, %Y at %I:%M %p")] in the C locale. *)
Definition strftime_pretty (dt : datetime) : string :=
  let h12 := if hour dt mod 12 =? 0 then 12 else hour dt mod 12 in
  month_name (month dt) ++ " " ++ pad2 (day dt) ++ ", "
  ++ str_year (year dt) ++ " at " ++ pad2 h12 ++ ":" ++ pad2 (minute dt)
  ++ " " ++ (if hour dt <? 12 then "AM" else "PM").

(** ** Calendar arithmetic *)

Definition next_day (ymd : Z * Z * Z) : Z * Z * Z :=
  let '(y, m, d) := ymd in
  if d <? days_in_month y m then (y, m, d + 1)
  else if m <? 12 then (y, m + 1, 1)
  else (y + 1, 1, 1).

Definition prev_day (ymd : Z * Z * Z) : Z * Z * Z :=
  let '(y, m, d) := ymd in
  if 1 <? d then (y, m, d - 1)
  else if 1 <? m then (y, m - 1, days_in_month y (m - 1))
  else (y - 1, 12, 31).

Definition add_days (k : Z) (ymd : Z * Z * Z) : Z * Z * Z :=
  if 0 <=? k then Nat.iter (Z.to_nat k) next_day ymd
  else Nat.iter (Z.to_nat (- k)) prev_day ymd.

(** A month and a day of that month, in any year. *)
Definition valid_month_day (ymd : Z * Z * Z) : Prop :=
  let '(y, m, d) := ymd in 1 <= m <= 12 /\ 1 <= d <= days_in_month y m.

(** Microseconds since midnight. *)
Definition time_of_day (dt : datetime) : Z :=
  ((hour dt * 60 + minute dt) * 60 + second dt) * 1000000 + microsecond dt.

(** The wall-clock value [delta] microseconds after [dt], labelled with
    offset [off]; [OverflowError] outside the years 1 to 9999. *)
Definition shift (dt : datetime) (delta : Z) (off : option Z)
  : result datetime :=
  let t := time_of_day dt + delta in
  let '(y, m, d) := add_days (t / DAY) (year dt, month dt, day dt) in
  let r := t mod DAY in
  if (MINYEAR <=? y) && (y <=? MAXYEAR) then
    Ok (mkdatetime y m d
          (r / 3600000000) (r / 60000000 mod 60) (r / 1000000 mod 60)
          (r mod 1000000) off)
  else Raise (OverflowError "date value out of range").

(** ** Time zones *)

(** A zone's rule, in seconds east of UTC: the offset [localize] gives a
    naive wall-clock value, and the offset in force at a UTC value. *)
Record zone : Type := {
  localize_offset : datetime -> Z;
  fromutc_offset : datetime -> Z
}.

(** The zone table of the installed [pytz], the list [all_timezones] and
    the lookup [timezone(name)], and the zone of the machine, in which
    [astimezone] reads a naive value. *)
Record pytz : Type := {
  all_timezones : list string;
  timezone : string -> option zone;
  system_zone : zone
}.

(** [tz.localize(dt)] for a naive [dt]. *)
Definition localize (tz : zone) (dt : datetime) : datetime :=
  mkdatetime (year dt) (month dt) (day dt) (hour dt) (minute dt) (second dt)
    (microsecond dt) (Some (localize_offset tz dt * 1000000)).

(** [dt.replace(tzinfo=tz)]: the wall-clock fields stay, the label is
    the zone's offset for them. *)
Definition replace_tzinfo (tz : zone) (dt : datetime) : datetime :=
  mkdatetime (year dt) (month dt) (day dt) (hour dt) (minute dt) (second dt)
    (microsecond dt) (Some (localize_offset tz dt * 1000000)).

(** [pytz.timezone(name)] *)
Definition pytz_timezone (db : pytz) (name : string) : result zone :=
  match timezone db name with
  | Some tz => Ok tz
  | None => Raise (UnknownTimeZoneError ("'" ++ name ++ "'"))
  end.

(** [name in pytz.all_timezones] *)
Definition in_all_timezones (db : pytz) (name : string) : bool :=
  existsb (String.eqb name) (all_timezones db).

(** The offset of [dt] in microseconds; a naive value is read in the
    zone of the machine. *)
Definition offset_of (db : pytz) (dt : datetime) : Z :=
  match utcoffset dt with
  | Some o => o
  | None => localize_offset (system_zone db) dt * 1000000
  end.

(** [dt.astimezone(pytz.UTC)]: the same instant with offset zero. *)
Definition astimezone_utc (db : pytz) (dt : datetime) : result datetime :=
  shift dt (- offset_of db dt) (Some 0).

(** [dt.astimezone(tz)] for a [pytz] zone. *)
Definition astimezone (db : pytz) (tz : zone) (dt : datetime)
  : result datetime :=
  rbind (astimezone_utc db dt) (fun utc =>
    let o := fromutc_offset tz utc * 1000000 in
    shift utc o (Some o)).

End Datetime.

(* ================================================================== *)
(** * The outside world: clock, token file, HTTP *)
(* ================================================================== *)

Module Runtime.
Import Py Datetime.

(** The body of a [requests.post]: [data=] (a form) or [json=]. *)
Inductive payload : Type :=
| FormData (d : dict)
| JsonBody (v : json).

Record request : Type := {
  req_url : string;
  req_headers : list (string * string);
  req_body : payload
}.

(** A [requests.Response]: [json_body] is what [r.json()] returns, [None]
    when [r.text] is not JSON and [r.json()] raises. *)
Record response : Type := {
  status_code : Z;
  headers : list (string * string);
  text : string;
  json_body : option json
}.

(** What the process finds around it.  [clock n] is the value of the
    [n]-th call of [time.time()]; [http] answers a [requests.post] with
    a response, or with the message of the [RequestException] raised
    when no response arrives; [repr] is Python's [repr] of a list or
    dict, used when one is formatted into a message. *)
Record env : Type := {
  tzdb : pytz;
  clock : nat -> Z;
  http : request -> response + string;
  CLIENT_ID : string;
  CLIENT_SECRET : string;
  b64encode : string -> string;
  repr : json -> string
}.

(** What the process changes: the file [zoom_token.json] ([None] when it
    does not exist), the number of clock readings taken, and the requests
    sent so far, oldest first. *)
Record world : Type := {
  token_file : option dict;
  ticks : nat;
  sent : list request
}.

(** Computations that read [env], update [world], and may raise. *)
Definition M (A : Type) : Type := world -> result A * world.

Definition ret {A} (a : A) : M A := fun w => (Ok a, w).

Definition bind {A B} (m : M A) (k : A -> M B) : M B :=
  fun w =>
    match m w with
    | (Ok a, w') => k a w'
    | (Raise e, w') => (Raise e, w')
    end.

Definition lift {A} (r : result A) : M A := fun w => (r, w).

Definition raise {A} (e : exn) : M A := fun w => (Raise e, w).

Declare Scope py_scope.
Delimit Scope py_scope with py.
Notation "x <- m ;; k" := (bind m (fun x => k))
  (at level 61, m at next level, right associativity) : py_scope.
Notation "m ;;; k" := (bind m (fun _ => k))
  (at level 61, right associativity) : py_scope.

(** The three ways the world changes. *)
Definition tick (w : world) : world :=
  {| token_file := token_file w; ticks := S (ticks w); sent := sent w |}.

Definition log (rq : request) (w : world) : world :=
  {| token_file := token_file w; ticks := ticks w; sent := sent w ++ [rq] |}.

Definition write (token : dict) (w : world) : world :=
  {| token_file := Some token; ticks := ticks w; sent := sent w |}.

(** [time.time()] *)
Definition time_time (e : env) : M Z :=
  fun w => (Ok (clock e (ticks w)), tick w).

(** [requests.post(...)] *)
Definition requests_post (e : env) (rq : request) : M response :=
  fun w =>
    (match http e rq with
     | inl r => Ok r
     | inr msg => Raise (RequestException msg)
     end,
     log rq w).

(** [r.headers.get(name)]: header names compare without case. *)
Fixpoint header_get (name : string) (hs : list (string * string))
  : option string :=
  match hs with
  | [] => None
  | (k, v) :: hs' =>
      if String.eqb (lower k) (lower name) then Some v
      else header_get name hs'
  end.

(** [r.json()] *)
Definition response_json (r : response) : result json :=
  match json_body r with
  | Some v => Ok v
  | None => Raise (ValueError "Expecting value: line 1 column 1 (char 0)")
  end.

(** [str(v)], as an f-string formats a value. *)
Definition py_str (e : env) (v : json) : string :=
  match v with
  | JStr s => s
  | JNull => "None"
  | JBool true => "True"
  | JBool false => "False"
  | JNum z => str_int z
  | _ => repr e v
  end.

(** [key in data] *)
Definition py_contains (key : string) (data : json) : result bool :=
  match data with
  | JObj d => Ok (dict_has key d)
  | JArr l =>
      Ok (existsb (fun v => match v with
                            | JStr s => String.eqb s key
                            | _ => false
                            end) l)
  | JStr s => Ok (str_contains key s)
  | _ => Raise (TypeError ("argument of type '" ++ type_name data ++ "' is not iterable"))
  end.

(** [data[key]] for a string key. *)
Definition py_getitem (data : json) (key : string) : result json :=
  match data with
  | JObj d =>
      match dict_get key d with
      | Some v => Ok v
      | None => Raise (KeyError ("'" ++ key ++ "'"))
      end
  | JArr _ => Raise (TypeError "list indices must be integers or slices, not str")
  | JStr _ => Raise (TypeError "string indices must be integers")
  | _ => Raise (TypeError ("'" ++ type_name data ++ "' object is not subscriptable"))
  end.

(** [data.get(key, default)] *)
Definition py_get (data : json) (key : string) (default : json)
  : result json :=
  match data with
  | JObj d => Ok (dict_get_default key default d)
  | _ => Raise (AttributeError ("'" ++ type_name data ++ "' object has no attribute 'get'"))
  end.

End Runtime.

(* ================================================================== *)
(** * [app.py] *)
(* ================================================================== *)

Module App.
Import Py Datetime Runtime.
Local Open Scope py_scope.

(** What a view returns: [jsonify(body), status]. *)
Record reply : Type := {
  body : json;
  status : Z
}.

(** The fields of a request that passed lines 132 to 160. *)
Record MeetingRequest : Type := {
  topic : json;
  duration : Z;
  iso_start : string;
  timezone_str : string
}.

Definition required : list string :=
  ["topic"; "start_time"; "duration"; "timezone"].

(** The fields of an accepted request, put back into a request body. *)
Definition normalized (mr : MeetingRequest) : json :=
  JObj [("topic", topic mr);
        ("start_time", JStr (iso_start mr));
        ("duration", JNum (duration mr));
        ("timezone", JStr (timezone_str mr))].

Definition error_reply (msg : string) (code : Z) : reply :=
  {| body := JObj [("success", JBool false); ("error", JStr msg)];
     status := code |}.

(** The handler's last clause: [except Exception as e]. *)
Definition internal_error (ex : exn) : reply := error_reply (str_exn ex) 500.

(** The reply to [FileNotFoundError] from the token block. *)
Definition token_not_found : reply :=
  {| body := JObj [("success", JBool false);
                   ("error", JStr "zoom_token.json not found");
                   ("setup_url", JStr "http://localhost:5000/oauth/login")];
     status := 401 |}.

Definition rate_limited (retry : Z) : reply :=
  {| body := JObj [("error", JStr "Rate limited"); ("retry_after", JNum retry)];
     status := 429 |}.

(** [token.get("expires_at", 0)] as the number it is compared as. *)
Definition expires_at_of (token : dict) : result Z :=
  as_number (dict_get_default "expires_at" (JNum 0) token).

(** The loop over [required]: the first field not in [data]. *)
Fixpoint first_missing (fields : list string) (data : json)
  : result (option string) :=
  match fields with
  | [] => Ok None
  | field :: rest =>
      rbind (py_contains field data) (fun present =>
        if present then first_missing rest data else Ok (Some field))
  end.

Section WithEnv.
Variable e : env.

(** ** Token helpers *)

Definition save_token (token : dict) : M unit :=
  fun w => (Ok tt, write token w).

Definition load_token : M dict :=
  fun w =>
    match token_file w with
    | None => (Raise (FileNotFoundError "zoom_token.json not found"), w)
    | Some token =>
        if negb (dict_has "expires_at" token) then
          (now <- time_time e ;;
           life <- lift (as_number
                           (dict_get_default "expires_in" (JNum 3600) token)) ;;
           let token' := dict_set "expires_at" (JNum (now + life)) token in
           save_token token' ;;; ret token') w
        else (Ok token, w)
    end.

Definition token_expired (token : dict) : M bool :=
  now <- time_time e ;;
  expires_at <- lift (as_number
                        (dict_get_default "expires_at" (JNum 0) token)) ;;
  ret (now >? expires_at - 120).

Definition TOKEN_URL : string := "https://zoom.us/oauth/token".

(** The refresh exchange, lines 61 to 68. *)
Definition refresh_call (refresh_token : json) : request :=
  let auth := b64encode e (CLIENT_ID e ++ ":" ++ CLIENT_SECRET e) in
  {| req_url := TOKEN_URL;
     req_headers := [("Authorization", "Basic " ++ auth)];
     req_body := FormData [("grant_type", JStr "refresh_token");
                           ("refresh_token", refresh_token)] |}.

Definition refresh_access_token (token : dict) : M dict :=
  refresh_token <- lift (py_getitem (JObj token) "refresh_token") ;;
  r <- requests_post e (refresh_call refresh_token) ;;
  if negb (status_code r =? 200) then
    raise (RuntimeError ("Token refresh failed: " ++ text r))
  else
    new <- lift (response_json r) ;;
    now <- time_time e ;;
    life <- lift (rbind (py_get new "expires_in" (JNum 3600)) as_number) ;;
    match new with
    | JObj d =>
        let new' := dict_set "expires_at" (JNum (now + life)) d in
        save_token new' ;;; ret new'
    | _ => raise (TypeError ("'" ++ type_name new ++ "' object does not support item assignment"))
    end.

(** ** The view [schedule_meeting] *)

(** Lines 152 to 158: the start time as a UTC string. *)
Definition parse_start_time (start_time_str : json) (timezone_str : string)
  : result string :=
  match start_time_str with
  | JStr s =>
      rbind (fromisoformat (replace "Z" "+00:00" s)) (fun dt =>
      rbind (match utcoffset dt with
             | None =>
                 rbind (pytz_timezone (tzdb e) timezone_str) (fun tz =>
                   Ok (localize tz dt))
             | Some _ => Ok dt
             end) (fun dt =>
      rbind (astimezone_utc (tzdb e) dt) (fun utc_dt =>
      Ok (replace "+00:00" "Z" (isoformat_seconds utc_dt)))))
  | _ => Raise (AttributeError ("'" ++ type_name start_time_str ++ "' object has no attribute 'replace'"))
  end.

(** [timezone_str in pytz.all_timezones]: the name, when the value is
    one of the strings of the list. *)
Definition known_timezone (timezone_str : json) : option string :=
  match timezone_str with
  | JStr name => if in_all_timezones (tzdb e) name then Some name else None
  | _ => None
  end.

(** Lines 132 to 160: an early reply, or the fields of the request; an
    exception here reaches the handler's last clause. *)
Definition validate (data : json) : result (reply + MeetingRequest) :=
  if negb (truthy data) then Ok (inl (error_reply "JSON body required" 400))
  else
    rbind (first_missing required data) (fun missing =>
    match missing with
    | Some field => Ok (inl (error_reply ("Missing: " ++ field) 400))
    | None =>
        rbind (py_getitem data "topic") (fun topic =>
        rbind (rbind (py_getitem data "duration") py_int) (fun duration =>
        rbind (py_getitem data "start_time") (fun start_time_str =>
        rbind (py_getitem data "timezone") (fun timezone_str =>
        match known_timezone timezone_str with
        | None =>
            Ok (inl (error_reply
                       ("Invalid timezone: " ++ py_str e timezone_str) 400))
        | Some name =>
            match parse_start_time start_time_str name with
            | Raise ex =>
                Ok (inl (error_reply
                           ("Invalid start_time: " ++ str_exn ex) 400))
            | Ok iso =>
                Ok (inr {| topic := topic; duration := duration;
                           iso_start := iso; timezone_str := name |})
            end
        end))))
    end).

(** Lines 164 to 166: the stored token, refreshed when it has expired. *)
Definition ensure_valid : M dict :=
  token <- load_token ;;
  expired <- token_expired token ;;
  if expired then refresh_access_token token else ret token.

Definition MEETINGS_URL : string := "https://api.zoom.us/v2/users/me/meetings".

(** The body of the provider call, lines 180 to 191. *)
Definition meeting_payload (data : json) (mr : MeetingRequest)
  : result json :=
  rbind (py_get data "join_before_host" (JBool true)) (fun jbh =>
  rbind (py_get data "mute_upon_entry" (JBool true)) (fun mue =>
  rbind (py_get data "waiting_room" (JBool false)) (fun wr =>
  Ok (JObj [("topic", topic mr);
            ("type", JNum 2);
            ("start_time", JStr (iso_start mr));
            ("duration", JNum (duration mr));
            ("timezone", JStr (timezone_str mr));
            ("settings", JObj [("join_before_host", jbh);
                               ("mute_upon_entry", mue);
                               ("waiting_room", wr)])])))).

(** The success envelope, lines 205 to 220. *)
Definition created (meeting : json) : result reply :=
  let field k := py_get meeting k JNull in
  rbind (field "id") (fun id =>
  rbind (field "topic") (fun tp =>
  rbind (field "join_url") (fun join_url =>
  rbind (field "start_url") (fun start_url =>
  rbind (field "password") (fun password =>
  rbind (field "start_time") (fun start_time =>
  rbind (field "duration") (fun dur =>
  rbind (field "timezone") (fun tz =>
  rbind (field "created_at") (fun created_at =>
  Ok {| body := JObj [("success", JBool true);
                      ("meeting", JObj [("id", id);
                                        ("topic", tp);
                                        ("join_url", join_url);
                                        ("start_url", start_url);
                                        ("password", password);
                                        ("start_time", start_time);
                                        ("duration", dur);
                                        ("timezone", tz);
                                        ("created_at", created_at)])];
        status := 201 |}))))))))).

(** Lines 174 to 220: the provider call and the reading of its answer. *)
Definition provider_call (access_token payload : json) : request :=
  {| req_url := MEETINGS_URL;
     req_headers := [("Authorization", "Bearer " ++ py_str e access_token);
                     ("Content-Type", "application/json")];
     req_body := JsonBody payload |}.

Definition create_meeting (data : json) (mr : MeetingRequest) (token : dict)
  : M reply :=
  access_token <- lift (py_getitem (JObj token) "access_token") ;;
  payload <- lift (meeting_payload data mr) ;;
  r <- requests_post e (provider_call access_token payload) ;;
  if status_code r =? 429 then
    retry <- lift (py_int (match header_get "Retry-After" (Runtime.headers r) with
                           | Some v => JStr v
                           | None => JNum 60
                           end)) ;;
    ret (rate_limited retry)
  else if negb (status_code r =? 201) then
    let err := match response_json r with
               | Ok v => py_str e v
               | Raise _ => text r
               end in
    ret (error_reply err (status_code r))
  else
    meeting <- lift (response_json r) ;;
    lift (created meeting).

(** [POST /api/schedule/] with the parsed body [data]. *)
Definition schedule_meeting (data : json) (w : world) : reply * world :=
  match validate data with
  | Raise ex => (internal_error ex, w)
  | Ok (inl early) => (early, w)
  | Ok (inr mr) =>
      match ensure_valid w with
      | (Raise (FileNotFoundError _), w1) => (token_not_found, w1)
      | (Raise ex, w1) => (internal_error ex, w1)
      | (Ok token, w1) =>
          match create_meeting data mr token w1 with
          | (Ok rep, w2) => (rep, w2)
          | (Raise ex, w2) => (internal_error ex, w2)
          end
      end
  end.

(** ** The OAuth views *)

Definition REDIRECT_URI : string := "http://localhost:5000/oauth/callback".

(** The consent URL of [oauth_login]. *)
Definition authorize_url : string :=
  "https://zoom.us/oauth/authorize?"
  ++ urlencode [("response_type", "code");
                ("client_id", CLIENT_ID e);
                ("redirect_uri", REDIRECT_URI)].

(** [GET /oauth/login]: the page with the consent link. *)
Definition oauth_login : string :=
  lf ++ "    <h2>Zoom OAuth Required</h2>" ++ lf
  ++ "    <p><strong>zoom_token.json</strong> not found. Please authorize the app:</p>" ++ lf
  ++ "    <a href=" ++ dq ++ authorize_url ++ dq ++ " style=" ++ dq
  ++ "padding:10px 20px; background:#0B5CFF; color:white; text-decoration:none; border-radius:5px;"
  ++ dq ++ ">" ++ lf
  ++ "        Login with Zoom" ++ lf
  ++ "    </a>" ++ lf
  ++ "    <p><small>After approval, return here and refresh.</small></p>" ++ lf
  ++ "    ".

(** The exchange of the authorization code, lines 102 to 109;
    [auth=(id, secret)] becomes the Basic header. *)
Definition exchange_call (code : string) : request :=
  let auth := b64encode e (CLIENT_ID e ++ ":" ++ CLIENT_SECRET e) in
  {| req_url := TOKEN_URL;
     req_headers := [("Authorization", "Basic " ++ auth)];
     req_body := FormData [("grant_type", JStr "authorization_code");
                           ("code", JStr code);
                           ("redirect_uri", JStr REDIRECT_URI)] |}.

Definition CALLBACK_DONE : string :=
  lf ++ "    <h2>Success!</h2>" ++ lf
  ++ "    <p><strong>zoom_token.json</strong> created successfully.</p>" ++ lf
  ++ "    <p>You can now use the API:</p>" ++ lf
  ++ "    <pre>curl -X POST http://localhost:5000/api/schedule/ -H " ++ dq
  ++ "Content-Type: application/json" ++ dq ++ " -d '{" ++ dq ++ "topic" ++ dq
  ++ ":" ++ dq ++ "Test" ++ dq ++ "," ++ dq ++ "start_time" ++ dq ++ ":" ++ dq
  ++ "2025-11-15T10:00:00" ++ dq ++ "," ++ dq ++ "duration" ++ dq ++ ":30,"
  ++ dq ++ "timezone" ++ dq ++ ":" ++ dq ++ "Asia/Kolkata" ++ dq ++ "}'</pre>"
  ++ lf
  ++ "    <p><a href=" ++ dq ++ "/" ++ dq ++ ">← Back</a></p>" ++ lf
  ++ "    ".

(** [GET /oauth/callback] with the query parameter [code] ([None] when
    it is not there): the text and the status of the answer.  The view has
    no handler of its own, so an exception leaves it as it was raised. *)
Definition oauth_callback (code : option string) : M (string * Z) :=
  match code with
  | None => ret ("Error: Authorization denied or code missing.", 400)
  | Some c =>
      if String.eqb c "" then
        ret ("Error: Authorization denied or code missing.", 400)
      else
        r <- requests_post e (exchange_call c) ;;
        if negb (status_code r =? 200) then
          ret ("Token exchange failed: " ++ text r, 500)
        else
          token_data <- lift (response_json r) ;;
          now <- time_time e ;;
          life <- lift (rbind (py_get token_data "expires_in" (JNum 3600))
                          as_number) ;;
          match token_data with
          | JObj d =>
              save_token (dict_set "expires_at" (JNum (now + life)) d) ;;;
              ret (CALLBACK_DONE, 200)
          | _ => raise (TypeError ("'" ++ type_name token_data ++ "' object does not support item assignment"))
          end
  end.

End WithEnv.
End App.

(* ================================================================== *)
(** * [root_agent/ZoomAPI.py] *)
(* ================================================================== *)

Module ZoomAPI.
Import Py Datetime Runtime.
Local Open Scope py_scope.

(** The dictionary the tool returns; [artifact] is present on success
    only. *)
Record tool_result : Type := {
  content : string;
  artifact : option json;
  is_error : bool
}.

Definition nl : string := String (ascii_of_nat 10) "".

(** [", ".join(l)] *)
Fixpoint join (sep : string) (l : list string) : string :=
  match l with
  | [] => ""
  | [x] => x
  | x :: rest => x ++ sep ++ join sep rest
  end.

(** [not s] for an argument that is a string or [None]. *)
Definition not_str (s : option string) : bool :=
  match s with
  | None => true
  | Some v => String.eqb v ""
  end.

(** An argument the caller left out, and a duration that is left out or
    not positive. *)
Definition absent (s : option string) : Prop := s = None \/ s = Some "".

Definition nonpositive (duration : option Z) : Prop :=
  duration = None \/ exists d, duration = Some d /\ d <= 0.

(** Step 1: the names appended to [missing], in order. *)
Definition missing_fields (topic start_time : option string)
  (duration : option Z) (timezone : option string) : list string :=
  (if not_str topic then ["topic"] else [])
  ++ (if not_str start_time then ["start_time"] else [])
  ++ (match duration with
      | None => ["duration"]
      | Some d => if d <=? 0 then ["duration"] else []
      end)
  ++ (if not_str timezone then ["timezone"] else []).

Definition ask_missing (missing : list string) : tool_result :=
  {| content := "Please provide the missing details: **" ++ join ", " missing
                ++ "**." ++ nl
                ++ "Example: `topic: Team Sync`, `start_time: 2025-11-16T14:30:00`, etc.";
     artifact := None;
     is_error := false |}.

Definition failure (msg : string) : tool_result :=
  {| content := msg; artifact := None; is_error := true |}.

Definition LOCAL_URL : string := "http://localhost:5000/api/schedule/".

(** Step 4: the call to the local API. *)
Definition local_call (topic utc_start : string) (duration : Z)
  (timezone : string) (join_before_host mute_upon_entry waiting_room : bool)
  : request :=
  {| req_url := LOCAL_URL;
     req_headers := [("Content-Type", "application/json")];
     req_body :=
       JsonBody (JObj [("topic", JStr topic);
                       ("start_time", JStr utc_start);
                       ("duration", JNum duration);
                       ("timezone", JStr timezone);
                       ("join_before_host", JBool join_before_host);
                       ("mute_upon_entry", JBool mute_upon_entry);
                       ("waiting_room", JBool waiting_room)]) |}.

Section WithEnv.
Variable e : env.

(** Step 2, lines 53 to 58: the start time as a UTC string. *)
Definition utc_start (start_time timezone : string) : result string :=
  rbind (fromisoformat (replace "Z" "+00:00" start_time)) (fun dt =>
  rbind (match utcoffset dt with
         | None =>
             rbind (pytz_timezone (tzdb e) timezone) (fun tz =>
               Ok (localize tz dt))
         | Some _ => Ok dt
         end) (fun dt =>
  rbind (astimezone_utc (tzdb e) dt) (fun utc =>
  Ok (replace "+00:00" "Z" (isoformat_seconds utc))))).

(** Step 6: the text shown for a created meeting. *)
Definition success_content (result : json) (duration : Z) (timezone : string)
  : Py.result string :=
  rbind (py_getitem result "meeting") (fun meeting =>
  rbind (py_getitem meeting "start_time") (fun st =>
  rbind (match st with
         | JStr s => fromisoformat (replace "Z" "+00:00" s)
         | _ => Raise (AttributeError ("'" ++ type_name st ++ "' object has no attribute 'replace'"))
         end) (fun local_time =>
  rbind (pytz_timezone (tzdb e) timezone) (fun tz =>
  rbind (astimezone (tzdb e) tz local_time) (fun local_time =>
  let pretty_time := strftime_pretty local_time in
  rbind (py_getitem meeting "topic") (fun tp =>
  rbind (py_getitem meeting "join_url") (fun join_url =>
  rbind (py_getitem meeting "id") (fun id =>
  rbind (py_getitem meeting "password") (fun password =>
  rbind (py_getitem meeting "start_url") (fun start_url =>
  Ok ("**Meeting Scheduled Successfully!**" ++ nl ++ nl
      ++ "**Topic:** " ++ py_str e tp ++ nl
      ++ "**When:** " ++ pretty_time ++ " (" ++ timezone ++ ")" ++ nl
      ++ "**Duration:** " ++ str_int duration ++ " minutes" ++ nl
      ++ "**Join Link:** " ++ py_str e join_url ++ nl
      ++ "**Meeting ID:** `" ++ py_str e id ++ "`" ++ nl
      ++ "**Passcode:** `" ++ py_str e password ++ "`" ++ nl ++ nl
      ++ "_Host start link (private): " ++ py_str e start_url ++ "_"))))))))))).

(** Steps 5 and 6 after the response has arrived. *)
Definition read_response (resp : response) (duration : Z) (timezone : string)
  : tool_result :=
  if (400 <=? status_code resp) && (status_code resp <? 600) then
    failure ("API call failed (HTTP " ++ str_int (status_code resp) ++ "): "
             ++ text resp)
  else
    match rbind (response_json resp) (fun result =>
          rbind (py_get result "success" JNull) (fun success =>
          if negb (truthy success) then
            rbind (py_get result "error" (JStr "Unknown")) (fun err =>
              Ok (failure ("Zoom API error: " ++ py_str e err)))
          else
            rbind (success_content result duration timezone) (fun c =>
              Ok {| content := c; artifact := Some result;
                    is_error := false |})))
    with
    | Ok res => res
    | Raise exc => failure ("Unexpected error: " ++ str_exn exc)
    end.

(** The tool: arguments that the caller may leave out are [None]. *)
Definition schedule_meeting (topic start_time : option string)
  (duration : option Z) (timezone : option string)
  (join_before_host mute_upon_entry waiting_room : bool) (w : world)
  : tool_result * world :=
  match missing_fields topic start_time duration timezone,
        topic, start_time, duration, timezone with
  | [], Some topic, Some start_time, Some duration, Some timezone =>
      match utc_start start_time timezone with
      | Raise ex =>
          (failure ("Invalid start_time format. Use: `YYYY-MM-DDTHH:MM:SS` → "
                    ++ str_exn ex), w)
      | Ok utc =>
          if negb (in_all_timezones (tzdb e) timezone) then
            (failure ("Invalid timezone: `" ++ timezone
                      ++ "`. Use IANA name like `Asia/Kolkata`, `America/New_York`."),
             w)
          else
            match requests_post e
                    (local_call topic utc duration timezone
                       join_before_host mute_upon_entry waiting_room) w with
            | (Ok resp, w') => (read_response resp duration timezone, w')
            | (Raise exc, w') =>
                (failure ("Unexpected error: " ++ str_exn exc), w')
            end
      end
  | missing, _, _, _, _ => (ask_missing missing, w)
  end.

End WithEnv.
End ZoomAPI.

(* ================================================================== *)
(** * The front of [dateutil.parser.parse] *)
(* ================================================================== *)

Module Dateutil.
Import Py Datetime.

(** [dateutil] is a library, not code of the repository.  Embedded here
    is the part of its parser (version 2.9) that a text starting with a
    word goes through before any date is built: the first token of the
    lexer [_timelex] and the tables of [parserinfo] in which the loop of
    [_parse] looks a token up.  What the parser makes of every other text
    is the parameter [rest] of [parse]. *)

Definition is_alpha (c : ascii) : bool :=
  let n := nat_of_ascii c in
  (((65 <=? n) && (n <=? 90)) || ((97 <=? n) && (n <=? 122)))%nat.

Definition is_nul (c : ascii) : bool := (nat_of_ascii c =? 0)%nat.

(** The lexer in its state [a], after the first letter of a word: NUL
    characters are passed over, letters extend the token, and any other
    ASCII character but the dot ends it.  A dot, and a byte of a
    character outside ASCII (which may be a letter), lead to cases that
    are left to [rest]: the answer is [None]. *)
Fixpoint word_tail (s : string) : option string :=
  match s with
  | EmptyString => Some EmptyString
  | String c s' =>
      if is_nul c then word_tail s'
      else if is_alpha c then option_map (String c) (word_tail s')
      else if (Ascii.eqb c ".") || (128 <=? nat_of_ascii c)%nat then None
      else Some EmptyString
  end.

Fixpoint skip_nul (s : string) : string :=
  match s with
  | String c s' => if is_nul c then skip_nul s' else s
  | EmptyString => EmptyString
  end.

(** The first token of the lexer, when the text starts with a letter and
    the token is a word of ASCII letters. *)
Definition leading_word (s : string) : option string :=
  match skip_nul s with
  | String c s' =>
      if is_alpha c then option_map (String c) (word_tail s') else None
  | EmptyString => None
  end.

(** The tables of [parserinfo], with the keys in lower case as
    [_convert] stores them. *)
Definition JUMP : list string :=
  [" "; "."; ","; ";"; "-"; "/"; "'"; "at"; "on"; "and"; "ad"; "m"; "t";
   "of"; "st"; "nd"; "rd"; "th"].

Definition WEEKDAYS : list string :=
  ["mon"; "monday"; "tue"; "tuesday"; "wed"; "wednesday"; "thu";
   "thursday"; "fri"; "friday"; "sat"; "saturday"; "sun"; "sunday"].

Definition MONTHS : list string :=
  ["jan"; "january"; "feb"; "february"; "mar"; "march"; "apr"; "april";
   "may"; "jun"; "june"; "jul"; "july"; "aug"; "august"; "sep"; "sept";
   "september"; "oct"; "october"; "nov"; "november"; "dec"; "december"].

Definition AMPM : list string := ["am"; "a"; "pm"; "p"].

(** The words that [float] reads as a number. *)
Definition FLOAT_WORDS : list string := ["nan"; "inf"; "infinity"].

(** The branches of the loop that take a word as the first token: a
    number, a weekday, a month, am or pm, a word to jump over.  No hour
    has been read yet, so the token is neither a zone name nor the sign
    of an offset. *)
Definition known_word (w : string) : bool :=
  existsb (String.eqb (lower w))
    (FLOAT_WORDS ++ WEEKDAYS ++ MONTHS ++ AMPM ++ JUMP)%list.

(** The texts at whose first token the loop raises [ValueError], which
    [parse] turns into [ParserError]. *)
Definition rejects (timestr : string) : bool :=
  match leading_word timestr with
  | Some w => negb (known_word w)
  | None => false
  end.

(** [dateutil.parser.parse(timestr)] *)
Definition parse (rest : string -> result datetime) (timestr : string)
  : result datetime :=
  if rejects timestr
  then Raise (ParserError ("Unknown string format: " ++ timestr))
  else rest timestr.

End Dateutil.

(* ================================================================== *)
(** * [root_agent/agent.py] *)
(* ================================================================== *)

Module Agent.
Import Py Datetime.

(** The two functions of [dateutil] the tool calls: [tz.gettz], which
    yields no zone for a name it does not know, and [parser.parse], read
    against the date of the day on which it runs. *)
Record dateutil : Type := {
  gettz : string -> option zone;
  parse : string -> result datetime
}.

(** The library itself: the zone files behind [gettz] and the part of
    the parser that comes after its first token are parameters. *)
Definition library (zones : string -> option zone)
  (rest : string -> result datetime) : dateutil :=
  {| gettz := zones; parse := Dateutil.parse rest |}.

Definition convert_to_iso (du : dateutil)
  (datetime_string timezone_iana : string) : string :=
  match gettz du timezone_iana with
  | None => "Error: The timezone '" ++ timezone_iana ++ "' is not valid."
  | Some tz =>
      match parse du datetime_string with
      | Ok dt_obj =>
          let dt_localized := replace_tzinfo tz dt_obj in
          strftime_iso dt_localized
      | Raise _ =>
          "Error: Could not parse '" ++ datetime_string
          ++ "' using timezone '" ++ timezone_iana
          ++ "'. Please specify a clearer date/time."
      end
  end.

End Agent.

(* ================================================================== *)
(** * The tool in front of the view *)
(* ================================================================== *)

Module Pipeline.
Import Py Datetime Runtime.

(** The local API as the tool meets it: a JSON body posted to the URL of
    the tool is handed to the view of [app.py], run in the installation
    [app] with the world [w]; the reply comes back as a response with the
    reply's status and body.  [dumps] is the text of a JSON value.
    Nothing else is served. *)
Definition local_api (app : env) (dumps : json -> string) (w : world)
  : request -> response + string :=
  fun rq =>
    match req_body rq with
    | JsonBody data =>
        if String.eqb (req_url rq) ZoomAPI.LOCAL_URL then
          let rep := fst (App.schedule_meeting app data w) in
          inl {| status_code := App.status rep;
                 headers := [("Content-Type", "application/json")];
                 text := dumps (App.body rep);
                 json_body := Some (App.body rep) |}
        else inr "connection refused"
    | FormData _ => inr "connection refused"
    end.

(** The installation of the tool: that of the view, with the local API
    in the place of the network. *)
Definition tool_env (app : env) (dumps : json -> string) (w : world) : env :=
  {| tzdb := tzdb app;
     clock := clock app;
     http := local_api app dumps w;
     CLIENT_ID := CLIENT_ID app;
     CLIENT_SECRET := CLIENT_SECRET app;
     b64encode := b64encode app;
     repr := repr app |}.

End Pipeline.

(* ================================================================== *)
(** * A small installation, for running the model *)
(* ================================================================== *)

Module Demo.
Import Py Datetime Runtime.

Definition fixed_zone (seconds : Z) : zone :=
  {| localize_offset := fun _ => seconds; fromutc_offset := fun _ => seconds |}.

(** A zone table with two zones of constant offset. *)
Definition demo_pytz : pytz :=
  {| all_timezones := ["Asia/Kolkata"; "UTC"];
     timezone := fun name =>
       if String.eqb name "Asia/Kolkata" then Some (fixed_zone 19800)
       else if String.eqb name "UTC" then Some (fixed_zone 0)
       else None;
     system_zone := fixed_zone 0 |}.

(** The clock reads 1000, 1001, ...; the encoding of the client
    credentials is left as the identity, and [repr] as a fixed text:
    nothing below depends on either. *)
Definition demo_env (answer : request -> response + string) : env :=
  {| tzdb := demo_pytz;
     clock := fun n => 1000 + Z.of_nat n;
     http := answer;
     CLIENT_ID := "client";
     CLIENT_SECRET := "secret";
     b64encode := fun s => s;
     repr := fun _ => "<repr>" |}.

Definition no_network : request -> response + string :=
  fun _ => inr "connection refused".

(** Every request gets the same response. *)
Definition always (r : response) : request -> response + string :=
  fun _ => inl r.

(** The provider's two endpoints, told apart by URL. *)
Definition provider (token_r meeting_r : response)
  : request -> response + string :=
  fun rq =>
    if String.eqb (req_url rq) "https://zoom.us/oauth/token" then inl token_r
    else inl meeting_r.

(** The library with three zones and, past the first token, one text
    that its parser reads: a full date, which [dateutil] reads as this
    value on whatever day it runs. *)
Definition demo_dateutil : Agent.dateutil :=
  Agent.library
    (fun name =>
       if String.eqb name "America/New_York" then Some (fixed_zone (-18000))
       else timezone demo_pytz name)
    (fun s =>
       if String.eqb s "November 5, 2025 at 3 PM"
       then Ok (mkdatetime 2025 11 5 15 0 0 0 None)
       else Raise (ParserError ("Unknown string format: " ++ s))).

Definition sync_request : json :=
  JObj [("topic", JStr "Sync");
        ("start_time", JStr "2025-11-15T10:00:00");
        ("duration", JNum 30);
        ("timezone", JStr "Asia/Kolkata")].

Definition sync_fields : App.MeetingRequest :=
  {| App.topic := JStr "Sync";
     App.duration := 30;
     App.iso_start := "2025-11-15T04:30:00Z";
     App.timezone_str := "Asia/Kolkata" |}.

(** The body of the provider call for [sync_request]. *)
Definition sync_payload : json :=
  JObj [("topic", JStr "Sync");
        ("type", JNum 2);
        ("start_time", JStr "2025-11-15T04:30:00Z");
        ("duration", JNum 30);
        ("timezone", JStr "Asia/Kolkata");
        ("settings", JObj [("join_before_host", JBool true);
                           ("mute_upon_entry", JBool true);
                           ("waiting_room", JBool false)])].

Definition fresh_token : dict :=
  [("access_token", JStr "at-1");
   ("refresh_token", JStr "rt-1");
   ("expires_at", JNum 5000)].

Definition stale_token : dict :=
  [("access_token", JStr "at-0");
   ("refresh_token", JStr "rt-0");
   ("expires_at", JNum 1100)].

Definition world_with (file : option dict) : world :=
  {| token_file := file; ticks := 0; sent := [] |}.

Definition meeting_created : response :=
  {| status_code := 201;
     headers := [("Content-Type", "application/json")];
     text := "{...}";
     json_body := Some (JObj [("id", JNum 81234567890);
                              ("topic", JStr "Sync");
                              ("join_url", JStr "https://zoom.us/j/81234567890");
                              ("start_url", JStr "https://zoom.us/s/81234567890");
                              ("password", JStr "p4ss");
                              ("start_time", JStr "2025-11-15T04:30:00Z");
                              ("duration", JNum 30);
                              ("timezone", JStr "Asia/Kolkata");
                              ("created_at", JStr "2025-11-04T09:00:00Z")]) |}.

Definition too_many_requests (retry_after : option string) : response :=
  {| status_code := 429;
     headers := match retry_after with
                | Some v => [("Retry-After", v)]
                | None => []
                end;
     text := "";
     json_body := None |}.

Definition token_response (status : Z) (fields : dict) : response :=
  {| status_code := status;
     headers := [];
     text := "{...}";
     json_body := Some (JObj fields) |}.

End Demo.

(* ================================================================== *)
(** * Properties *)
(* ================================================================== *)

Import Py Datetime Runtime.

(** ** Dictionaries *)

Lemma dict_get_set_same (k : string) (v : json) (d : dict) :
  dict_get k (dict_set k v d) = Some v.
Proof.
  induction d as [|[k' v'] d IH]; simpl.
  - now rewrite String.eqb_refl.
  - destruct (String.eqb k k') eqn:E; simpl;
      [rewrite String.eqb_refl | rewrite E]; auto.
Qed.

Lemma dict_get_set_other (k k' : string) (v : json) (d : dict) :
  k <> k' -> dict_get k (dict_set k' v d) = dict_get k d.
Proof.
  intros Hne. induction d as [|[k0 v0] d IH]; simpl.
  - destruct (String.eqb_spec k k'); [contradiction | reflexivity].
  - destruct (String.eqb_spec k' k0) as [->|Hk0]; simpl.
    + destruct (String.eqb_spec k k0); [contradiction | reflexivity].
    + destruct (String.eqb_spec k k0); auto.
Qed.

(** ** The view of [app.py] *)

Section AppFacts.
Variable e : env.

(** A body that passes the checks of the view is a JSON object. *)
Lemma validate_is_object (data : json) (mr : App.MeetingRequest) :
  App.validate e data = Ok (inr mr) -> exists d, data = JObj d.
Proof.
  unfold App.validate.
  destruct (negb (truthy data)); [discriminate|].
  destruct (App.first_missing App.required data) as [[f|]|ex];
    cbn [rbind]; try discriminate.
  destruct data as [|b|z|s|l|d]; cbn [py_getitem rbind]; try discriminate.
  intros _. now exists d.
Qed.

(** The provider call of an accepted request can always be built. *)
Lemma meeting_payload_ok (data : json) (mr : App.MeetingRequest) :
  App.validate e data = Ok (inr mr) ->
  exists payload, App.meeting_payload data mr = Ok payload.
Proof.
  intros H. destruct (validate_is_object _ _ H) as [d ->].
  unfold App.meeting_payload. simpl. eauto.
Qed.

End AppFacts.

(** C6.  A request that passes validation while [zoom_token.json] does not
    exist is answered with status 401 and a body carrying the setup URL;
    the world is left as it was, so nothing was sent to the provider. *)
Theorem schedule_without_token (e : env) (data : json)
  (mr : App.MeetingRequest) (w : world) :
  App.validate e data = Ok (inr mr) ->
  token_file w = None ->
  App.schedule_meeting e data w = (App.token_not_found, w)
  /\ App.status App.token_not_found = 401
  /\ (exists fields,
        App.body App.token_not_found = JObj fields
        /\ dict_get "setup_url" fields
           = Some (JStr "http://localhost:5000/oauth/login"))
  /\ sent (snd (App.schedule_meeting e data w)) = sent w.
Proof.
  intros Hv Hf.
  assert (Hrun : App.schedule_meeting e data w = (App.token_not_found, w)).
  { unfold App.schedule_meeting. rewrite Hv.
    unfold App.ensure_valid, bind, App.load_token. now rewrite Hf. }
  rewrite Hrun. split; [reflexivity|]. split; [reflexivity|].
  split; [|reflexivity]. eexists. split; reflexivity.
Qed.

Lemma schedule_without_token_witness :
  App.schedule_meeting (Demo.demo_env Demo.no_network) Demo.sync_request
    (Demo.world_with None)
  = (App.token_not_found, Demo.world_with None)
  /\ App.status App.token_not_found = 401
  /\ (exists fields,
        App.body App.token_not_found = JObj fields
        /\ dict_get "setup_url" fields
           = Some (JStr "http://localhost:5000/oauth/login"))
  /\ sent (snd (App.schedule_meeting (Demo.demo_env Demo.no_network)
                  Demo.sync_request (Demo.world_with None)))
     = sent (Demo.world_with None).
Proof.
  apply (schedule_without_token (Demo.demo_env Demo.no_network)
           Demo.sync_request Demo.sync_fields (Demo.world_with None));
    reflexivity.
Defined.

(** ** The token block *)

Section TokenFacts.
Variable e : env.

Lemma token_expired_run (token : dict) (w : world) (ea : Z) :
  App.expires_at_of token = Ok ea ->
  App.token_expired e token w = (Ok (clock e (ticks w) >? ea - 120), tick w).
Proof.
  intros H. unfold App.token_expired, bind, time_time, lift, ret.
  unfold App.expires_at_of in H. now rewrite H.
Qed.

Lemma refresh_rejected (token : dict) (w : world) (rt : json) (r : response) :
  dict_get "refresh_token" token = Some rt ->
  http e (App.refresh_call e rt) = inl r ->
  status_code r <> 200 ->
  App.refresh_access_token e token w
  = (Raise (RuntimeError ("Token refresh failed: " ++ text r)),
     log (App.refresh_call e rt) w).
Proof.
  intros Hrt Hr Hs.
  unfold App.refresh_access_token, bind, lift, requests_post, raise.
  cbn [py_getitem]. rewrite Hrt, Hr.
  destruct (Z.eqb_spec (status_code r) 200); [contradiction | reflexivity].
Qed.

Lemma refresh_accepted (token : dict) (w : world) (rt : json) (r : response)
  (d : dict) (life : Z) :
  dict_get "refresh_token" token = Some rt ->
  http e (App.refresh_call e rt) = inl r ->
  status_code r = 200 ->
  json_body r = Some (JObj d) ->
  as_number (dict_get_default "expires_in" (JNum 3600) d) = Ok life ->
  App.refresh_access_token e token w
  = (Ok (dict_set "expires_at" (JNum (clock e (ticks w) + life)) d),
     write (dict_set "expires_at" (JNum (clock e (ticks w) + life)) d)
       (tick (log (App.refresh_call e rt) w))).
Proof.
  intros Hrt Hr Hs Hj Hl.
  unfold App.refresh_access_token, bind, lift, requests_post, raise,
    response_json, time_time, App.save_token, ret.
  cbn [py_getitem]. rewrite Hrt, Hr, Hs, Hj. cbn [Z.eqb Pos.eqb negb].
  cbn [py_get rbind]. rewrite Hl. reflexivity.
Qed.

End TokenFacts.

(** C4, as the code has it.  After a successful refresh exchange the
    record returned and written to the token file is the body of the
    provider's response with [expires_at] set to the reading of the clock
    plus the declared lifetime ([expires_in], 3600 when absent).  Its
    refresh token is the one of the response, none when the response has
    none.  Its [expires_at] is beyond the previous one when the refresh
    follows a positive expiry test and the lifetime is at least 120. *)
Theorem refresh_record (e : env) (token : dict) (w : world) (rt : json)
  (r : response) (d : dict) (life : Z) :
  dict_get "refresh_token" token = Some rt ->
  http e (App.refresh_call e rt) = inl r ->
  status_code r = 200 ->
  json_body r = Some (JObj d) ->
  as_number (dict_get_default "expires_in" (JNum 3600) d) = Ok life ->
  exists new w',
    App.refresh_access_token e token w = (Ok new, w')
    /\ token_file w' = Some new
    /\ new = dict_set "expires_at" (JNum (clock e (ticks w) + life)) d
    /\ dict_get "expires_at" new = Some (JNum (clock e (ticks w) + life))
    /\ dict_get "refresh_token" new = dict_get "refresh_token" d
    /\ (forall old tested,
          App.expires_at_of token = Ok old ->
          tested > old - 120 ->
          tested <= clock e (ticks w) ->
          120 <= life ->
          clock e (ticks w) + life > old).
Proof.
  intros Hrt Hr Hs Hj Hl.
  eexists. eexists. split.
  { apply (refresh_accepted e token w rt r d life); assumption. }
  split; [reflexivity|]. split; [reflexivity|].
  split; [apply dict_get_set_same|].
  split; [apply dict_get_set_other; discriminate|].
  intros old tested _ Ht Hle Hlife. lia.
Qed.

Lemma refresh_record_witness :
  exists new w',
    App.refresh_access_token
      (Demo.demo_env (Demo.always (Demo.token_response 200
         [("access_token", JStr "at-2"); ("refresh_token", JStr "rt-2");
          ("expires_in", JNum 3599)])))
      Demo.stale_token (Demo.world_with (Some Demo.stale_token))
    = (Ok new, w')
    /\ token_file w' = Some new
    /\ new = [("access_token", JStr "at-2"); ("refresh_token", JStr "rt-2");
              ("expires_in", JNum 3599); ("expires_at", JNum 4599)]
    /\ dict_get "expires_at" new = Some (JNum 4599)
    /\ dict_get "refresh_token" new = Some (JStr "rt-2")
    /\ (forall old tested,
          App.expires_at_of Demo.stale_token = Ok old ->
          tested > old - 120 -> tested <= 1000 -> 120 <= 3599 ->
          1000 + 3599 > old).
Proof.
  apply (refresh_record
           (Demo.demo_env (Demo.always (Demo.token_response 200
              [("access_token", JStr "at-2"); ("refresh_token", JStr "rt-2");
               ("expires_in", JNum 3599)])))
           Demo.stale_token (Demo.world_with (Some Demo.stale_token))
           (JStr "rt-0")
           (Demo.token_response 200
              [("access_token", JStr "at-2"); ("refresh_token", JStr "rt-2");
               ("expires_in", JNum 3599)])
           [("access_token", JStr "at-2"); ("refresh_token", JStr "rt-2");
            ("expires_in", JNum 3599)]
           3599); reflexivity.
Defined.

(** C4 as stated fails.  The stored record holds refresh token [rt-0] and
    expires at 1100; the refresh runs at 1000 and the provider answers 200
    with a lifetime of 60 seconds and no refresh token.  The record
    returned and written has no refresh token, and expires at 1060, before
    the previous 1100. *)
Lemma refresh_drops_refresh_token :
  let answer := Demo.token_response 200
                  [("access_token", JStr "at-2"); ("expires_in", JNum 60)] in
  let e := Demo.demo_env (Demo.always answer) in
  exists new w',
    App.refresh_access_token e Demo.stale_token
      (Demo.world_with (Some Demo.stale_token)) = (Ok new, w')
    /\ token_file w' = Some new
    /\ dict_get "refresh_token" Demo.stale_token = Some (JStr "rt-0")
    /\ dict_get "refresh_token" new = None
    /\ dict_get "expires_at" Demo.stale_token = Some (JNum 1100)
    /\ dict_get "expires_at" new = Some (JNum 1060)
    /\ ~ (1060 > 1100).
Proof.
  cbv zeta. eexists. eexists.
  split; [vm_compute; reflexivity|].
  repeat (split; [reflexivity|]). lia.
Qed.

Lemma load_token_sent (e : env) (w w0 : world) (token : dict) :
  App.load_token e w = (Ok token, w0) -> sent w0 = sent w.
Proof.
  unfold App.load_token. destruct (token_file w) as [tok|]; [|discriminate].
  destruct (negb (dict_has "expires_at" tok)).
  - unfold bind, time_time, lift, App.save_token, ret.
    destruct (as_number _); [|discriminate].
    intros H. inversion H. reflexivity.
  - intros H. inversion H. reflexivity.
Qed.

Lemma ensure_valid_run (e : env) (w w0 : world) (token : dict) (ea : Z) :
  App.load_token e w = (Ok token, w0) ->
  App.expires_at_of token = Ok ea ->
  App.ensure_valid e w
  = if clock e (ticks w0) >? ea - 120
    then App.refresh_access_token e token (tick w0)
    else (Ok token, tick w0).
Proof.
  intros Hl Hea. unfold App.ensure_valid, bind at 1. rewrite Hl.
  unfold bind at 1. rewrite (token_expired_run e token w0 ea Hea).
  destruct (clock e (ticks w0) >? ea - 120); reflexivity.
Qed.

(** C1, as the code has it.  The stored record counts as expired exactly
    when the reading of the clock exceeds [expires_at - 120].  A record
    that is not expired is returned as it is, and then lies at least 120
    seconds ahead of that reading.  An expired record starts a refresh
    exchange; when the provider does not answer 200 the view answers 500
    and nothing but the refresh exchange has been sent; when it does, the
    record returned and stored expires at the reading of the clock taken
    during the refresh plus the lifetime the provider declared. *)
Theorem ensure_valid_margin (e : env) (w w0 : world) (token : dict) (ea : Z) :
  App.load_token e w = (Ok token, w0) ->
  App.expires_at_of token = Ok ea ->
  let now := clock e (ticks w0) in
  App.token_expired e token w0 = (Ok (now >? ea - 120), tick w0)
  /\ ((now >? ea - 120) = true <-> now > ea - 120)
  /\ (now <= ea - 120 ->
      App.ensure_valid e w = (Ok token, tick w0) /\ now + 120 <= ea)
  /\ (now > ea - 120 ->
      App.ensure_valid e w = App.refresh_access_token e token (tick w0))
  /\ (now > ea - 120 ->
      forall rt r,
        dict_get "refresh_token" token = Some rt ->
        http e (App.refresh_call e rt) = inl r ->
        status_code r <> 200 ->
        forall data mr,
          App.validate e data = Ok (inr mr) ->
          exists w',
            App.schedule_meeting e data w
            = (App.internal_error
                 (RuntimeError ("Token refresh failed: " ++ text r)), w')
            /\ sent w' = (sent w ++ [App.refresh_call e rt])%list)
  /\ (now > ea - 120 ->
      forall rt r d life,
        dict_get "refresh_token" token = Some rt ->
        http e (App.refresh_call e rt) = inl r ->
        status_code r = 200 ->
        json_body r = Some (JObj d) ->
        as_number (dict_get_default "expires_in" (JNum 3600) d) = Ok life ->
        exists new w',
          App.ensure_valid e w = (Ok new, w')
          /\ token_file w' = Some new
          /\ dict_get "expires_at" new
             = Some (JNum (clock e (S (ticks w0)) + life))).
Proof.
  intros Hl Hea now.
  pose proof (ensure_valid_run e w w0 token ea Hl Hea) as Hrun.
  fold now in Hrun.
  split; [apply token_expired_run; assumption|].
  split; [rewrite Z.gtb_ltb, Z.ltb_lt; lia|].
  split.
  { intros Hle. rewrite Hrun.
    replace (now >? ea - 120) with false
      by (symmetry; rewrite Z.gtb_ltb; apply Z.ltb_ge; lia).
    split; [reflexivity | lia]. }
  assert (Hexp : now > ea - 120 -> (now >? ea - 120) = true)
    by (intros; rewrite Z.gtb_ltb; apply Z.ltb_lt; lia).
  split; [intros Hgt; rewrite Hrun, (Hexp Hgt); reflexivity|].
  split.
  - intros Hgt rt r Hrt Hr Hs data mr Hv.
    eexists. split.
    + unfold App.schedule_meeting. rewrite Hv, Hrun, (Hexp Hgt).
      rewrite (refresh_rejected e token (tick w0) rt r Hrt Hr Hs).
      reflexivity.
    + cbn [sent log tick]. now rewrite (load_token_sent e w w0 token Hl).
  - intros Hgt rt r d life Hrt Hr Hs Hj Hlife.
    eexists. eexists. split; [|split].
    + rewrite Hrun, (Hexp Hgt).
      apply (refresh_accepted e token (tick w0) rt r d life); assumption.
    + reflexivity.
    + cbn [ticks tick log]. apply dict_get_set_same.
Qed.

Lemma ensure_valid_margin_witness :
  let e := Demo.demo_env Demo.no_network in
  let w := Demo.world_with (Some Demo.fresh_token) in
  App.load_token e w = (Ok Demo.fresh_token, w)
  /\ App.expires_at_of Demo.fresh_token = Ok 5000
  /\ App.ensure_valid e w = (Ok Demo.fresh_token, tick w)
  /\ 1000 + 120 <= 5000.
Proof.
  cbv zeta. split; [reflexivity|]. split; [reflexivity|].
  destruct (ensure_valid_margin (Demo.demo_env Demo.no_network)
              (Demo.world_with (Some Demo.fresh_token))
              (Demo.world_with (Some Demo.fresh_token))
              Demo.fresh_token 5000 eq_refl eq_refl) as (_ & _ & H & _).
  apply H. simpl. lia.
Defined.

(** C1 as stated fails.  The stored record expires at 1100 and the clock
    reads 1000, so the record counts as expired; the provider answers the
    refresh with 200 and a lifetime of 60 seconds.  The record that comes
    back expires at 1061, less than 120 seconds after 1001, the last
    reading taken before it is returned, and the view goes on to create
    the meeting with it. *)
Lemma short_lifetime_breaks_margin :
  let answer := Demo.token_response 200
                  [("access_token", JStr "at-2"); ("expires_in", JNum 60)] in
  let e := Demo.demo_env (Demo.provider answer Demo.meeting_created) in
  let w := Demo.world_with (Some Demo.stale_token) in
  exists new w',
    App.ensure_valid e w = (Ok new, w')
    /\ ticks w' = 2%nat
    /\ clock e 1 = 1001
    /\ dict_get "expires_at" new = Some (JNum 1061)
    /\ ~ (1001 + 120 <= 1061)
    /\ App.status (fst (App.schedule_meeting e Demo.sync_request w)) = 201.
Proof.
  cbv zeta. eexists. eexists.
  split; [vm_compute; reflexivity|].
  repeat (split; [reflexivity|]).
  split; [lia | reflexivity].
Qed.

(** ** The provider call *)

Lemma create_meeting_run (e : env) (data : json) (mr : App.MeetingRequest)
  (token : dict) (w : world) (at_ payload : json) (r : response) :
  dict_get "access_token" token = Some at_ ->
  App.meeting_payload data mr = Ok payload ->
  http e (App.provider_call e at_ payload) = inl r ->
  App.create_meeting e data mr token w
  = (if status_code r =? 429 then
       rbind (py_int (match header_get "Retry-After" (headers r) with
                      | Some v => JStr v
                      | None => JNum 60
                      end))
         (fun retry => Ok (App.rate_limited retry))
     else if negb (status_code r =? 201) then
       Ok (App.error_reply (match response_json r with
                            | Ok v => py_str e v
                            | Raise _ => text r
                            end) (status_code r))
     else rbind (response_json r) App.created,
     log (App.provider_call e at_ payload) w).
Proof.
  intros Hat Hp Hr.
  unfold App.create_meeting, bind, lift, requests_post, ret.
  cbn [py_getitem]. rewrite Hat, Hp, Hr.
  destruct (status_code r =? 429).
  - destruct (py_int _); reflexivity.
  - destruct (negb (status_code r =? 201)); [reflexivity|].
    destruct (response_json r); reflexivity.
Qed.

(** C7, as the code has it.  When the provider answers the create call
    with 429, the reply is the rate-limit reply with 60 when the response
    has no [Retry-After] header, and with the header's value when that is
    an integer literal; the create call is the only request sent after the
    token block. *)
Theorem rate_limit_reply (e : env) (data : json) (mr : App.MeetingRequest)
  (w w1 : world) (token : dict) (at_ payload : json) (r : response) :
  App.validate e data = Ok (inr mr) ->
  App.ensure_valid e w = (Ok token, w1) ->
  dict_get "access_token" token = Some at_ ->
  App.meeting_payload data mr = Ok payload ->
  http e (App.provider_call e at_ payload) = inl r ->
  status_code r = 429 ->
  sent (snd (App.schedule_meeting e data w))
  = (sent w1 ++ [App.provider_call e at_ payload])%list
  /\ (header_get "Retry-After" (headers r) = None ->
      fst (App.schedule_meeting e data w) = App.rate_limited 60)
  /\ (forall v n,
        header_get "Retry-After" (headers r) = Some v ->
        int_of_string v = Some n ->
        fst (App.schedule_meeting e data w) = App.rate_limited n
        /\ App.status (App.rate_limited n) = 429
        /\ App.body (App.rate_limited n)
           = JObj [("error", JStr "Rate limited"); ("retry_after", JNum n)]).
Proof.
  intros Hv He Hat Hp Hr Hs.
  assert (Hrun : App.schedule_meeting e data w
                 = match rbind (py_int
                                  (match header_get "Retry-After" (headers r) with
                                   | Some v => JStr v
                                   | None => JNum 60
                                   end))
                           (fun retry => Ok (App.rate_limited retry)) with
                   | Ok rep => (rep, log (App.provider_call e at_ payload) w1)
                   | Raise ex =>
                       (App.internal_error ex,
                        log (App.provider_call e at_ payload) w1)
                   end).
  { unfold App.schedule_meeting. rewrite Hv, He.
    rewrite (create_meeting_run e data mr token w1 at_ payload r Hat Hp Hr).
    rewrite Hs. cbn [Z.eqb Pos.eqb].
    destruct (rbind _ _); reflexivity. }
  rewrite Hrun. split; [|split].
  - destruct (rbind _ _); reflexivity.
  - intros Hn. rewrite Hn. reflexivity.
  - intros v n Hh Hn. rewrite Hh. cbn [py_int]. rewrite Hn.
    repeat split.
Qed.

Lemma rate_limit_reply_witness :
  let e := Demo.demo_env (Demo.always (Demo.too_many_requests (Some "45"))) in
  let w := Demo.world_with (Some Demo.fresh_token) in
  header_get "Retry-After" (headers (Demo.too_many_requests (Some "45")))
  = Some "45"
  /\ int_of_string "45" = Some 45
  /\ fst (App.schedule_meeting e Demo.sync_request w) = App.rate_limited 45.
Proof.
  cbv zeta. split; [reflexivity|]. split; [reflexivity|].
  destruct (rate_limit_reply
              (Demo.demo_env (Demo.always (Demo.too_many_requests (Some "45"))))
              Demo.sync_request Demo.sync_fields
              (Demo.world_with (Some Demo.fresh_token))
              (tick (Demo.world_with (Some Demo.fresh_token)))
              Demo.fresh_token (JStr "at-1")
              (JObj [("topic", JStr "Sync"); ("type", JNum 2);
                     ("start_time", JStr "2025-11-15T04:30:00Z");
                     ("duration", JNum 30);
                     ("timezone", JStr "Asia/Kolkata");
                     ("settings", JObj [("join_before_host", JBool true);
                                        ("mute_upon_entry", JBool true);
                                        ("waiting_room", JBool false)])])
              (Demo.too_many_requests (Some "45"))
              eq_refl eq_refl eq_refl eq_refl eq_refl eq_refl)
    as (_ & _ & H).
  exact (proj1 (H "45" 45 eq_refl eq_refl)).
Defined.

(** C7 as stated fails.  The provider answers 429 with a [Retry-After]
    header that holds a date; [int] raises on it and the view answers 500,
    not the rate-limit reply. *)
Lemma retry_after_date_is_internal_error :
  let r := Demo.too_many_requests (Some "Wed, 21 Oct 2026 07:28:00 GMT") in
  let e := Demo.demo_env (Demo.always r) in
  let w := Demo.world_with (Some Demo.fresh_token) in
  status_code r = 429
  /\ App.status (fst (App.schedule_meeting e Demo.sync_request w)) = 500
  /\ ~ (exists n,
          fst (App.schedule_meeting e Demo.sync_request w)
          = App.rate_limited n).
Proof.
  cbv zeta. split; [reflexivity|]. split; [reflexivity|].
  intros [n H]. apply (f_equal App.status) in H. vm_compute in H.
  discriminate.
Qed.

(** ** The agent tool of [ZoomAPI.py] *)

(** An argument the caller left out: [None] or the empty string. *)
Lemma not_str_absent (s : option string) :
  ZoomAPI.not_str s = true <-> ZoomAPI.absent s.
Proof.
  unfold ZoomAPI.absent. destruct s as [v|]; simpl.
  - rewrite String.eqb_eq. split.
    + intros ->. now right.
    + intros [H|H]; [discriminate | now inversion H].
  - split; auto.
Qed.

Lemma missing_fields_nil (topic start_time : option string)
  (duration : option Z) (timezone : option string) :
  ZoomAPI.missing_fields topic start_time duration timezone = [] ->
  exists t s d z,
    topic = Some t /\ start_time = Some s /\ duration = Some d
    /\ timezone = Some z /\ 0 < d.
Proof.
  unfold ZoomAPI.missing_fields, ZoomAPI.not_str.
  destruct topic as [t|]; [|discriminate].
  destruct (String.eqb t ""); [discriminate|].
  destruct start_time as [s|]; [|discriminate].
  destruct (String.eqb s ""); [discriminate|].
  destruct duration as [d|]; [|discriminate].
  destruct (Z.leb_spec d 0); [discriminate|].
  destruct timezone as [z|]; [|discriminate].
  intros _. exists t, s, d, z. repeat split; auto.
Qed.

Lemma missing_fields_duration (topic start_time : option string)
  (duration : option Z) (timezone : option string) :
  ZoomAPI.nonpositive duration ->
  In "duration" (ZoomAPI.missing_fields topic start_time duration timezone).
Proof.
  intros H. unfold ZoomAPI.missing_fields.
  apply in_or_app. right. apply in_or_app. right. apply in_or_app. left.
  destruct H as [->|[d [-> Hd]]]; [now left|].
  destruct (Z.leb_spec d 0); [now left | lia].
Qed.

Lemma missing_fields_cons (topic start_time : option string)
  (duration : option Z) (timezone : option string) :
  ZoomAPI.absent topic \/ ZoomAPI.absent start_time
  \/ ZoomAPI.nonpositive duration \/ ZoomAPI.absent timezone ->
  ZoomAPI.missing_fields topic start_time duration timezone <> [].
Proof.
  intros H Hnil.
  destruct (missing_fields_nil _ _ _ _ Hnil)
    as (t & s & d & z & -> & -> & -> & -> & Hd).
  unfold ZoomAPI.missing_fields, ZoomAPI.not_str in Hnil.
  destruct (String.eqb_spec t ""); [discriminate|].
  destruct (String.eqb_spec s ""); [discriminate|].
  destruct (String.eqb_spec z ""); [simpl in Hnil;
    destruct (d <=? 0); discriminate|].
  destruct H as [[H|H]|[[H|H]|[[H|[d' [H Hd']]]|[H|H]]]];
    try discriminate; inversion H; subst; try contradiction; lia.
Qed.

Lemma tool_asks_when_missing (e : env) (topic start_time : option string)
  (duration : option Z) (timezone : option string) (jbh mue wr : bool)
  (w : world) :
  ZoomAPI.missing_fields topic start_time duration timezone <> [] ->
  ZoomAPI.schedule_meeting e topic start_time duration timezone jbh mue wr w
  = (ZoomAPI.ask_missing
       (ZoomAPI.missing_fields topic start_time duration timezone), w).
Proof.
  intros H. unfold ZoomAPI.schedule_meeting.
  destruct (ZoomAPI.missing_fields topic start_time duration timezone);
    [contradiction | reflexivity].
Qed.

Lemma read_response_flag (e : env) (resp : response) (duration : Z)
  (timezone : string) :
  ZoomAPI.is_error (ZoomAPI.read_response e resp duration timezone) = false ->
  (400 <=? status_code resp) && (status_code resp <? 600) = false
  /\ exists result,
       json_body resp = Some result
       /\ exists c,
            ZoomAPI.success_content e result duration timezone = Ok c
            /\ ZoomAPI.read_response e resp duration timezone
               = {| ZoomAPI.content := c;
                    ZoomAPI.artifact := Some result;
                    ZoomAPI.is_error := false |}.
Proof.
  unfold ZoomAPI.read_response.
  destruct ((400 <=? status_code resp) && (status_code resp <? 600)) eqn:Hs;
    [discriminate|].
  intros H. split; [reflexivity|].
  unfold response_json in *. destruct (json_body resp) as [result|];
    [|discriminate].
  exists result. split; [reflexivity|].
  cbn [rbind] in H |- *.
  destruct (py_get result "success" JNull) as [success|]; [|discriminate].
  cbn [rbind] in H |- *.
  destruct (negb (truthy success)).
  - destruct (py_get result "error" (JStr "Unknown")); discriminate.
  - destruct (ZoomAPI.success_content e result duration timezone) as [c|];
      [|discriminate].
    exists c. split; reflexivity.
Qed.

Lemma missing_fields_none (t s : string) (d : Z) (z : string) :
  t <> "" -> s <> "" -> 0 < d -> z <> "" ->
  ZoomAPI.missing_fields (Some t) (Some s) (Some d) (Some z) = [].
Proof.
  intros Ht Hs Hd Hz. unfold ZoomAPI.missing_fields, ZoomAPI.not_str.
  destruct (String.eqb_spec t ""); [contradiction|].
  destruct (String.eqb_spec s ""); [contradiction|].
  destruct (String.eqb_spec z ""); [contradiction|].
  destruct (Z.leb_spec d 0); [lia | reflexivity].
Qed.

Lemma in_flag (x name : string) (b : bool) :
  In x (if b then [name] else []) <-> b = true /\ name = x.
Proof.
  destruct b; cbn [In]; split.
  - intros [H|[]]. now split.
  - intros [_ H]. now left.
  - intros [].
  - intros [H _]. discriminate.
Qed.

Lemma in_duration_flag (x : string) (duration : option Z) :
  In x (match duration with
        | None => ["duration"]
        | Some d => if d <=? 0 then ["duration"] else []
        end)
  <-> ZoomAPI.nonpositive duration /\ "duration" = x.
Proof.
  unfold ZoomAPI.nonpositive. destruct duration as [d|].
  - destruct (Z.leb_spec d 0) as [Hd|Hd]; cbn [In]; split.
    + intros [H|[]]. split; [|exact H]. right. now exists d.
    + intros [_ H]. now left.
    + intros [].
    + intros [[H|[d' [H Hd']]] _]; [discriminate|]. inversion H. lia.
  - cbn [In]. split.
    + intros [H|[]]. split; [now left | exact H].
    + intros [_ H]. now left.
Qed.

(** The names in [missing] are those of the arguments that were left
    out. *)
Lemma missing_fields_names (topic start_time : option string)
  (duration : option Z) (timezone : option string) :
  (In "topic" (ZoomAPI.missing_fields topic start_time duration timezone)
   <-> ZoomAPI.absent topic)
  /\ (In "start_time"
        (ZoomAPI.missing_fields topic start_time duration timezone)
      <-> ZoomAPI.absent start_time)
  /\ (In "duration"
        (ZoomAPI.missing_fields topic start_time duration timezone)
      <-> ZoomAPI.nonpositive duration)
  /\ (In "timezone"
        (ZoomAPI.missing_fields topic start_time duration timezone)
      <-> ZoomAPI.absent timezone).
Proof.
  unfold ZoomAPI.missing_fields.
  repeat split; rewrite ?in_app_iff, ?in_flag, ?in_duration_flag,
    ?not_str_absent;
    try (intros [[H E]|[[H E]|[[H E]|[H E]]]]; try discriminate E; exact H);
    intros H; auto 6.
Qed.



(** ** The tool [convert_to_iso] *)

(** C8.  [convert_to_iso("tomorrow at 3 PM", "America/New_York")] returns
    no time.  The first token of the text is the word [tomorrow], which is
    in none of the parser's tables, so [parse] raises and the tool returns
    its parse-error text (or, when [gettz] does not know the zone, the
    text for that); neither holds [T15:].  The same happens to the text
    of the agent's own example call, [next Tuesday at 10:00 AM]. *)
Theorem convert_to_iso_tomorrow (zones : string -> option zone)
  (rest : string -> result datetime) :
  Dateutil.leading_word "tomorrow at 3 PM" = Some "tomorrow"
  /\ Dateutil.parse rest "tomorrow at 3 PM"
     = Raise (ParserError "Unknown string format: tomorrow at 3 PM")
  /\ Agent.convert_to_iso (Agent.library zones rest)
       "tomorrow at 3 PM" "America/New_York"
     = match zones "America/New_York" with
       | Some _ =>
           "Error: Could not parse 'tomorrow at 3 PM' using timezone 'America/New_York'. Please specify a clearer date/time."
       | None => "Error: The timezone 'America/New_York' is not valid."
       end
  /\ str_contains "T15:"
       (Agent.convert_to_iso (Agent.library zones rest)
          "tomorrow at 3 PM" "America/New_York") = false
  /\ Agent.convert_to_iso (Agent.library zones rest)
       "next Tuesday at 10:00 AM" "Asia/Kolkata"
     = match zones "Asia/Kolkata" with
       | Some _ =>
           "Error: Could not parse 'next Tuesday at 10:00 AM' using timezone 'Asia/Kolkata'. Please specify a clearer date/time."
       | None => "Error: The timezone 'Asia/Kolkata' is not valid."
       end.
Proof.
  split; [reflexivity|]. split; [reflexivity|].
  unfold Agent.convert_to_iso, Agent.library.
  cbn [Agent.gettz Agent.parse].
  change (Dateutil.parse rest "tomorrow at 3 PM")
    with (@Raise datetime
            (ParserError "Unknown string format: tomorrow at 3 PM")).
  change (Dateutil.parse rest "next Tuesday at 10:00 AM")
    with (@Raise datetime
            (ParserError "Unknown string format: next Tuesday at 10:00 AM")).
  cbv iota.
  split; [destruct (zones "America/New_York"); reflexivity|].
  split; [destruct (zones "America/New_York"); reflexivity|].
  destruct (zones "Asia/Kolkata"); reflexivity.
Qed.

(** ** The order of the checks *)

Section ValidateFacts.
Variable e : env.

Lemma truthy_object (d : dict) : d <> [] -> truthy (JObj d) = true.
Proof. destruct d; [contradiction | reflexivity]. Qed.

Lemma dict_has_get (k : string) (d : dict) (v : json) :
  dict_get k d = Some v -> dict_has k d = true.
Proof. unfold dict_has. now intros ->. Qed.

Lemma dict_has_none (k : string) (d : dict) :
  dict_get k d = None -> dict_has k d = false.
Proof. unfold dict_has. now intros ->. Qed.

(** The checks that follow the presence test, in the order of the code. *)
Lemma validate_object (d : dict) (tp st du tz : json) :
  d <> [] ->
  dict_get "topic" d = Some tp ->
  dict_get "start_time" d = Some st ->
  dict_get "duration" d = Some du ->
  dict_get "timezone" d = Some tz ->
  App.validate e (JObj d)
  = rbind (py_int du) (fun n =>
      match App.known_timezone e tz with
      | None =>
          Ok (inl (App.error_reply ("Invalid timezone: " ++ py_str e tz) 400))
      | Some name =>
          match App.parse_start_time e st name with
          | Raise ex =>
              Ok (inl (App.error_reply
                         ("Invalid start_time: " ++ str_exn ex) 400))
          | Ok iso =>
              Ok (inr {| App.topic := tp; App.duration := n;
                         App.iso_start := iso; App.timezone_str := name |})
          end
      end).
Proof.
  intros Hd Htp Hst Hdu Htz. unfold App.validate.
  rewrite (truthy_object d Hd). cbn [negb].
  unfold App.required. cbn [App.first_missing py_contains rbind].
  rewrite (dict_has_get _ _ _ Htp), (dict_has_get _ _ _ Hst),
    (dict_has_get _ _ _ Hdu), (dict_has_get _ _ _ Htz).
  cbn [py_getitem rbind]. rewrite Htp, Hdu, Hst, Htz. cbn [rbind].
  destruct (py_int du); reflexivity.
Qed.

Lemma validate_missing (d : dict) (field : string) :
  d <> [] ->
  App.first_missing App.required (JObj d) = Ok (Some field) ->
  App.validate e (JObj d)
  = Ok (inl (App.error_reply ("Missing: " ++ field) 400)).
Proof.
  intros Hd Hm. unfold App.validate.
  rewrite (truthy_object d Hd), Hm. reflexivity.
Qed.

End ValidateFacts.

(** C3, as the code has it.  The view checks, in this order: that the
    four fields are present (topic, start_time, duration, timezone); that
    [duration] goes through [int], and a failure here ends in the reply
    500; that [timezone] is in the zone list; that [start_time] parses and
    converts to UTC.  So with four fields present and a duration that
    [int] accepts, a time zone outside the list gives the time-zone error
    whatever the start time is.  The agent tool checks the start time
    before the time zone. *)
Theorem validate_order (e : env) (d : dict) (w : world) :
  d <> [] ->
  (dict_get "topic" d = None ->
   App.validate e (JObj d) = Ok (inl (App.error_reply "Missing: topic" 400)))
  /\ (forall tp, dict_get "topic" d = Some tp ->
      (dict_get "start_time" d = None ->
       App.validate e (JObj d)
       = Ok (inl (App.error_reply "Missing: start_time" 400)))
      /\ forall st, dict_get "start_time" d = Some st ->
         (dict_get "duration" d = None ->
          App.validate e (JObj d)
          = Ok (inl (App.error_reply "Missing: duration" 400)))
         /\ forall du, dict_get "duration" d = Some du ->
            (dict_get "timezone" d = None ->
             App.validate e (JObj d)
             = Ok (inl (App.error_reply "Missing: timezone" 400)))
            /\ forall tz, dict_get "timezone" d = Some tz ->
               (forall ex, py_int du = Raise ex ->
                  App.validate e (JObj d) = Raise ex
                  /\ App.schedule_meeting e (JObj d) w
                     = (App.internal_error ex, w))
               /\ forall n, py_int du = Ok n ->
                  (App.known_timezone e tz = None ->
                   App.validate e (JObj d)
                   = Ok (inl (App.error_reply
                                ("Invalid timezone: " ++ py_str e tz) 400)))
                  /\ forall name, App.known_timezone e tz = Some name ->
                     (forall ex, App.parse_start_time e st name = Raise ex ->
                        App.validate e (JObj d)
                        = Ok (inl (App.error_reply
                                     ("Invalid start_time: " ++ str_exn ex)
                                     400)))
                     /\ (forall iso, App.parse_start_time e st name = Ok iso ->
                           App.validate e (JObj d)
                           = Ok (inr {| App.topic := tp; App.duration := n;
                                        App.iso_start := iso;
                                        App.timezone_str := name |})))
  /\ (forall t s dur z jbh mue wr ex,
        t <> "" -> s <> "" -> 0 < dur -> z <> "" ->
        ZoomAPI.utc_start e s z = Raise ex ->
        ZoomAPI.schedule_meeting e (Some t) (Some s) (Some dur) (Some z)
          jbh mue wr w
        = (ZoomAPI.failure
             ("Invalid start_time format. Use: `YYYY-MM-DDTHH:MM:SS` → "
              ++ str_exn ex), w)).
Proof.
  intros Hd. split; [|split].
  - intros H. apply validate_missing; [assumption|].
    unfold App.required. cbn [App.first_missing py_contains rbind].
    now rewrite (dict_has_none _ _ H).
  - intros tp Htp. split.
    { intros H. apply validate_missing; [assumption|].
      unfold App.required. cbn [App.first_missing py_contains rbind].
      now rewrite (dict_has_get _ _ _ Htp), (dict_has_none _ _ H). }
    intros st Hst. split.
    { intros H. apply validate_missing; [assumption|].
      unfold App.required. cbn [App.first_missing py_contains rbind].
      now rewrite (dict_has_get _ _ _ Htp), (dict_has_get _ _ _ Hst),
        (dict_has_none _ _ H). }
    intros du Hdu. split.
    { intros H. apply validate_missing; [assumption|].
      unfold App.required. cbn [App.first_missing py_contains rbind].
      now rewrite (dict_has_get _ _ _ Htp), (dict_has_get _ _ _ Hst),
        (dict_has_get _ _ _ Hdu), (dict_has_none _ _ H). }
    intros tz Htz.
    pose proof (validate_object e d tp st du tz Hd Htp Hst Hdu Htz) as Hv.
    split.
    { intros ex Hex. rewrite Hex in Hv. cbn [rbind] in Hv.
      split; [assumption|]. unfold App.schedule_meeting. now rewrite Hv. }
    intros n Hn. rewrite Hn in Hv. cbn [rbind] in Hv. split.
    { intros Hk. now rewrite Hk in Hv. }
    intros name Hk. rewrite Hk in Hv. split.
    + intros ex Hex. now rewrite Hex in Hv.
    + intros iso Hiso. now rewrite Hiso in Hv.
  - intros t s dur z jbh mue wr ex Ht Hs Hdur Hz Hex.
    unfold ZoomAPI.schedule_meeting.
    rewrite (missing_fields_none t s dur z Ht Hs Hdur Hz), Hex. reflexivity.
Qed.

Lemma validate_order_witness :
  let e := Demo.demo_env Demo.no_network in
  let d := [("topic", JStr "Sync"); ("start_time", JStr "soon");
            ("duration", JStr "30"); ("timezone", JStr "Mars/Phobos")] in
  d <> []
  /\ py_int (JStr "30") = Ok 30
  /\ App.known_timezone e (JStr "Mars/Phobos") = None
  /\ App.validate e (JObj d)
     = Ok (inl (App.error_reply "Invalid timezone: Mars/Phobos" 400)).
Proof.
  cbv zeta. split; [discriminate|]. split; [reflexivity|].
  split; [reflexivity|].
  assert (Hd : [("topic", JStr "Sync"); ("start_time", JStr "soon");
                ("duration", JStr "30"); ("timezone", JStr "Mars/Phobos")]
               <> []) by discriminate.
  destruct (validate_order (Demo.demo_env Demo.no_network) _
              (Demo.world_with None) Hd) as (_ & H & _).
  destruct (H (JStr "Sync") eq_refl) as (_ & H1).
  destruct (H1 (JStr "soon") eq_refl) as (_ & H2).
  destruct (H2 (JStr "30") eq_refl) as (_ & H3).
  destruct (H3 (JStr "Mars/Phobos") eq_refl) as (_ & H4).
  exact (proj1 (H4 30 eq_refl) eq_refl).
Defined.

(** C3 as stated fails.  The zone [Mars/Phobos] is not in the list and
    the start time [soon] does not parse.  The agent tool reports the
    start time, not the time zone; and the view, given a duration that
    [int] rejects, answers 500 before it looks at either. *)
Lemma bad_zone_and_bad_start :
  let e := Demo.demo_env Demo.no_network in
  let w := Demo.world_with None in
  in_all_timezones (tzdb e) "Mars/Phobos" = false
  /\ fromisoformat (replace "Z" "+00:00" "soon")
     = Raise (ValueError "Invalid isoformat string: 'soon'")
  /\ ZoomAPI.schedule_meeting e (Some "Sync") (Some "soon") (Some 30)
       (Some "Mars/Phobos") true true false w
     = (ZoomAPI.failure
          "Invalid start_time format. Use: `YYYY-MM-DDTHH:MM:SS` → Invalid isoformat string: 'soon'",
        w)
  /\ App.schedule_meeting e
       (JObj [("topic", JStr "Sync"); ("start_time", JStr "soon");
              ("duration", JStr "half an hour");
              ("timezone", JStr "Mars/Phobos")]) w
     = (App.error_reply
          "invalid literal for int() with base 10: 'half an hour'" 500,
        w).
Proof.
  cbv zeta. repeat split; vm_compute; reflexivity.
Qed.

(** ** A duration that is not positive *)

(** C5, as the code has it.  The agent tool, called with a duration that
    is left out, zero or negative, returns the request for the missing
    details, which names [duration]; it sends nothing, so no token is
    loaded or refreshed and the provider is not called.  In the view the
    only check of the duration is [int]: a duration that [int] rejects
    ends in the reply 500 with the world untouched. *)
Theorem nonpositive_duration (e : env) (topic start_time : option string)
  (duration : option Z) (timezone : option string) (jbh mue wr : bool)
  (w : world) :
  ZoomAPI.nonpositive duration ->
  let missing := ZoomAPI.missing_fields topic start_time duration timezone in
  ZoomAPI.schedule_meeting e topic start_time duration timezone jbh mue wr w
  = (ZoomAPI.ask_missing missing, w)
  /\ In "duration" missing
  /\ ZoomAPI.content (ZoomAPI.ask_missing missing)
     = "Please provide the missing details: **"
       ++ ZoomAPI.join ", " missing ++ "**." ++ ZoomAPI.nl
       ++ "Example: `topic: Team Sync`, `start_time: 2025-11-16T14:30:00`, etc."
  /\ ZoomAPI.is_error (ZoomAPI.ask_missing missing) = false
  /\ (forall d tp st du tz ex,
        d <> [] ->
        dict_get "topic" d = Some tp ->
        dict_get "start_time" d = Some st ->
        dict_get "duration" d = Some du ->
        dict_get "timezone" d = Some tz ->
        py_int du = Raise ex ->
        App.schedule_meeting e (JObj d) w = (App.internal_error ex, w)
        /\ App.status (App.internal_error ex) = 500).
Proof.
  intros Hd missing.
  pose proof (missing_fields_duration topic start_time duration timezone Hd)
    as Hin. fold missing in Hin.
  split.
  { apply tool_asks_when_missing. fold missing.
    intros Hnil. rewrite Hnil in Hin. contradiction. }
  split; [assumption|]. split; [reflexivity|]. split; [reflexivity|].
  intros d tp st du tz ex Hne Htp Hst Hdu Htz Hex.
  split; [|reflexivity].
  unfold App.schedule_meeting.
  rewrite (validate_object e d tp st du tz Hne Htp Hst Hdu Htz), Hex.
  reflexivity.
Qed.

Lemma nonpositive_duration_witness :
  ZoomAPI.nonpositive (Some 0)
  /\ ZoomAPI.schedule_meeting (Demo.demo_env (Demo.always Demo.meeting_created))
       (Some "Sync") (Some "2025-11-15T10:00:00") (Some 0)
       (Some "Asia/Kolkata") true true false
       (Demo.world_with (Some Demo.fresh_token))
     = (ZoomAPI.ask_missing ["duration"],
        Demo.world_with (Some Demo.fresh_token)).
Proof.
  assert (H : ZoomAPI.nonpositive (Some 0)).
  { right. exists 0. split; [reflexivity | lia]. }
  split; [exact H|].
  exact (proj1 (nonpositive_duration
                  (Demo.demo_env (Demo.always Demo.meeting_created))
                  (Some "Sync") (Some "2025-11-15T10:00:00") (Some 0)
                  (Some "Asia/Kolkata") true true false
                  (Demo.world_with (Some Demo.fresh_token)) H)).
Defined.

(** C5 as stated fails for the view.  A body with duration 0 passes its
    checks; the token file is read and the provider is called with
    duration 0. *)
Lemma zero_duration_reaches_provider :
  let e := Demo.demo_env (Demo.always Demo.meeting_created) in
  let w := Demo.world_with (Some Demo.fresh_token) in
  let data := JObj [("topic", JStr "Sync");
                    ("start_time", JStr "2025-11-15T10:00:00");
                    ("duration", JNum 0);
                    ("timezone", JStr "Asia/Kolkata")] in
  App.validate e data
  = Ok (inr {| App.topic := JStr "Sync"; App.duration := 0;
               App.iso_start := "2025-11-15T04:30:00Z";
               App.timezone_str := "Asia/Kolkata" |})
  /\ App.status (fst (App.schedule_meeting e data w)) = 201
  /\ ticks (snd (App.schedule_meeting e data w)) = 1%nat
  /\ exists payload,
       sent (snd (App.schedule_meeting e data w))
       = [App.provider_call e (JStr "at-1") (JObj payload)]
       /\ dict_get "duration" payload = Some (JNum 0).
Proof.
  cbv zeta. split; [reflexivity|]. split; [reflexivity|].
  split; [reflexivity|]. eexists. split; reflexivity.
Qed.

(** ** Scenario 1 *)

Lemma sync_start_parses :
  fromisoformat (replace "Z" "+00:00" "2025-11-15T10:00:00")
  = Ok (mkdatetime 2025 11 15 10 0 0 0 None).
Proof. vm_compute. reflexivity. Qed.

Lemma sync_start_in_utc :
  rbind (shift (mkdatetime 2025 11 15 10 0 0 0 (Some (19800 * 1000000)))
           (- (19800 * 1000000)) (Some 0))
    (fun utc_dt => Ok (replace "+00:00" "Z" (isoformat_seconds utc_dt)))
  = Ok "2025-11-15T04:30:00Z".
Proof. vm_compute. reflexivity. Qed.

Lemma sync_request_validates (e : env) (tz : zone) :
  in_all_timezones (tzdb e) "Asia/Kolkata" = true ->
  timezone (tzdb e) "Asia/Kolkata" = Some tz ->
  localize_offset tz (mkdatetime 2025 11 15 10 0 0 0 None) = 19800 ->
  App.validate e Demo.sync_request = Ok (inr Demo.sync_fields).
Proof.
  intros Hin Htz Hoff. unfold Demo.sync_request.
  rewrite (validate_object e _ (JStr "Sync") (JStr "2025-11-15T10:00:00")
             (JNum 30) (JStr "Asia/Kolkata"));
    [|discriminate|reflexivity|reflexivity|reflexivity|reflexivity].
  cbn [py_int rbind App.known_timezone]. rewrite Hin.
  unfold App.parse_start_time. rewrite sync_start_parses.
  cbn [rbind utcoffset]. unfold pytz_timezone. rewrite Htz.
  cbn [rbind]. unfold astimezone_utc, offset_of, localize.
  cbn [utcoffset year month day hour minute second microsecond].
  rewrite Hoff.
  change (rbind ?a ?k) with (rbind a k).
  rewrite sync_start_in_utc. reflexivity.
Qed.

(** C2.  The request [{topic: "Sync", start_time: "2025-11-15T10:00:00",
    duration: 30, timezone: "Asia/Kolkata"}], in an installation whose
    zone list has [Asia/Kolkata] with offset +05:30 on that day, and with
    a stored token that has not expired: the provider is called once, with
    start time [2025-11-15T04:30:00Z] and duration 30, and when it answers
    201 with a meeting object the reply is 201 with the success envelope,
    which carries that object's [join_url]. *)
Theorem scenario_sync (e : env) (tz : zone) (w w0 : world) (token : dict)
  (ea : Z) (at_ : json) (r : response) (m : dict) :
  in_all_timezones (tzdb e) "Asia/Kolkata" = true ->
  timezone (tzdb e) "Asia/Kolkata" = Some tz ->
  localize_offset tz (mkdatetime 2025 11 15 10 0 0 0 None) = 19800 ->
  App.load_token e w = (Ok token, w0) ->
  App.expires_at_of token = Ok ea ->
  clock e (ticks w0) <= ea - 120 ->
  dict_get "access_token" token = Some at_ ->
  http e (App.provider_call e at_ Demo.sync_payload) = inl r ->
  status_code r = 201 ->
  json_body r = Some (JObj m) ->
  exists meeting,
    App.schedule_meeting e Demo.sync_request w
    = ({| App.body := JObj [("success", JBool true);
                            ("meeting", JObj meeting)];
          App.status := 201 |},
       log (App.provider_call e at_ Demo.sync_payload) (tick w0))
    /\ dict_get "join_url" meeting
       = Some (dict_get_default "join_url" JNull m)
    /\ req_url (App.provider_call e at_ Demo.sync_payload)
       = "https://api.zoom.us/v2/users/me/meetings"
    /\ (exists payload,
          req_body (App.provider_call e at_ Demo.sync_payload)
          = JsonBody (JObj payload)
          /\ dict_get "start_time" payload
             = Some (JStr "2025-11-15T04:30:00Z")
          /\ dict_get "duration" payload = Some (JNum 30)).
Proof.
  intros Hin Htz Hoff Hl Hea Hfresh Hat Hr Hs Hj.
  pose proof (sync_request_validates e tz Hin Htz Hoff) as Hv.
  eexists. split; [|split; [|split]].
  - unfold App.schedule_meeting. rewrite Hv.
    rewrite (ensure_valid_run e w w0 token ea Hl Hea).
    replace (clock e (ticks w0) >? ea - 120) with false
      by (symmetry; rewrite Z.gtb_ltb; apply Z.ltb_ge; lia).
    rewrite (create_meeting_run e Demo.sync_request Demo.sync_fields token
               (tick w0) at_ Demo.sync_payload r Hat eq_refl Hr).
    rewrite Hs. cbn [Z.eqb Pos.eqb negb].
    unfold response_json. rewrite Hj.
    cbn [rbind App.created py_get]. reflexivity.
  - reflexivity.
  - reflexivity.
  - eexists. split; [reflexivity|]. split; reflexivity.
Qed.

Lemma scenario_sync_witness :
  let e := Demo.demo_env (Demo.always Demo.meeting_created) in
  let w := Demo.world_with (Some Demo.fresh_token) in
  exists meeting,
    App.schedule_meeting e Demo.sync_request w
    = ({| App.body := JObj [("success", JBool true);
                            ("meeting", JObj meeting)];
          App.status := 201 |},
       log (App.provider_call e (JStr "at-1") Demo.sync_payload) (tick w))
    /\ dict_get "join_url" meeting
       = Some (JStr "https://zoom.us/j/81234567890").
Proof.
  cbv zeta.
  destruct (scenario_sync
              (Demo.demo_env (Demo.always Demo.meeting_created))
              (Demo.fixed_zone 19800)
              (Demo.world_with (Some Demo.fresh_token))
              (Demo.world_with (Some Demo.fresh_token))
              Demo.fresh_token 5000 (JStr "at-1") Demo.meeting_created
              [("id", JNum 81234567890);
               ("topic", JStr "Sync");
               ("join_url", JStr "https://zoom.us/j/81234567890");
               ("start_url", JStr "https://zoom.us/s/81234567890");
               ("password", JStr "p4ss");
               ("start_time", JStr "2025-11-15T04:30:00Z");
               ("duration", JNum 30);
               ("timezone", JStr "Asia/Kolkata");
               ("created_at", JStr "2025-11-04T09:00:00Z")]
              eq_refl eq_refl eq_refl eq_refl eq_refl)
    as (meeting & Hrun & Hjoin & _).
  - simpl. lia.
  - reflexivity.
  - reflexivity.
  - reflexivity.
  - reflexivity.
  - exists meeting. split; assumption.
Defined.

(** ** Decimal fields *)

Lemma digit_cases (d : Z) :
  0 <= d <= 9 ->
  d = 0 \/ d = 1 \/ d = 2 \/ d = 3 \/ d = 4 \/ d = 5 \/ d = 6 \/ d = 7
  \/ d = 8 \/ d = 9.
Proof. lia. Qed.

Ltac each_digit H :=
  destruct (digit_cases _ H) as [->|[->|[->|[->|[->|[->|[->|[->|[->| ->]]]]]]]]].

Lemma is_digit_digit_char (d : Z) :
  0 <= d <= 9 -> is_digit (digit_char d) = true.
Proof. intros H. each_digit H; reflexivity. Qed.

Lemma digit_val_digit_char (d : Z) :
  0 <= d <= 9 -> digit_val (digit_char d) = d.
Proof. intros H. each_digit H; reflexivity. Qed.

Lemma digit_char_is_not (c : ascii) (d : Z) :
  is_digit c = false -> 0 <= d <= 9 -> Ascii.eqb (digit_char d) c = false.
Proof.
  intros Hc H. destruct (Ascii.eqb_spec (digit_char d) c) as [<-|]; auto.
  now rewrite is_digit_digit_char in Hc.
Qed.

Lemma take_digits_pad2 (n : Z) (rest : string) :
  0 <= n < 100 -> take_digits 2 0 (pad2 n ++ rest) = Some (n, rest).
Proof.
  intros H. unfold pad2. cbn [append take_digits].
  assert (H1 : 0 <= n / 10 <= 9) by (Z.div_mod_to_equations; lia).
  assert (H2 : 0 <= n mod 10 <= 9) by (Z.div_mod_to_equations; lia).
  rewrite !is_digit_digit_char, !digit_val_digit_char by assumption.
  f_equal. f_equal. Z.div_mod_to_equations; lia.
Qed.

Lemma take_digits_pad4 (n : Z) (rest : string) :
  0 <= n < 10000 -> take_digits 4 0 (pad4 n ++ rest) = Some (n, rest).
Proof.
  intros H. unfold pad4, pad2. cbn [append take_digits].
  assert (H1 : 0 <= n / 1000 <= 9) by (Z.div_mod_to_equations; lia).
  assert (H2 : 0 <= n / 100 mod 10 <= 9) by (Z.div_mod_to_equations; lia).
  assert (H3 : 0 <= n mod 100 / 10 <= 9) by (Z.div_mod_to_equations; lia).
  assert (H4 : 0 <= (n mod 100) mod 10 <= 9) by (Z.div_mod_to_equations; lia).
  rewrite !is_digit_digit_char, !digit_val_digit_char by assumption.
  f_equal. f_equal. Z.div_mod_to_equations; lia.
Qed.

Lemma lacks_app (c : ascii) (a b : string) :
  lacks c (a ++ b) = lacks c a && lacks c b.
Proof.
  induction a as [|x a IH]; cbn [append lacks]; [reflexivity|].
  now rewrite IH, andb_assoc.
Qed.

Lemma lacks_pad2 (c : ascii) (n : Z) :
  is_digit c = false -> 0 <= n < 100 -> lacks c (pad2 n) = true.
Proof.
  intros Hc H. unfold pad2. cbn [lacks].
  rewrite !digit_char_is_not; auto; Z.div_mod_to_equations; lia.
Qed.

Lemma lacks_pad4 (c : ascii) (n : Z) :
  is_digit c = false -> 0 <= n < 10000 -> lacks c (pad4 n) = true.
Proof.
  intros Hc H. unfold pad4. cbn [lacks].
  rewrite lacks_pad2 by (auto; Z.div_mod_to_equations; lia).
  rewrite !digit_char_is_not; auto; Z.div_mod_to_equations; lia.
Qed.

(** ** [replace] around a text without the pattern's first character *)

Lemma replace_aux_lacks (a : ascii) (old' new p t : string) :
  lacks a p = true ->
  replace_aux (String a old') new 0 (p ++ t)
  = p ++ replace_aux (String a old') new 0 t.
Proof.
  induction p as [|x p IH]; intros H; [reflexivity|].
  cbn [lacks] in H. apply andb_true_iff in H. destruct H as [Hx Hp].
  cbn [append replace_aux prefix].
  destruct (ascii_dec a x) as [->|_].
  - now rewrite Ascii.eqb_refl in Hx.
  - now rewrite IH.
Qed.

Lemma replace_offset_by_Z (p : string) :
  lacks "+" p = true -> replace "+00:00" "Z" (p ++ "+00:00") = p ++ "Z".
Proof. intros H. unfold replace. now rewrite replace_aux_lacks. Qed.

Lemma replace_Z_by_offset (p : string) :
  lacks "Z" p = true -> replace "Z" "+00:00" (p ++ "Z") = p ++ "+00:00".
Proof. intros H. unfold replace. now rewrite replace_aux_lacks. Qed.

(** ** Reading back what [isoformat] wrote *)

Lemma lacks_isoformat_naive (c : ascii) (dt : datetime) :
  is_digit c = false ->
  Ascii.eqb "-" c = false -> Ascii.eqb "T" c = false ->
  Ascii.eqb ":" c = false ->
  valid_date (year dt) (month dt) (day dt) = true ->
  valid_time (hour dt) (minute dt) (second dt) (microsecond dt) = true ->
  lacks c (isoformat_naive dt) = true.
Proof.
  intros Hc Hd HT Hcol Hvd Hvt.
  unfold valid_date, valid_time, MINYEAR, MAXYEAR in *.
  repeat (apply andb_true_iff in Hvd; destruct Hvd as [Hvd ?]).
  repeat (apply andb_true_iff in Hvt; destruct Hvt as [Hvt ?]).
  repeat match goal with
         | H : (_ <=? _) = true |- _ => apply Z.leb_le in H
         end.
  assert (day dt <= 31).
  { unfold days_in_month in *.
    repeat match goal with
           | H : context [if ?b then _ else _] |- _ => destruct b
           end; lia. }
  unfold isoformat_naive. rewrite !lacks_app. cbn [lacks].
  rewrite Hd, HT, Hcol. cbn [negb andb].
  rewrite lacks_pad4, !lacks_pad2 by (auto; lia). reflexivity.
Qed.

Lemma well_formed_bounds (dt : datetime) :
  well_formed dt = true ->
  1 <= year dt <= 9999 /\ 1 <= month dt <= 12 /\ 1 <= day dt <= 31
  /\ 0 <= hour dt <= 23 /\ 0 <= minute dt <= 59 /\ 0 <= second dt <= 59
  /\ 0 <= microsecond dt <= 999999.
Proof.
  unfold well_formed, valid_date, valid_time, MINYEAR, MAXYEAR. intros H.
  repeat (apply andb_true_iff in H; destruct H as [H ?]).
  repeat match goal with
         | H : (_ <=? _) = true |- _ => apply Z.leb_le in H
         end.
  assert (day dt <= 31).
  { unfold days_in_month in *.
    repeat match goal with
           | H : context [if ?b then _ else _] |- _ => destruct b
           end; lia. }
  lia.
Qed.

Lemma string_app_assoc (a b c : string) : (a ++ b) ++ c = a ++ (b ++ c).
Proof.
  induction a as [|x a IH]; cbn [append]; [reflexivity | now rewrite IH].
Qed.

Lemma fromisoformat_isoformat (dt : datetime) :
  well_formed dt = true ->
  fromisoformat (isoformat_naive dt ++ "+00:00") = Ok (utc_seconds dt).
Proof.
  intros Hwf. pose proof (well_formed_bounds dt Hwf) as Hb.
  unfold fromisoformat, parse_isoformat_date, isoformat_naive.
  rewrite !string_app_assoc.
  rewrite take_digits_pad4 by lia. cbn [append].
  rewrite take_digits_pad2 by lia. cbn [append].
  rewrite take_digits_pad2 by lia. cbn [append].
  unfold parse_isoformat_time, parse_hh_mm_ss_ff.
  rewrite take_digits_pad2 by lia. cbn [append].
  rewrite take_digits_pad2 by lia. cbn [append].
  rewrite take_digits_pad2 by lia. cbn [append].
  replace (parse_tz "00:00") with (Some 0) by (vm_compute; reflexivity).
  cbn [Ascii.eqb Bool.eqb]. unfold new_datetime.
  change (valid_offset (Some 0)) with true. cbn [negb].
  unfold well_formed in Hwf. apply andb_true_iff in Hwf.
  destruct Hwf as [Hvd _]. rewrite Hvd. cbn [negb].
  replace (valid_time (hour dt) (minute dt) (second dt) 0) with true.
  - reflexivity.
  - symmetry. unfold valid_time.
    repeat (apply andb_true_iff; split); apply Z.leb_le; lia.
Qed.

(** ** Calendar arithmetic keeps dates valid *)

Lemma days_in_month_bounds (y m : Z) : 28 <= days_in_month y m <= 31.
Proof.
  unfold days_in_month.
  repeat match goal with
         | |- context [if ?b then _ else _] => destruct b
         end; lia.
Qed.

Lemma next_day_valid (ymd : Z * Z * Z) :
  valid_month_day ymd -> valid_month_day (next_day ymd).
Proof.
  destruct ymd as [[y m] d]. unfold valid_month_day, next_day.
  intros [Hm Hd].
  destruct (Z.ltb_spec d (days_in_month y m)); [lia|].
  destruct (Z.ltb_spec m 12).
  - pose proof (days_in_month_bounds y (m + 1)). lia.
  - pose proof (days_in_month_bounds (y + 1) 1). lia.
Qed.

Lemma prev_day_valid (ymd : Z * Z * Z) :
  valid_month_day ymd -> valid_month_day (prev_day ymd).
Proof.
  destruct ymd as [[y m] d]. unfold valid_month_day, prev_day.
  intros [Hm Hd].
  destruct (Z.ltb_spec 1 d); [lia|].
  destruct (Z.ltb_spec 1 m).
  - pose proof (days_in_month_bounds y (m - 1)). lia.
  - change (days_in_month (y - 1) 12) with 31. lia.
Qed.

Lemma add_days_valid (k : Z) (ymd : Z * Z * Z) :
  valid_month_day ymd -> valid_month_day (add_days k ymd).
Proof.
  intros H. unfold add_days. destruct (0 <=? k).
  - induction (Z.to_nat k) as [|n IH]; cbn [Nat.iter nat_rect];
      [assumption | now apply next_day_valid].
  - induction (Z.to_nat (- k)) as [|n IH]; cbn [Nat.iter nat_rect];
      [assumption | now apply prev_day_valid].
Qed.

Lemma well_formed_month_day (dt : datetime) :
  well_formed dt = true -> valid_month_day (year dt, month dt, day dt).
Proof.
  unfold well_formed, valid_date, valid_month_day. intros H.
  repeat (apply andb_true_iff in H; destruct H as [H ?]).
  repeat match goal with
         | H : (_ <=? _) = true |- _ => apply Z.leb_le in H
         end.
  lia.
Qed.

(** What [shift] returns is a date and a time, with the label asked for. *)
Lemma shift_well_formed (dt u : datetime) (delta : Z) (off : option Z) :
  well_formed dt = true ->
  shift dt delta off = Ok u ->
  well_formed u = true /\ utcoffset u = off.
Proof.
  intros Hwf. unfold shift.
  pose proof (add_days_valid ((time_of_day dt + delta) / DAY) _
                (well_formed_month_day dt Hwf)) as Hv.
  destruct (add_days ((time_of_day dt + delta) / DAY)
              (year dt, month dt, day dt)) as [[y m] d].
  destruct ((MINYEAR <=? y) && (y <=? MAXYEAR)) eqn:Hy; [|discriminate].
  intros H. inversion H; subst u; clear H. split; [|reflexivity].
  unfold well_formed. cbn [year month day hour minute second microsecond].
  apply andb_true_iff in Hy. destruct Hy as [Hy1 Hy2].
  destruct Hv as [Hm Hd].
  apply andb_true_iff. split.
  - unfold valid_date. rewrite Hy1, Hy2. cbn [andb].
    repeat (apply andb_true_iff; split); apply Z.leb_le; lia.
  - set (r := (time_of_day dt + delta) mod DAY).
    assert (Hr : 0 <= r < 86400000000)
      by (subst r; apply Z.mod_pos_bound; reflexivity).
    unfold valid_time.
    repeat (apply andb_true_iff; split); apply Z.leb_le;
      Z.div_mod_to_equations; lia.
Qed.

(** Shifting by nothing changes the label only. *)
Lemma shift_zero (dt : datetime) (off : option Z) :
  well_formed dt = true ->
  shift dt 0 off
  = Ok (mkdatetime (year dt) (month dt) (day dt) (hour dt) (minute dt)
          (second dt) (microsecond dt) off).
Proof.
  intros Hwf. pose proof (well_formed_bounds dt Hwf) as Hb.
  unfold shift. rewrite Z.add_0_r.
  assert (Ht : 0 <= time_of_day dt < DAY).
  { unfold time_of_day, DAY. lia. }
  rewrite (Z.div_small _ _ Ht), (Z.mod_small _ _ Ht).
  cbn [add_days Z.leb Z.compare Z.to_nat Nat.iter nat_rect].
  replace ((MINYEAR <=? year dt) && (year dt <=? MAXYEAR)) with true.
  - unfold time_of_day. f_equal. f_equal; Z.div_mod_to_equations; lia.
  - symmetry. apply andb_true_iff. unfold MINYEAR, MAXYEAR.
    split; apply Z.leb_le; lia.
Qed.

(** ** Validating twice *)

Lemma new_datetime_well_formed (y m d h mi s us : Z) (off : option Z)
  (dt : datetime) :
  new_datetime y m d h mi s us off = Ok dt -> well_formed dt = true.
Proof.
  unfold new_datetime.
  destruct (valid_offset off); [|discriminate].
  destruct (valid_date y m d) eqn:Hd; [|discriminate].
  destruct (valid_time h mi s us) eqn:Ht; [|discriminate].
  cbn [negb]. intros H. inversion H. unfold well_formed. cbn.
  now rewrite Hd, Ht.
Qed.

Lemma fromisoformat_well_formed (s : string) (dt : datetime) :
  fromisoformat s = Ok dt -> well_formed dt = true.
Proof.
  unfold fromisoformat.
  destruct (parse_isoformat_date s) as [[[[y m] d] [|c tstr]]|];
    try discriminate.
  - apply new_datetime_well_formed.
  - destruct (parse_isoformat_time tstr) as [[[[[h mi] sec] us] off]|];
      [|discriminate].
    apply new_datetime_well_formed.
Qed.

Lemma isoformat_seconds_utc (u : datetime) :
  utcoffset u = Some 0 ->
  isoformat_seconds u = isoformat_naive u ++ "+00:00".
Proof. unfold isoformat_seconds. now intros ->. Qed.

(** A UTC string that [astimezone] and [isoformat] produced parses to
    itself. *)
Lemma utc_string_fixed (db : pytz) (u : datetime)
  (naive_case : datetime -> result datetime) :
  well_formed u = true ->
  utcoffset u = Some 0 ->
  rbind (fromisoformat
           (replace "Z" "+00:00"
              (replace "+00:00" "Z" (isoformat_seconds u))))
    (fun dt =>
       rbind (match utcoffset dt with
              | None => naive_case dt
              | Some _ => Ok dt
              end)
         (fun dt =>
            rbind (astimezone_utc db dt) (fun utc_dt =>
              Ok (replace "+00:00" "Z" (isoformat_seconds utc_dt)))))
  = Ok (replace "+00:00" "Z" (isoformat_seconds u)).
Proof.
  intros Hwf Hoff.
  assert (Hparts := Hwf). unfold well_formed in Hparts.
  apply andb_true_iff in Hparts. destruct Hparts as [Hvd Hvt].
  rewrite (isoformat_seconds_utc u Hoff).
  rewrite replace_offset_by_Z
    by (apply lacks_isoformat_naive; auto; reflexivity).
  rewrite replace_Z_by_offset
    by (apply lacks_isoformat_naive; auto; reflexivity).
  rewrite (fromisoformat_isoformat u Hwf).
  cbn [rbind]. change (utcoffset (utc_seconds u)) with (Some 0).
  cbn [rbind]. unfold astimezone_utc, offset_of.
  change (utcoffset (utc_seconds u)) with (Some 0). cbv iota.
  change (- 0) with 0.
  assert (Hwf' : well_formed (utc_seconds u) = true).
  { pose proof (well_formed_bounds u Hwf) as Hb.
    unfold well_formed, utc_seconds. cbn. rewrite Hvd. cbn [andb].
    unfold valid_time.
    repeat (apply andb_true_iff; split); apply Z.leb_le; lia. }
  rewrite (shift_zero (utc_seconds u) (Some 0) Hwf').
  cbn [rbind utc_seconds year month day hour minute second microsecond].
  unfold isoformat_seconds, isoformat_naive.
  cbn [year month day hour minute second utcoffset format_offset].
  f_equal.
  change (replace "+00:00" "Z"
            (isoformat_naive u ++ "+00:00") = isoformat_naive u ++ "Z").
  apply replace_offset_by_Z. apply lacks_isoformat_naive; auto; reflexivity.
Qed.

Lemma localize_well_formed (tz : zone) (dt : datetime) :
  well_formed dt = true -> well_formed (localize tz dt) = true.
Proof. intros H. exact H. Qed.

Lemma parse_start_time_fixed (e : env) (st : json) (name iso : string) :
  App.parse_start_time e st name = Ok iso ->
  App.parse_start_time e (JStr iso) name = Ok iso.
Proof.
  unfold App.parse_start_time at 1.
  destruct st as [| | |s| |]; try discriminate.
  destruct (fromisoformat (replace "Z" "+00:00" s)) as [dt|] eqn:Hp;
    [|discriminate].
  apply fromisoformat_well_formed in Hp. cbn [rbind].
  assert (Hloc : forall dt',
            match utcoffset dt with
            | None =>
                rbind (pytz_timezone (tzdb e) name) (fun tz =>
                  Ok (localize tz dt))
            | Some _ => Ok dt
            end = Ok dt' -> well_formed dt' = true).
  { intros dt'. destruct (utcoffset dt).
    - intros H. inversion H. now subst.
    - destruct (pytz_timezone (tzdb e) name) as [tz|]; [|discriminate].
      cbn [rbind]. intros H. inversion H.
      now apply localize_well_formed. }
  destruct (match utcoffset dt with
            | None => _
            | Some _ => _
            end) as [dt'|]; [|discriminate].
  specialize (Hloc dt' eq_refl). cbn [rbind].
  unfold astimezone_utc at 1.
  destruct (shift dt' (- offset_of (tzdb e) dt') (Some 0)) as [u|] eqn:Hs;
    [|discriminate].
  destruct (shift_well_formed dt' u _ _ Hloc Hs) as [Hwf Hoff].
  cbn [rbind]. intros H. inversion H as [Hiso]. clear H.
  unfold App.parse_start_time.
  apply (utc_string_fixed (tzdb e) u
           (fun dt => rbind (pytz_timezone (tzdb e) name) (fun tz =>
                        Ok (localize tz dt))) Hwf Hoff).
Qed.

Lemma utc_start_is_parse_start_time (e : env) (s z : string) :
  ZoomAPI.utc_start e s z = App.parse_start_time e (JStr s) z.
Proof. reflexivity. Qed.

Lemma known_timezone_some (e : env) (tz : json) (name : string) :
  App.known_timezone e tz = Some name ->
  tz = JStr name /\ in_all_timezones (tzdb e) name = true.
Proof.
  unfold App.known_timezone. destruct tz as [| | |s| |]; try discriminate.
  destruct (in_all_timezones (tzdb e) s) eqn:H; [|discriminate].
  intros E. inversion E. subst. now split.
Qed.

(** What an accepted body looked like. *)
Lemma validate_accepts (e : env) (data : json) (mr : App.MeetingRequest) :
  App.validate e data = Ok (inr mr) ->
  exists d st du,
    data = JObj d
    /\ dict_get "topic" d = Some (App.topic mr)
    /\ dict_get "start_time" d = Some st
    /\ dict_get "duration" d = Some du
    /\ dict_get "timezone" d = Some (JStr (App.timezone_str mr))
    /\ py_int du = Ok (App.duration mr)
    /\ in_all_timezones (tzdb e) (App.timezone_str mr) = true
    /\ App.parse_start_time e st (App.timezone_str mr)
       = Ok (App.iso_start mr).
Proof.
  intros Hv. destruct (validate_is_object e data mr Hv) as [d ->].
  revert Hv. unfold App.validate.
  destruct (negb (truthy (JObj d))); [discriminate|].
  unfold App.required. cbn [App.first_missing py_contains rbind].
  unfold dict_has.
  destruct (dict_get "topic" d) as [tp|] eqn:Htp; [|discriminate].
  destruct (dict_get "start_time" d) as [st|] eqn:Hst; [|discriminate].
  destruct (dict_get "duration" d) as [du|] eqn:Hdu; [|discriminate].
  destruct (dict_get "timezone" d) as [tz|] eqn:Htz; [|discriminate].
  cbn [py_getitem rbind]. rewrite Htp, Hdu, Hst, Htz. cbn [rbind].
  destruct (py_int du) as [n|] eqn:Hn; [|discriminate]. cbn [rbind].
  destruct (App.known_timezone e tz) as [name|] eqn:Hk; [|discriminate].
  destruct (known_timezone_some e tz name Hk) as [-> Hin].
  destruct (App.parse_start_time e st name) as [iso|] eqn:Hp; [|discriminate].
  intros H. inversion H. subst mr. cbn.
  exists d, st, du. repeat split; auto.
Qed.

(** C9.  When the view accepts a body, the accepted fields (the topic,
    the start time as a UTC string, the duration as an integer, the zone
    name) put back into a body are accepted again, with the same fields.
    The start-time step of the agent tool likewise returns a UTC string
    that it maps to itself. *)
Theorem validate_idempotent (e : env) (data : json)
  (mr : App.MeetingRequest) :
  App.validate e data = Ok (inr mr) ->
  App.validate e (App.normalized mr) = Ok (inr mr)
  /\ (forall s z utc,
        ZoomAPI.utc_start e s z = Ok utc ->
        ZoomAPI.utc_start e utc z = Ok utc).
Proof.
  intros Hv. split.
  - destruct (validate_accepts e data mr Hv)
      as (d & st & du & _ & _ & _ & _ & _ & _ & Hin & Hp).
    unfold App.normalized.
    rewrite (validate_object e _ (App.topic mr) (JStr (App.iso_start mr))
               (JNum (App.duration mr)) (JStr (App.timezone_str mr)));
      [|discriminate|reflexivity|reflexivity|reflexivity|reflexivity].
    cbn [py_int rbind App.known_timezone]. rewrite Hin.
    rewrite (parse_start_time_fixed e st _ _ Hp).
    destruct mr; reflexivity.
  - intros s z utc H. rewrite utc_start_is_parse_start_time in *.
    now apply (parse_start_time_fixed e (JStr s)).
Qed.

Lemma validate_idempotent_witness :
  let e := Demo.demo_env Demo.no_network in
  App.validate e Demo.sync_request = Ok (inr Demo.sync_fields)
  /\ App.validate e (App.normalized Demo.sync_fields)
     = Ok (inr Demo.sync_fields).
Proof.
  cbv zeta. split; [reflexivity|].
  exact (proj1 (validate_idempotent (Demo.demo_env Demo.no_network)
                  Demo.sync_request Demo.sync_fields eq_refl)).
Defined.

(* ================================================================== *)
(** * Further properties of the code *)
(* ================================================================== *)

(** ** The token file *)

(** After [load_token] has returned a record, the file holds that record
    with its [expires_at], and loading again returns it without reading
    the clock or writing the file. *)
Theorem load_token_settles (e : env) (w w0 : world) (token : dict) :
  App.load_token e w = (Ok token, w0) ->
  token_file w0 = Some token
  /\ dict_has "expires_at" token = true
  /\ App.load_token e w0 = (Ok token, w0).
Proof.
  unfold App.load_token at 1.
  destruct (token_file w) as [stored|] eqn:Hf; [|discriminate].
  destruct (dict_has "expires_at" stored) eqn:Hh; cbn [negb].
  - intros H. inversion H. subst. repeat split; auto.
    unfold App.load_token. now rewrite Hf, Hh.
  - unfold bind, time_time, lift, App.save_token, ret.
    destruct (as_number _) as [life|]; [|discriminate].
    intros H. inversion H. subst. clear H.
    assert (Hh' : dict_has "expires_at"
                    (dict_set "expires_at"
                       (JNum (clock e (ticks w) + life)) stored) = true).
    { unfold dict_has. now rewrite dict_get_set_same. }
    repeat split; auto.
    unfold App.load_token. cbn [token_file write]. now rewrite Hh'.
Qed.

Lemma load_token_settles_witness :
  let e := Demo.demo_env Demo.no_network in
  let stored := [("access_token", JStr "at-1"); ("expires_in", JNum 600)] in
  let token := [("access_token", JStr "at-1"); ("expires_in", JNum 600);
                ("expires_at", JNum 1600)] in
  App.load_token e (Demo.world_with (Some stored))
  = (Ok token, write token (tick (Demo.world_with (Some stored))))
  /\ App.load_token e (write token (tick (Demo.world_with (Some stored))))
     = (Ok token, write token (tick (Demo.world_with (Some stored)))).
Proof.
  cbv zeta. split; [reflexivity|].
  exact (proj2 (proj2 (load_token_settles (Demo.demo_env Demo.no_network)
                         (Demo.world_with
                            (Some [("access_token", JStr "at-1");
                                   ("expires_in", JNum 600)]))
                         _ _ eq_refl))).
Defined.

(** A stored record without [expires_at] gets one on loading: the reading
    of the clock plus [expires_in] (3600 when the record has none).  Every
    other key is returned as stored, and the completed record is written
    back. *)
Theorem load_token_defaults (e : env) (w : world) (stored : dict) (life : Z) :
  token_file w = Some stored ->
  dict_get "expires_at" stored = None ->
  as_number (dict_get_default "expires_in" (JNum 3600) stored) = Ok life ->
  exists token w0,
    App.load_token e w = (Ok token, w0)
    /\ dict_get "expires_at" token = Some (JNum (clock e (ticks w) + life))
    /\ (forall k, k <> "expires_at" -> dict_get k token = dict_get k stored)
    /\ token_file w0 = Some token
    /\ ticks w0 = S (ticks w)
    /\ sent w0 = sent w.
Proof.
  intros Hf Hea Hl. eexists. eexists. split.
  - unfold App.load_token. rewrite Hf. unfold dict_has. rewrite Hea.
    cbn [negb]. unfold bind, time_time, lift, App.save_token, ret.
    rewrite Hl. reflexivity.
  - split; [apply dict_get_set_same|].
    split; [intros k Hk; now apply dict_get_set_other|].
    repeat split.
Qed.

Lemma load_token_defaults_witness :
  exists token w0,
    App.load_token (Demo.demo_env Demo.no_network)
      (Demo.world_with (Some [("access_token", JStr "at-1")]))
    = (Ok token, w0)
    /\ dict_get "expires_at" token = Some (JNum 4600)
    /\ dict_get "access_token" token = Some (JStr "at-1").
Proof.
  destruct (load_token_defaults (Demo.demo_env Demo.no_network)
              (Demo.world_with (Some [("access_token", JStr "at-1")]))
              [("access_token", JStr "at-1")] 3600 eq_refl eq_refl eq_refl)
    as (token & w0 & Hrun & Hea & Hkeep & _).
  exists token, w0. split; [exact Hrun|]. split; [exact Hea|].
  rewrite (Hkeep "access_token"); [reflexivity | discriminate].
Defined.

(** ** The OAuth callback *)

(** The callback changes the token file only on the path that ends in the
    success page.  Without a code it answers 400 and leaves the world as
    it was; when the provider rejects the exchange it answers 500 with the
    provider's text, having sent the exchange and nothing else. *)
Theorem callback_failure_frame (e : env) (code : option string) (w : world) :
  (fst (App.oauth_callback e code w) <> Ok (App.CALLBACK_DONE, 200) ->
   token_file (snd (App.oauth_callback e code w)) = token_file w)
  /\ (code = None \/ code = Some "" ->
      App.oauth_callback e code w
      = (Ok ("Error: Authorization denied or code missing.", 400), w))
  /\ (forall c r,
        code = Some c -> c <> "" ->
        http e (App.exchange_call e c) = inl r ->
        status_code r <> 200 ->
        App.oauth_callback e code w
        = (Ok ("Token exchange failed: " ++ text r, 500),
           log (App.exchange_call e c) w)).
Proof.
  assert (Hframe :
            fst (App.oauth_callback e code w) <> Ok (App.CALLBACK_DONE, 200) ->
            token_file (snd (App.oauth_callback e code w)) = token_file w).
  { unfold App.oauth_callback. destruct code as [c|]; [|reflexivity].
    destruct (String.eqb c ""); [reflexivity|].
    unfold bind, requests_post, lift, time_time, ret, raise, App.save_token.
    destruct (http e (App.exchange_call e c)) as [r|msg]; [|reflexivity].
    destruct (negb (status_code r =? 200)); [reflexivity|].
    destruct (response_json r) as [token_data|]; [|reflexivity].
    destruct (rbind (py_get token_data "expires_in" (JNum 3600)) as_number)
      as [life|]; [|reflexivity].
    destruct token_data; try reflexivity.
    cbn [fst]. intros H. now contradiction H. }
  split; [exact Hframe|split].
  - intros [->| ->]; reflexivity.
  - intros c r -> Hc Hr Hs. unfold App.oauth_callback.
    destruct (String.eqb_spec c ""); [contradiction|].
    unfold bind, requests_post, ret. rewrite Hr.
    destruct (Z.eqb_spec (status_code r) 200); [contradiction | reflexivity].
Qed.

Lemma callback_failure_frame_witness :
  let e := Demo.demo_env Demo.no_network in
  let w := Demo.world_with None in
  App.oauth_callback e None w
  = (Ok ("Error: Authorization denied or code missing.", 400), w).
Proof.
  cbv zeta.
  exact (proj1 (proj2 (callback_failure_frame (Demo.demo_env Demo.no_network)
                         None (Demo.world_with None)))
           (or_introl eq_refl)).
Defined.

(** A successful exchange stores the provider's record with [expires_at]
    set to the reading of the clock plus the declared lifetime, and the
    token block of the scheduling view then returns that very record,
    without a refresh, as long as the clock reads at most [expires_at]
    minus 120. *)
Theorem callback_then_ensure_valid (e : env) (c : string) (w : world)
  (r : response) (d : dict) (life : Z) :
  c <> "" ->
  http e (App.exchange_call e c) = inl r ->
  status_code r = 200 ->
  json_body r = Some (JObj d) ->
  as_number (dict_get_default "expires_in" (JNum 3600) d) = Ok life ->
  exists new w1,
    App.oauth_callback e (Some c) w = (Ok (App.CALLBACK_DONE, 200), w1)
    /\ new = dict_set "expires_at" (JNum (clock e (ticks w) + life)) d
    /\ token_file w1 = Some new
    /\ sent w1 = (sent w ++ [App.exchange_call e c])%list
    /\ (forall k, k <> "expires_at" -> dict_get k new = dict_get k d)
    /\ App.load_token e w1 = (Ok new, w1)
    /\ (clock e (ticks w1) <= clock e (ticks w) + life - 120 ->
        App.ensure_valid e w1 = (Ok new, tick w1)).
Proof.
  intros Hc Hr Hs Hj Hl.
  set (new := dict_set "expires_at" (JNum (clock e (ticks w) + life)) d).
  set (w1 := write new (tick (log (App.exchange_call e c) w))).
  assert (Hhas : dict_has "expires_at" new = true).
  { unfold dict_has, new. now rewrite dict_get_set_same. }
  assert (Hload : App.load_token e w1 = (Ok new, w1)).
  { unfold App.load_token. cbn [token_file w1 write]. now rewrite Hhas. }
  exists new, w1. split.
  { unfold App.oauth_callback.
    destruct (String.eqb_spec c ""); [contradiction|].
    unfold bind, requests_post, lift, time_time, ret, App.save_token,
      response_json.
    rewrite Hr, Hs, Hj. cbn [Z.eqb Pos.eqb negb py_get rbind].
    rewrite Hl. reflexivity. }
  split; [reflexivity|]. split; [reflexivity|]. split; [reflexivity|].
  split; [intros k Hk; unfold new; now apply dict_get_set_other|].
  split; [exact Hload|].
  intros Hfresh.
  rewrite (ensure_valid_run e w1 w1 new (clock e (ticks w) + life) Hload).
  - replace (clock e (ticks w1) >? clock e (ticks w) + life - 120) with false;
      [reflexivity|].
    symmetry. rewrite Z.gtb_ltb. apply Z.ltb_ge. lia.
  - unfold App.expires_at_of, dict_get_default, new.
    now rewrite dict_get_set_same.
Qed.

Lemma callback_then_ensure_valid_witness :
  let e := Demo.demo_env (Demo.always (Demo.token_response 200
             [("access_token", JStr "at-9"); ("refresh_token", JStr "rt-9")])) in
  exists new w1,
    App.oauth_callback e (Some "code-1") (Demo.world_with None)
    = (Ok (App.CALLBACK_DONE, 200), w1)
    /\ dict_get "access_token" new = Some (JStr "at-9")
    /\ dict_get "expires_at" new = Some (JNum 4600)
    /\ App.ensure_valid e w1 = (Ok new, tick w1).
Proof.
  cbv zeta.
  destruct (callback_then_ensure_valid
              (Demo.demo_env (Demo.always (Demo.token_response 200
                 [("access_token", JStr "at-9");
                  ("refresh_token", JStr "rt-9")])))
              "code-1" (Demo.world_with None)
              (Demo.token_response 200
                 [("access_token", JStr "at-9"); ("refresh_token", JStr "rt-9")])
              [("access_token", JStr "at-9"); ("refresh_token", JStr "rt-9")]
              3600)
    as (new & w1 & Hrun & Hnew & Hfile & _ & Hkeep & _ & Hvalid);
    try reflexivity; try discriminate.
  exists new, w1. split; [exact Hrun|].
  split; [rewrite (Hkeep "access_token"); [reflexivity | discriminate]|].
  split; [rewrite Hnew; reflexivity|].
  apply Hvalid. inversion Hrun. simpl. lia.
Defined.

(** ** Refreshing, then scheduling again *)

Lemma ensure_valid_stored (e : env) (w : world) (token : dict) (ea : Z) :
  token_file w = Some token ->
  dict_get "expires_at" token = Some (JNum ea) ->
  App.ensure_valid e w
  = if clock e (ticks w) >? ea - 120
    then App.refresh_access_token e token (tick w)
    else (Ok token, tick w).
Proof.
  intros Hf Hea. apply ensure_valid_run.
  - unfold App.load_token, dict_has. now rewrite Hf, Hea.
  - unfold App.expires_at_of, dict_get_default. now rewrite Hea.
Qed.

(** The record that a refresh stored is the one the next request uses:
    while the clock reads at most its [expires_at] minus 120, the token
    block returns it and contacts nobody. *)
Theorem refresh_then_reuse (e : env) (token : dict) (w : world) (rt : json)
  (r : response) (d : dict) (life : Z) :
  dict_get "refresh_token" token = Some rt ->
  http e (App.refresh_call e rt) = inl r ->
  status_code r = 200 ->
  json_body r = Some (JObj d) ->
  as_number (dict_get_default "expires_in" (JNum 3600) d) = Ok life ->
  exists new w1,
    App.refresh_access_token e token w = (Ok new, w1)
    /\ (forall w2,
          token_file w2 = Some new ->
          clock e (ticks w2) <= clock e (ticks w) + life - 120 ->
          App.ensure_valid e w2 = (Ok new, tick w2)
          /\ sent (tick w2) = sent w2)
    /\ (clock e (S (ticks w)) <= clock e (ticks w) + life - 120 ->
        App.ensure_valid e w1 = (Ok new, tick w1)).
Proof.
  intros Hrt Hr Hs Hj Hl.
  set (new := dict_set "expires_at" (JNum (clock e (ticks w) + life)) d).
  assert (Hreuse : forall w2,
            token_file w2 = Some new ->
            clock e (ticks w2) <= clock e (ticks w) + life - 120 ->
            App.ensure_valid e w2 = (Ok new, tick w2)).
  { intros w2 Hf Hfresh.
    rewrite (ensure_valid_stored e w2 new (clock e (ticks w) + life) Hf)
      by (unfold new; apply dict_get_set_same).
    replace (clock e (ticks w2) >? clock e (ticks w) + life - 120) with false;
      [reflexivity|].
    symmetry. rewrite Z.gtb_ltb. apply Z.ltb_ge. lia. }
  eexists. eexists. split.
  { apply (refresh_accepted e token w rt r d life); assumption. }
  split.
  - intros w2 Hf Hfresh. split; [now apply Hreuse | reflexivity].
  - intros Hfresh. apply Hreuse; [reflexivity | exact Hfresh].
Qed.

Lemma refresh_then_reuse_witness :
  let answer := Demo.token_response 200
                  [("access_token", JStr "at-2"); ("refresh_token", JStr "rt-2")] in
  let e := Demo.demo_env (Demo.always answer) in
  exists new w1,
    App.refresh_access_token e Demo.stale_token
      (Demo.world_with (Some Demo.stale_token)) = (Ok new, w1)
    /\ App.ensure_valid e w1 = (Ok new, tick w1).
Proof.
  cbv zeta.
  destruct (refresh_then_reuse
              (Demo.demo_env (Demo.always (Demo.token_response 200
                 [("access_token", JStr "at-2");
                  ("refresh_token", JStr "rt-2")])))
              Demo.stale_token (Demo.world_with (Some Demo.stale_token))
              (JStr "rt-0")
              (Demo.token_response 200
                 [("access_token", JStr "at-2"); ("refresh_token", JStr "rt-2")])
              [("access_token", JStr "at-2"); ("refresh_token", JStr "rt-2")]
              3600 eq_refl eq_refl eq_refl eq_refl eq_refl)
    as (new & w1 & Hrun & _ & Hnext).
  exists new, w1. split; [exact Hrun|]. apply Hnext. simpl. lia.
Defined.

(** A stored record that has expired and has no [refresh_token] cannot be
    refreshed: the view answers 500 with the text of the [KeyError] and
    sends nothing.  This is the state that a refresh leaves behind when the
    provider's answer held no refresh token. *)
Theorem lost_refresh_token_blocks (e : env) (data : json)
  (mr : App.MeetingRequest) (w : world) (token : dict) (ea : Z) :
  App.validate e data = Ok (inr mr) ->
  token_file w = Some token ->
  dict_get "expires_at" token = Some (JNum ea) ->
  clock e (ticks w) > ea - 120 ->
  dict_get "refresh_token" token = None ->
  App.schedule_meeting e data w
  = (App.error_reply "'refresh_token'" 500, tick w)
  /\ sent (tick w) = sent w
  /\ (forall d now life,
        token = dict_set "expires_at" (JNum (now + life)) d ->
        dict_get "refresh_token" d = None).
Proof.
  intros Hv Hf Hea Hexp Hrt. split; [|split].
  - unfold App.schedule_meeting. rewrite Hv.
    rewrite (ensure_valid_stored e w token ea Hf Hea).
    replace (clock e (ticks w) >? ea - 120) with true
      by (symmetry; rewrite Z.gtb_ltb; apply Z.ltb_lt; lia).
    unfold App.refresh_access_token, bind, lift. cbn [py_getitem].
    rewrite Hrt. reflexivity.
  - reflexivity.
  - intros d now life ->.
    rewrite dict_get_set_other in Hrt by discriminate. exact Hrt.
Qed.

Lemma lost_refresh_token_blocks_witness :
  let e := Demo.demo_env (Demo.always Demo.meeting_created) in
  let token := [("access_token", JStr "at-2"); ("expires_in", JNum 60);
                ("expires_at", JNum 1060)] in
  let w := Demo.world_with (Some token) in
  App.schedule_meeting e Demo.sync_request w
  = (App.error_reply "'refresh_token'" 500, tick w).
Proof.
  cbv zeta.
  refine (proj1 (lost_refresh_token_blocks
                   (Demo.demo_env (Demo.always Demo.meeting_created))
                   Demo.sync_request Demo.sync_fields
                   (Demo.world_with
                      (Some [("access_token", JStr "at-2");
                             ("expires_in", JNum 60);
                             ("expires_at", JNum 1060)]))
                   [("access_token", JStr "at-2"); ("expires_in", JNum 60);
                    ("expires_at", JNum 1060)]
                   1060 eq_refl eq_refl eq_refl _ eq_refl)).
  simpl. lia.
Defined.

(** ** What the scheduling view touches *)

Lemma validate_early_is_400 (e : env) (data : json) (rep : App.reply) :
  App.validate e data = Ok (inl rep) -> App.status rep = 400.
Proof.
  unfold App.validate.
  destruct (negb (truthy data)).
  { intros H. inversion H. reflexivity. }
  destruct (App.first_missing App.required data) as [[f|]|]; cbn [rbind];
    try discriminate.
  { intros H. inversion H. reflexivity. }
  destruct (py_getitem data "topic"); cbn [rbind]; [|discriminate].
  destruct (rbind (py_getitem data "duration") py_int); cbn [rbind];
    [|discriminate].
  destruct (py_getitem data "start_time"); cbn [rbind]; [|discriminate].
  destruct (py_getitem data "timezone"); cbn [rbind]; [|discriminate].
  destruct (App.known_timezone e _).
  - destruct (App.parse_start_time e _ _); intros H; inversion H; reflexivity.
  - intros H. inversion H. reflexivity.
Qed.



Lemma load_token_frame (e : env) (w : world) :
  sent (snd (App.load_token e w)) = sent w.
Proof.
  unfold App.load_token. destruct (token_file w) as [stored|]; [|reflexivity].
  destruct (negb (dict_has "expires_at" stored)); [|reflexivity].
  unfold bind, time_time, lift, App.save_token, ret.
  destruct (as_number _); reflexivity.
Qed.

Lemma token_expired_frame (e : env) (token : dict) (w : world) :
  sent (snd (App.token_expired e token w)) = sent w.
Proof.
  unfold App.token_expired, bind, time_time, lift, ret.
  destruct (as_number _); reflexivity.
Qed.

Lemma refresh_sent (e : env) (token : dict) (w : world) :
  sent (snd (App.refresh_access_token e token w)) = sent w
  \/ exists rt,
       sent (snd (App.refresh_access_token e token w))
       = (sent w ++ [App.refresh_call e rt])%list.
Proof.
  unfold App.refresh_access_token, bind, lift.
  destruct (py_getitem (JObj token) "refresh_token") as [rt|]; [|now left].
  right. exists rt. unfold requests_post.
  destruct (http e (App.refresh_call e rt)) as [r|msg]; [|reflexivity].
  destruct (negb (status_code r =? 200)); [reflexivity|].
  destruct (response_json r) as [new|]; [|reflexivity].
  unfold time_time.
  destruct (rbind (py_get new "expires_in" (JNum 3600)) as_number);
    [|reflexivity].
  destruct new; reflexivity.
Qed.

Lemma create_sent (e : env) (data : json) (mr : App.MeetingRequest)
  (token : dict) (w : world) :
  sent (snd (App.create_meeting e data mr token w)) = sent w
  \/ exists at_ p,
       dict_get "access_token" token = Some at_
       /\ App.meeting_payload data mr = Ok p
       /\ sent (snd (App.create_meeting e data mr token w))
          = (sent w ++ [App.provider_call e at_ p])%list.
Proof.
  unfold App.create_meeting, bind, lift. cbn [py_getitem].
  destruct (dict_get "access_token" token) as [at_|]; [|now left].
  destruct (App.meeting_payload data mr) as [p|]; [|now left].
  right. exists at_, p. split; [reflexivity|]. split; [reflexivity|].
  unfold requests_post.
  destruct (http e (App.provider_call e at_ p)) as [r|msg]; [|reflexivity].
  destruct (status_code r =? 429).
  - destruct (py_int _); reflexivity.
  - destruct (negb (status_code r =? 201)); [reflexivity|].
    destruct (response_json r) as [m|]; [|reflexivity].
    destruct (App.created m); reflexivity.
Qed.

Lemma ensure_valid_sent (e : env) (w : world) :
  sent (snd (App.ensure_valid e w)) = sent w
  \/ exists rt,
       sent (snd (App.ensure_valid e w))
       = (sent w ++ [App.refresh_call e rt])%list.
Proof.
  unfold App.ensure_valid, bind. cbv beta.
  pose proof (load_token_frame e w) as Hl.
  destruct (App.load_token e w) as [[token|ex] w0]; cbn [snd] in Hl;
    [|now left].
  pose proof (token_expired_frame e token w0) as Ht.
  destruct (App.token_expired e token w0) as [[b|ex] w1]; cbn [snd] in Ht;
    [|left; cbn [snd]; congruence].
  destruct b; cbv beta iota.
  - destruct (refresh_sent e token w1) as [H|[rt H]].
    + left. congruence.
    + right. exists rt. rewrite H. congruence.
  - left. cbn [ret snd]. congruence.
Qed.

(** One run of the view sends at most two requests and nothing else: the
    refresh exchange, at most once, and after it the create call, at most
    once.  The create call is sent only for a body that passed the checks,
    and its body is the payload built from the accepted fields. *)
Theorem view_requests (e : env) (data : json) (w : world) :
  exists l,
    sent (snd (App.schedule_meeting e data w)) = (sent w ++ l)%list
    /\ (l = []
        \/ (exists rt, l = [App.refresh_call e rt])
        \/ (exists mr at_ p,
              App.validate e data = Ok (inr mr)
              /\ App.meeting_payload data mr = Ok p
              /\ (l = [App.provider_call e at_ p]
                  \/ exists rt,
                       l = [App.refresh_call e rt;
                            App.provider_call e at_ p]))).
Proof.
  unfold App.schedule_meeting.
  destruct (App.validate e data) as [[rep|mr]|ex] eqn:Hv;
    try (exists []; rewrite app_nil_r; split; [reflexivity | now left]).
  pose proof (ensure_valid_sent e w) as He.
  destruct (App.ensure_valid e w) as [[token|ex] w1]; cbn [snd] in He.
  - pose proof (create_sent e data mr token w1) as Hc.
    destruct (App.create_meeting e data mr token w1) as [[rep|ex] w2];
      cbn [snd] in Hc |- *.
    all: destruct He as [He|[rt He]]; destruct Hc as [Hc|(at_ & p & _ & Hp & Hc)];
      rewrite ?Hc, ?He.
    all: first
      [ exists []; rewrite app_nil_r; split; [reflexivity | now left]
      | exists [App.refresh_call e rt]; split;
          [reflexivity | right; left; now exists rt]
      | exists [App.provider_call e at_ p]; split;
          [reflexivity | right; right; exists mr, at_, p; auto]
      | exists [App.refresh_call e rt; App.provider_call e at_ p]; split;
          [now rewrite <- app_assoc
          | right; right; exists mr, at_, p; split; [reflexivity|];
            split; [assumption|]; right; now exists rt] ].
  - destruct He as [He|[rt He]];
      destruct ex; cbn [snd]; rewrite He;
      first
        [ exists []; rewrite app_nil_r; split; [reflexivity | now left]
        | exists [App.refresh_call e rt]; split;
            [reflexivity | right; left; now exists rt] ].
Qed.

(** ** The tool in front of the view *)

Lemma local_body_validates (e : env) (t s : string) (d : Z) (z : string)
  (jbh mue wr : bool) (utc : string) :
  ZoomAPI.utc_start e s z = Ok utc ->
  in_all_timezones (tzdb e) z = true ->
  App.validate e
    (JObj [("topic", JStr t);
           ("start_time", JStr utc);
           ("duration", JNum d);
           ("timezone", JStr z);
           ("join_before_host", JBool jbh);
           ("mute_upon_entry", JBool mue);
           ("waiting_room", JBool wr)])
  = Ok (inr {| App.topic := JStr t; App.duration := d;
               App.iso_start := utc; App.timezone_str := z |}).
Proof.
  intros Hutc Hin.
  rewrite (validate_object e _ (JStr t) (JStr utc) (JNum d) (JStr z));
    [|discriminate|reflexivity|reflexivity|reflexivity|reflexivity].
  cbn [py_int rbind App.known_timezone]. rewrite Hin.
  rewrite utc_start_is_parse_start_time in Hutc.
  now rewrite (parse_start_time_fixed e (JStr s) z utc Hutc).
Qed.

(** What the tool posts is what the view accepts.  When the arguments of
    the tool pass its start-time and time-zone steps, the body it sends
    passes every check of the view, which reads from it the same topic,
    duration, UTC start and zone; and the payload the view builds for the
    provider carries the three flags the tool was given. *)
Theorem tool_body_is_accepted (e : env) (t s : string) (d : Z) (z : string)
  (jbh mue wr : bool) (utc : string) (body : json) :
  ZoomAPI.utc_start e s z = Ok utc ->
  in_all_timezones (tzdb e) z = true ->
  req_body (ZoomAPI.local_call t utc d z jbh mue wr) = JsonBody body ->
  let mr := {| App.topic := JStr t; App.duration := d;
               App.iso_start := utc; App.timezone_str := z |} in
  App.validate e body = Ok (inr mr)
  /\ App.meeting_payload body mr
     = Ok (JObj [("topic", JStr t);
                 ("type", JNum 2);
                 ("start_time", JStr utc);
                 ("duration", JNum d);
                 ("timezone", JStr z);
                 ("settings", JObj [("join_before_host", JBool jbh);
                                    ("mute_upon_entry", JBool mue);
                                    ("waiting_room", JBool wr)])]).
Proof.
  intros Hutc Hin Hbody mr. cbn [ZoomAPI.local_call req_body] in Hbody.
  inversion Hbody as [Hb]. clear Hbody. split; [|reflexivity].
  now apply (local_body_validates e t s d z jbh mue wr utc).
Qed.

Lemma tool_body_is_accepted_witness :
  let e := Demo.demo_env Demo.no_network in
  ZoomAPI.utc_start e "2025-11-15T10:00:00" "Asia/Kolkata"
  = Ok "2025-11-15T04:30:00Z"
  /\ App.validate e
       (JObj [("topic", JStr "Sync");
              ("start_time", JStr "2025-11-15T04:30:00Z");
              ("duration", JNum 30);
              ("timezone", JStr "Asia/Kolkata");
              ("join_before_host", JBool true);
              ("mute_upon_entry", JBool true);
              ("waiting_room", JBool false)])
     = Ok (inr Demo.sync_fields).
Proof.
  cbv zeta. split; [reflexivity|].
  exact (proj1 (tool_body_is_accepted (Demo.demo_env Demo.no_network)
                  "Sync" "2025-11-15T10:00:00" 30 "Asia/Kolkata"
                  true true false "2025-11-15T04:30:00Z" _
                  eq_refl eq_refl eq_refl)).
Defined.

Lemma validate_early_is_error (e : env) (data : json) (rep : App.reply) :
  App.validate e data = Ok (inl rep) ->
  exists msg, rep = App.error_reply msg 400.
Proof.
  unfold App.validate.
  destruct (negb (truthy data)).
  { intros H. inversion H. eauto. }
  destruct (App.first_missing App.required data) as [[f|]|]; cbn [rbind];
    try discriminate.
  { intros H. inversion H. eauto. }
  destruct (py_getitem data "topic"); cbn [rbind]; [|discriminate].
  destruct (rbind (py_getitem data "duration") py_int); cbn [rbind];
    [|discriminate].
  destruct (py_getitem data "start_time"); cbn [rbind]; [|discriminate].
  destruct (py_getitem data "timezone"); cbn [rbind]; [|discriminate].
  destruct (App.known_timezone e _).
  - destruct (App.parse_start_time e _ _); intros H; inversion H; eauto.
  - intros H. inversion H. eauto.
Qed.

(** The success flag of a body, as the tool tests it. *)
Lemma error_reply_flag (msg : string) (code : Z) (v : json) :
  py_get (App.body (App.error_reply msg code)) "success" JNull = Ok v ->
  truthy v = false.
Proof. intros H. inversion H. reflexivity. Qed.

Lemma created_is_201 (m : json) (rep : App.reply) :
  App.created m = Ok rep -> App.status rep = 201.
Proof.
  unfold App.created.
  repeat match goal with
         | |- rbind ?x _ = _ -> _ => destruct x; cbn [rbind]; [|discriminate]
         end.
  intros H. inversion H. reflexivity.
Qed.

(** A reply of the view whose body has a true [success] is the envelope
    of a meeting that the provider created: the token block returned a
    record, the create call was sent with its access token and answered
    201. *)
Lemma view_success_means_created (e : env) (data : json) (w : world)
  (v : json) :
  py_get (App.body (fst (App.schedule_meeting e data w))) "success" JNull
  = Ok v ->
  truthy v = true ->
  exists mr token w1 at_ p r,
    App.validate e data = Ok (inr mr)
    /\ App.ensure_valid e w = (Ok token, w1)
    /\ dict_get "access_token" token = Some at_
    /\ App.meeting_payload data mr = Ok p
    /\ http e (App.provider_call e at_ p) = inl r
    /\ status_code r = 201
    /\ App.status (fst (App.schedule_meeting e data w)) = 201.
Proof.
  unfold App.schedule_meeting.
  destruct (App.validate e data) as [[rep|mr]|ex] eqn:Hv.
  - destruct (validate_early_is_error e data rep Hv) as [msg ->].
    cbn [fst]. intros H Ht. rewrite (error_reply_flag _ _ _ H) in Ht.
    discriminate.
  - destruct (App.ensure_valid e w) as [[token|ex] w1] eqn:He.
    + unfold App.create_meeting, bind, lift, requests_post, ret.
      cbn [py_getitem].
      destruct (dict_get "access_token" token) as [at_|] eqn:Hat;
        [|cbn [fst]; intros H Ht;
          rewrite (error_reply_flag _ _ _ H) in Ht; discriminate].
      destruct (App.meeting_payload data mr) as [p|] eqn:Hp;
        [|cbn [fst]; intros H Ht;
          rewrite (error_reply_flag _ _ _ H) in Ht; discriminate].
      destruct (http e (App.provider_call e at_ p)) as [r|msg] eqn:Hr;
        [|cbn [fst]; intros H Ht;
          rewrite (error_reply_flag _ _ _ H) in Ht; discriminate].
      destruct (status_code r =? 429) eqn:H429.
      { destruct (py_int _); cbn [fst]; intros H Ht.
        - inversion H. subst v. discriminate.
        - rewrite (error_reply_flag _ _ _ H) in Ht. discriminate. }
      destruct (Z.eqb_spec (status_code r) 201) as [H201|H201]; cbn [negb].
      2:{ cbn [fst]. intros H Ht.
          rewrite (error_reply_flag _ _ _ H) in Ht. discriminate. }
      destruct (response_json r) as [m|];
        [|cbn [fst]; intros H Ht;
          rewrite (error_reply_flag _ _ _ H) in Ht; discriminate].
      destruct (App.created m) as [rep|] eqn:Hc;
        [|cbn [fst]; intros H Ht;
          rewrite (error_reply_flag _ _ _ H) in Ht; discriminate].
      cbn [fst]. intros _ _. exists mr, token, w1, at_, p, r.
      repeat (split; [first [reflexivity | assumption]|]).
      now apply (created_is_201 m).
    + destruct ex; cbn [fst]; intros H Ht;
        first [ rewrite (error_reply_flag _ _ _ H) in Ht; discriminate
              | inversion H; subst v; discriminate ].
  - cbn [fst]. intros H Ht. rewrite (error_reply_flag _ _ _ H) in Ht.
    discriminate.
Qed.

Lemma tool_run (e : env) (t s : string) (d : Z) (z : string)
  (jbh mue wr : bool) (w : world) :
  ZoomAPI.missing_fields (Some t) (Some s) (Some d) (Some z) = [] ->
  ZoomAPI.schedule_meeting e (Some t) (Some s) (Some d) (Some z) jbh mue wr w
  = match ZoomAPI.utc_start e s z with
    | Raise ex =>
        (ZoomAPI.failure
           ("Invalid start_time format. Use: `YYYY-MM-DDTHH:MM:SS` → "
            ++ str_exn ex), w)
    | Ok utc =>
        if negb (in_all_timezones (tzdb e) z) then
          (ZoomAPI.failure
             ("Invalid timezone: `" ++ z
              ++ "`. Use IANA name like `Asia/Kolkata`, `America/New_York`."),
           w)
        else
          match http e (ZoomAPI.local_call t utc d z jbh mue wr) with
          | inl resp =>
              (ZoomAPI.read_response e resp d z,
               log (ZoomAPI.local_call t utc d z jbh mue wr) w)
          | inr msg =>
              (ZoomAPI.failure ("Unexpected error: " ++ msg),
               log (ZoomAPI.local_call t utc d z jbh mue wr) w)
          end
    end.
Proof.
  intros Hm. unfold ZoomAPI.schedule_meeting. rewrite Hm.
  destruct (ZoomAPI.utc_start e s z) as [utc|ex]; [|reflexivity].
  destruct (negb (in_all_timezones (tzdb e) z)); [reflexivity|].
  unfold requests_post. destruct (http e _); reflexivity.
Qed.

Lemma read_response_success (e : env) (resp : response) (d : Z) (z : string) :
  ZoomAPI.is_error (ZoomAPI.read_response e resp d z) = false ->
  exists result success c,
    json_body resp = Some result
    /\ py_get result "success" JNull = Ok success
    /\ truthy success = true
    /\ ZoomAPI.success_content e result d z = Ok c
    /\ ZoomAPI.read_response e resp d z
       = {| ZoomAPI.content := c; ZoomAPI.artifact := Some result;
            ZoomAPI.is_error := false |}.
Proof.
  unfold ZoomAPI.read_response.
  destruct ((400 <=? status_code resp) && (status_code resp <? 600));
    [discriminate|].
  unfold response_json. destruct (json_body resp) as [result|];
    [|discriminate].
  cbn [rbind].
  destruct (py_get result "success" JNull) as [success|] eqn:Hs;
    [|discriminate].
  cbn [rbind]. destruct (truthy success) eqn:Ht; cbn [negb].
  - destruct (ZoomAPI.success_content e result d z) as [c|] eqn:Hc;
      [|discriminate].
    intros _. exists result, success, c. repeat split; auto.
  - destruct (py_get result "error" (JStr "Unknown")); discriminate.
Qed.

Lemma local_api_answers (app : env) (dumps : json -> string) (wa : world)
  (t utc : string) (d : Z) (z : string) (jbh mue wr : bool) :
  Pipeline.local_api app dumps wa (ZoomAPI.local_call t utc d z jbh mue wr)
  = inl {| status_code :=
             App.status (fst (App.schedule_meeting app
               (JObj [("topic", JStr t);
                      ("start_time", JStr utc);
                      ("duration", JNum d);
                      ("timezone", JStr z);
                      ("join_before_host", JBool jbh);
                      ("mute_upon_entry", JBool mue);
                      ("waiting_room", JBool wr)]) wa));
           headers := [("Content-Type", "application/json")];
           text :=
             dumps (App.body (fst (App.schedule_meeting app
               (JObj [("topic", JStr t);
                      ("start_time", JStr utc);
                      ("duration", JNum d);
                      ("timezone", JStr z);
                      ("join_before_host", JBool jbh);
                      ("mute_upon_entry", JBool mue);
                      ("waiting_room", JBool wr)]) wa)));
           json_body :=
             Some (App.body (fst (App.schedule_meeting app
               (JObj [("topic", JStr t);
                      ("start_time", JStr utc);
                      ("duration", JNum d);
                      ("timezone", JStr z);
                      ("join_before_host", JBool jbh);
                      ("mute_upon_entry", JBool mue);
                      ("waiting_room", JBool wr)]) wa))) |}.
Proof. reflexivity. Qed.

(** The tool reports success only for a meeting that exists.  With the
    view of [app.py] answering at the tool's URL, a result of the tool
    without the error flag (other than the request for missing details)
    means that the view's token block returned a record and that the
    provider answered the create call, sent with that record's access
    token and with the tool's UTC start, duration and flags, with 201. *)
Theorem pipeline_success_means_created (app : env) (dumps : json -> string)
  (wa : world) (t s : string) (d : Z) (z : string) (jbh mue wr : bool)
  (w : world) :
  ZoomAPI.missing_fields (Some t) (Some s) (Some d) (Some z) = [] ->
  ZoomAPI.is_error
    (fst (ZoomAPI.schedule_meeting (Pipeline.tool_env app dumps wa)
            (Some t) (Some s) (Some d) (Some z) jbh mue wr w)) = false ->
  exists utc token w1 at_ r,
    ZoomAPI.utc_start app s z = Ok utc
    /\ App.ensure_valid app wa = (Ok token, w1)
    /\ dict_get "access_token" token = Some at_
    /\ http app
         (App.provider_call app at_
            (JObj [("topic", JStr t);
                   ("type", JNum 2);
                   ("start_time", JStr utc);
                   ("duration", JNum d);
                   ("timezone", JStr z);
                   ("settings", JObj [("join_before_host", JBool jbh);
                                      ("mute_upon_entry", JBool mue);
                                      ("waiting_room", JBool wr)])]))
       = inl r
    /\ status_code r = 201.
Proof.
  intros Hm. rewrite (tool_run _ t s d z jbh mue wr w Hm).
  change (ZoomAPI.utc_start (Pipeline.tool_env app dumps wa) s z)
    with (ZoomAPI.utc_start app s z).
  change (tzdb (Pipeline.tool_env app dumps wa)) with (tzdb app).
  destruct (ZoomAPI.utc_start app s z) as [utc|ex] eqn:Hutc; [|discriminate].
  destruct (in_all_timezones (tzdb app) z) eqn:Hin; cbn [negb];
    [|discriminate].
  change (http (Pipeline.tool_env app dumps wa))
    with (Pipeline.local_api app dumps wa).
  rewrite local_api_answers. cbn [fst]. intros Hflag.
  destruct (read_response_success _ _ d z Hflag)
    as (result & success & c & Hj & Hs & Ht & _).
  cbn [json_body] in Hj. inversion Hj as [Hres]. clear Hj. subst result.
  destruct (view_success_means_created app _ wa success Hs Ht)
    as (mr & token & w1 & at_ & p & r & Hv & He & Hat & Hp & Hr & H201 & _).
  rewrite (local_body_validates app t s d z jbh mue wr utc Hutc Hin) in Hv.
  inversion Hv. subst mr. clear Hv.
  cbn in Hp. inversion Hp. subst p. clear Hp.
  exists utc, token, w1, at_, r. repeat split; assumption.
Qed.

Lemma pipeline_success_means_created_witness :
  let app := Demo.demo_env (Demo.always Demo.meeting_created) in
  let wa := Demo.world_with (Some Demo.fresh_token) in
  exists utc token w1 at_ r,
    ZoomAPI.utc_start app "2025-11-15T10:00:00" "Asia/Kolkata" = Ok utc
    /\ App.ensure_valid app wa = (Ok token, w1)
    /\ dict_get "access_token" token = Some at_
    /\ http app
         (App.provider_call app at_
            (JObj [("topic", JStr "Sync");
                   ("type", JNum 2);
                   ("start_time", JStr utc);
                   ("duration", JNum 30);
                   ("timezone", JStr "Asia/Kolkata");
                   ("settings", JObj [("join_before_host", JBool true);
                                      ("mute_upon_entry", JBool true);
                                      ("waiting_room", JBool false)])]))
       = inl r
    /\ status_code r = 201.
Proof.
  cbv zeta.
  apply (pipeline_success_means_created
           (Demo.demo_env (Demo.always Demo.meeting_created))
           (fun _ => "{}")
           (Demo.world_with (Some Demo.fresh_token))
           "Sync" "2025-11-15T10:00:00" 30 "Asia/Kolkata" true true false
           (Demo.world_with None)); reflexivity.
Defined.

(** With no token file on the side of the view, a call of the tool that
    passes the tool's own checks ends in the failure text for HTTP 401,
    with the error flag; the view has sent nothing to the provider. *)
Theorem pipeline_without_token (app : env) (dumps : json -> string)
  (wa : world) (t s : string) (d : Z) (z : string) (jbh mue wr : bool)
  (w : world) (utc : string) :
  ZoomAPI.missing_fields (Some t) (Some s) (Some d) (Some z) = [] ->
  ZoomAPI.utc_start app s z = Ok utc ->
  in_all_timezones (tzdb app) z = true ->
  token_file wa = None ->
  fst (ZoomAPI.schedule_meeting (Pipeline.tool_env app dumps wa)
         (Some t) (Some s) (Some d) (Some z) jbh mue wr w)
  = ZoomAPI.failure ("API call failed (HTTP 401): "
                     ++ dumps (App.body App.token_not_found))
  /\ forall body,
       req_body (ZoomAPI.local_call t utc d z jbh mue wr) = JsonBody body ->
       snd (App.schedule_meeting app body wa) = wa.
Proof.
  intros Hm Hutc Hin Hf.
  assert (Hview : App.schedule_meeting app
                    (JObj [("topic", JStr t);
                           ("start_time", JStr utc);
                           ("duration", JNum d);
                           ("timezone", JStr z);
                           ("join_before_host", JBool jbh);
                           ("mute_upon_entry", JBool mue);
                           ("waiting_room", JBool wr)]) wa
                  = (App.token_not_found, wa)).
  { unfold App.schedule_meeting.
    rewrite (local_body_validates app t s d z jbh mue wr utc Hutc Hin).
    unfold App.ensure_valid, bind, App.load_token. now rewrite Hf. }
  split.
  - rewrite (tool_run _ t s d z jbh mue wr w Hm).
    change (ZoomAPI.utc_start (Pipeline.tool_env app dumps wa) s z)
      with (ZoomAPI.utc_start app s z).
    change (tzdb (Pipeline.tool_env app dumps wa)) with (tzdb app).
    rewrite Hutc, Hin. cbn [negb].
    change (http (Pipeline.tool_env app dumps wa))
      with (Pipeline.local_api app dumps wa).
    rewrite local_api_answers, Hview. reflexivity.
  - intros body Hb. cbn [ZoomAPI.local_call req_body] in Hb.
    inversion Hb. now rewrite Hview.
Qed.

Lemma pipeline_without_token_witness :
  fst (ZoomAPI.schedule_meeting
         (Pipeline.tool_env (Demo.demo_env Demo.no_network) (fun _ => "{}")
            (Demo.world_with None))
         (Some "Sync") (Some "2025-11-15T10:00:00") (Some 30)
         (Some "Asia/Kolkata") true true false (Demo.world_with None))
  = ZoomAPI.failure "API call failed (HTTP 401): {}".
Proof.
  exact (proj1 (pipeline_without_token (Demo.demo_env Demo.no_network)
                  (fun _ => "{}") (Demo.world_with None)
                  "Sync" "2025-11-15T10:00:00" 30 "Asia/Kolkata"
                  true true false (Demo.world_with None)
                  "2025-11-15T04:30:00Z" eq_refl eq_refl eq_refl eq_refl)).
Defined.


(** ** The shape of the start time sent on *)

Lemma string_length_app (a b : string) :
  String.length (a ++ b) = (String.length a + String.length b)%nat.
Proof.
  induction a as [|x a IH]; cbn [append String.length]; [reflexivity|].
  now rewrite IH.
Qed.

Lemma parse_start_time_utc (e : env) (st : json) (name iso : string) :
  App.parse_start_time e st name = Ok iso ->
  exists u,
    well_formed u = true /\ utcoffset u = Some 0
    /\ iso = isoformat_naive u ++ "Z".
Proof.
  unfold App.parse_start_time.
  destruct st as [| | |s| |]; try discriminate.
  destruct (fromisoformat (replace "Z" "+00:00" s)) as [dt|] eqn:Hp;
    [|discriminate].
  apply fromisoformat_well_formed in Hp. cbn [rbind].
  assert (Hloc : forall dt',
            match utcoffset dt with
            | None =>
                rbind (pytz_timezone (tzdb e) name) (fun tz =>
                  Ok (localize tz dt))
            | Some _ => Ok dt
            end = Ok dt' -> well_formed dt' = true).
  { intros dt'. destruct (utcoffset dt).
    - intros H. inversion H. now subst.
    - destruct (pytz_timezone (tzdb e) name) as [tz|]; [|discriminate].
      cbn [rbind]. intros H. inversion H.
      now apply localize_well_formed. }
  destruct (match utcoffset dt with
            | None => _
            | Some _ => _
            end) as [dt'|]; [|discriminate].
  specialize (Hloc dt' eq_refl). cbn [rbind].
  unfold astimezone_utc.
  destruct (shift dt' (- offset_of (tzdb e) dt') (Some 0)) as [u|] eqn:Hs;
    [|discriminate].
  destruct (shift_well_formed dt' u _ _ Hloc Hs) as [Hwf Hoff].
  cbn [rbind]. intros H. inversion H as [Hiso]. clear H.
  exists u. split; [assumption|]. split; [assumption|].
  rewrite (isoformat_seconds_utc u Hoff).
  assert (Hparts := Hwf). unfold well_formed in Hparts.
  apply andb_true_iff in Hparts. destruct Hparts as [Hvd Hvt].
  apply replace_offset_by_Z. apply lacks_isoformat_naive; auto; reflexivity.
Qed.

(** Whatever start time the view or the tool accepts, what it passes on
    has one shape: the twenty characters [YYYY-MM-DDTHH:MM:SSZ] of a date
    that exists, in the years 1 to 9999, and of a time of day. *)
Theorem start_time_shape (e : env) (st : json) (s name iso : string) :
  (App.parse_start_time e st name = Ok iso \/ ZoomAPI.utc_start e s name = Ok iso) ->
  exists u,
    well_formed u = true
    /\ iso = pad4 (year u) ++ "-" ++ pad2 (month u) ++ "-" ++ pad2 (day u)
             ++ "T" ++ pad2 (hour u) ++ ":" ++ pad2 (minute u) ++ ":"
             ++ pad2 (second u) ++ "Z"
    /\ String.length iso = 20%nat.
Proof.
  intros H.
  assert (Hp : exists st', App.parse_start_time e st' name = Ok iso).
  { destruct H as [H|H]; [now exists st|].
    exists (JStr s). now rewrite <- utc_start_is_parse_start_time. }
  destruct Hp as [st' Hp].
  destruct (parse_start_time_utc e st' name iso Hp) as (u & Hwf & _ & ->).
  exists u. split; [assumption|]. unfold isoformat_naive. split.
  - now rewrite !string_app_assoc.
  - rewrite !string_length_app. reflexivity.
Qed.

Lemma start_time_shape_witness :
  exists u,
    well_formed u = true
    /\ "2025-11-15T04:30:00Z"
       = pad4 (year u) ++ "-" ++ pad2 (month u) ++ "-" ++ pad2 (day u)
         ++ "T" ++ pad2 (hour u) ++ ":" ++ pad2 (minute u) ++ ":"
         ++ pad2 (second u) ++ "Z"
    /\ String.length "2025-11-15T04:30:00Z" = 20%nat.
Proof.
  exact (start_time_shape (Demo.demo_env Demo.no_network)
           (JStr "2025-11-15T10:00:00") "" "Asia/Kolkata"
           "2025-11-15T04:30:00Z" (or_introl eq_refl)).
Defined.

(** ** There and back: local time, UTC, local time *)

Lemma prev_next_day (ymd : Z * Z * Z) :
  valid_month_day ymd -> prev_day (next_day ymd) = ymd.
Proof.
  destruct ymd as [[y m] d]. unfold valid_month_day, next_day.
  intros [Hm Hd].
  destruct (Z.ltb_spec d (days_in_month y m)).
  - unfold prev_day. destruct (Z.ltb_spec 1 (d + 1)); [|lia].
    f_equal. lia.
  - destruct (Z.ltb_spec m 12); unfold prev_day.
    + change (1 <? 1) with false. cbv iota.
      destruct (Z.ltb_spec 1 (m + 1)); [|lia].
      replace (m + 1 - 1) with m by lia. f_equal. lia.
    + change (1 <? 1) with false. cbv iota.
      replace (y + 1 - 1) with y by lia.
      assert (m = 12) by lia. subst m.
      change (days_in_month y 12) with 31 in *. f_equal. lia.
Qed.

Lemma next_prev_day (ymd : Z * Z * Z) :
  valid_month_day ymd -> next_day (prev_day ymd) = ymd.
Proof.
  destruct ymd as [[y m] d]. unfold valid_month_day, prev_day.
  intros [Hm Hd].
  destruct (Z.ltb_spec 1 d).
  - unfold next_day.
    destruct (Z.ltb_spec (d - 1) (days_in_month y m)); [|lia]. f_equal. lia.
  - assert (d = 1) by lia. subst d.
    destruct (Z.ltb_spec 1 m); unfold next_day.
    + rewrite Z.ltb_irrefl.
      destruct (Z.ltb_spec (m - 1) 12); [|lia]. f_equal. f_equal. lia.
    + assert (m = 1) by lia. subst m.
      change (days_in_month (y - 1) 12) with 31.
      change (31 <? 31) with false. change (12 <? 12) with false. cbv iota.
      f_equal. f_equal. lia.
Qed.

Lemma iter_next_valid (n : nat) (ymd : Z * Z * Z) :
  valid_month_day ymd -> valid_month_day (Nat.iter n next_day ymd).
Proof.
  intros H. induction n as [|n IH]; cbn [Nat.iter nat_rect];
    [assumption | now apply next_day_valid].
Qed.

Lemma iter_prev_valid (n : nat) (ymd : Z * Z * Z) :
  valid_month_day ymd -> valid_month_day (Nat.iter n prev_day ymd).
Proof.
  intros H. induction n as [|n IH]; cbn [Nat.iter nat_rect];
    [assumption | now apply prev_day_valid].
Qed.

Lemma iter_prev_next (n : nat) (ymd : Z * Z * Z) :
  valid_month_day ymd ->
  Nat.iter n prev_day (Nat.iter n next_day ymd) = ymd.
Proof.
  intros H. induction n as [|n IH]; [reflexivity|].
  rewrite Nat.iter_succ_r. cbn [Nat.iter nat_rect].
  change (nat_rect _ ymd (fun _ => next_day) n) with (Nat.iter n next_day ymd).
  rewrite prev_next_day by now apply iter_next_valid. exact IH.
Qed.

Lemma iter_next_prev (n : nat) (ymd : Z * Z * Z) :
  valid_month_day ymd ->
  Nat.iter n next_day (Nat.iter n prev_day ymd) = ymd.
Proof.
  intros H. induction n as [|n IH]; [reflexivity|].
  rewrite Nat.iter_succ_r. cbn [Nat.iter nat_rect].
  change (nat_rect _ ymd (fun _ => prev_day) n) with (Nat.iter n prev_day ymd).
  rewrite next_prev_day by now apply iter_prev_valid. exact IH.
Qed.

Lemma add_days_back (k : Z) (ymd : Z * Z * Z) :
  valid_month_day ymd -> add_days (- k) (add_days k ymd) = ymd.
Proof.
  intros H. unfold add_days.
  destruct (Z.leb_spec 0 k) as [Hk|Hk].
  - destruct (Z.leb_spec 0 (- k)) as [Hk'|Hk'].
    + assert (k = 0) by lia. subst k. reflexivity.
    + replace (- - k) with k by lia. now apply iter_prev_next.
  - destruct (Z.leb_spec 0 (- k)) as [Hk'|Hk']; [|lia].
    now apply iter_next_prev.
Qed.

Lemma time_of_day_bounds (dt : datetime) :
  well_formed dt = true -> 0 <= time_of_day dt < DAY.
Proof.
  intros Hwf. pose proof (well_formed_bounds dt Hwf).
  unfold time_of_day, DAY. lia.
Qed.

(** Going [delta] one way and [delta] back returns the wall-clock fields
    one started from. *)
Lemma shift_back (dt u : datetime) (delta : Z) (off off' : option Z) :
  well_formed dt = true ->
  shift dt (- delta) off = Ok u ->
  shift u delta off'
  = Ok (mkdatetime (year dt) (month dt) (day dt) (hour dt) (minute dt)
          (second dt) (microsecond dt) off').
Proof.
  intros Hwf Hs.
  pose proof (well_formed_bounds dt Hwf) as Hb.
  pose proof (time_of_day_bounds dt Hwf) as Ht.
  pose proof (well_formed_month_day dt Hwf) as Hmd.
  unfold shift in Hs.
  set (t := time_of_day dt + - delta) in *.
  pose proof (add_days_back (t / DAY) _ Hmd) as Hback.
  destruct (add_days (t / DAY) (year dt, month dt, day dt)) as [[y m] d].
  destruct ((MINYEAR <=? y) && (y <=? MAXYEAR)); [|discriminate].
  inversion Hs as [Hu]. clear Hs.
  assert (Hr : 0 <= t mod DAY < DAY) by (apply Z.mod_pos_bound; reflexivity).
  assert (Htod : time_of_day
                   (mkdatetime y m d (t mod DAY / 3600000000)
                      (t mod DAY / 60000000 mod 60)
                      (t mod DAY / 1000000 mod 60) (t mod DAY mod 1000000)
                      off) = t mod DAY).
  { unfold time_of_day. cbn [hour minute second microsecond].
    unfold DAY in Hr. Z.div_mod_to_equations. lia. }
  unfold shift. rewrite Htod.
  cbn [year month day].
  assert (Hq : (t mod DAY + delta) / DAY = - (t / DAY)
               /\ (t mod DAY + delta) mod DAY = time_of_day dt).
  { subst t. unfold DAY in *. Z.div_mod_to_equations. lia. }
  destruct Hq as [Hq1 Hq2]. rewrite Hq1, Hq2, Hback.
  replace ((MINYEAR <=? year dt) && (year dt <=? MAXYEAR)) with true.
  - unfold time_of_day. f_equal. f_equal; Z.div_mod_to_equations; lia.
  - symmetry. apply andb_true_iff. unfold MINYEAR, MAXYEAR.
    split; apply Z.leb_le; lia.
Qed.

(** The same value without its fraction of a second. *)
Lemma shift_seconds (dt u : datetime) (k : Z) (off : option Z) :
  well_formed dt = true ->
  shift dt (k * 1000000) off = Ok u ->
  shift (mkdatetime (year dt) (month dt) (day dt) (hour dt) (minute dt)
           (second dt) 0 (utcoffset dt)) (k * 1000000) off
  = Ok (mkdatetime (year u) (month u) (day u) (hour u) (minute u)
          (second u) 0 off).
Proof.
  intros Hwf. pose proof (well_formed_bounds dt Hwf) as Hb.
  unfold shift, time_of_day.
  cbn [year month day hour minute second microsecond].
  set (a := (hour dt * 60 + minute dt) * 60 + second dt + k).
  replace (((hour dt * 60 + minute dt) * 60 + second dt) * 1000000
           + microsecond dt + k * 1000000)
    with (a * 1000000 + microsecond dt) by (subst a; lia).
  replace (((hour dt * 60 + minute dt) * 60 + second dt) * 1000000
           + 0 + k * 1000000)
    with (a * 1000000) by (subst a; lia).
  assert (Hq : (a * 1000000 + microsecond dt) / DAY = a / 86400).
  { unfold DAY. Z.div_mod_to_equations. lia. }
  assert (Hq0 : a * 1000000 / DAY = a / 86400).
  { unfold DAY. Z.div_mod_to_equations. lia. }
  assert (Hr : (a * 1000000 + microsecond dt) mod DAY
               = (a mod 86400) * 1000000 + microsecond dt).
  { unfold DAY. Z.div_mod_to_equations. lia. }
  assert (Hr0 : a * 1000000 mod DAY = (a mod 86400) * 1000000).
  { unfold DAY. Z.div_mod_to_equations. lia. }
  rewrite Hq, Hq0, Hr, Hr0.
  destruct (add_days (a / 86400) (year dt, month dt, day dt)) as [[y m] d].
  destruct ((MINYEAR <=? y) && (y <=? MAXYEAR)); [|discriminate].
  intros H. inversion H. subst u. clear H.
  cbn [year month day hour minute second].
  assert (Hs : 0 <= a mod 86400 < 86400)
    by (apply Z.mod_pos_bound; reflexivity).
  set (b := a mod 86400) in *.
  f_equal. f_equal; Z.div_mod_to_equations; lia.
Qed.

Lemma utc_string_parses (u : datetime) :
  well_formed u = true ->
  utcoffset u = Some 0 ->
  fromisoformat
    (replace "Z" "+00:00" (replace "+00:00" "Z" (isoformat_seconds u)))
  = Ok (utc_seconds u).
Proof.
  intros Hwf Hoff.
  assert (Hparts := Hwf). unfold well_formed in Hparts.
  apply andb_true_iff in Hparts. destruct Hparts as [Hvd Hvt].
  rewrite (isoformat_seconds_utc u Hoff).
  rewrite replace_offset_by_Z
    by (apply lacks_isoformat_naive; auto; reflexivity).
  rewrite replace_Z_by_offset
    by (apply lacks_isoformat_naive; auto; reflexivity).
  now apply fromisoformat_isoformat.
Qed.

Lemma utc_seconds_well_formed (u : datetime) :
  well_formed u = true -> well_formed (utc_seconds u) = true.
Proof.
  intros Hwf. pose proof (well_formed_bounds u Hwf) as Hb.
  unfold well_formed in *. apply andb_true_iff in Hwf.
  destruct Hwf as [Hvd _]. unfold utc_seconds. cbn. rewrite Hvd.
  cbn [andb]. unfold valid_time.
  repeat (apply andb_true_iff; split); apply Z.leb_le; lia.
Qed.

(** What [astimezone] makes of the UTC string of a local start time. *)
Lemma back_to_local (e : env) (s z utc : string) (dt : datetime) (tz : zone) :
  fromisoformat (replace "Z" "+00:00" s) = Ok dt ->
  utcoffset dt = None ->
  timezone (tzdb e) z = Some tz ->
  ZoomAPI.utc_start e s z = Ok utc ->
  exists u,
    fromisoformat (replace "Z" "+00:00" utc) = Ok u
    /\ (fromutc_offset tz u = localize_offset tz dt ->
        astimezone (tzdb e) tz u
        = Ok (mkdatetime (year dt) (month dt) (day dt) (hour dt) (minute dt)
                (second dt) 0 (Some (localize_offset tz dt * 1000000)))).
Proof.
  intros Hp Hn Htz. unfold ZoomAPI.utc_start. rewrite Hp. cbn [rbind].
  rewrite Hn. unfold pytz_timezone. rewrite Htz. cbn [rbind].
  pose proof (fromisoformat_well_formed _ _ Hp) as Hwf.
  unfold astimezone_utc at 1. unfold offset_of. cbn [localize utcoffset].
  set (L := localize_offset tz dt).
  fold (localize tz dt). fold L.
  destruct (shift (localize tz dt) (- (L * 1000000)) (Some 0)) as [uu|] eqn:Hs;
    [|discriminate].
  cbn [rbind]. intros H. inversion H as [Hutc]. clear H.
  destruct (shift_well_formed (localize tz dt) uu _ _
              (localize_well_formed tz dt Hwf) Hs) as [Hwfu Hoffu].
  exists (utc_seconds uu). split; [now apply utc_string_parses|].
  intros Hzone. unfold astimezone, astimezone_utc, offset_of.
  change (utcoffset (utc_seconds uu)) with (Some 0). cbv iota.
  change (- 0) with 0.
  rewrite (shift_zero (utc_seconds uu) (Some 0)
             (utc_seconds_well_formed uu Hwfu)).
  cbn [rbind]. change (mkdatetime _ _ _ _ _ _ _ (Some 0)) with (utc_seconds uu).
  rewrite Hzone. fold L.
  rewrite <- Z.mul_opp_l in Hs.
  pose proof (shift_seconds (localize tz dt) uu (- L) (Some 0)
                (localize_well_formed tz dt Hwf) Hs) as Hs0.
  cbn [localize year month day hour minute second utcoffset] in Hs0.
  fold L in Hs0. change (mkdatetime (year uu) _ _ _ _ _ 0 (Some 0))
    with (utc_seconds uu) in Hs0.
  rewrite Z.mul_opp_l in Hs0.
  set (dt0 := mkdatetime (year dt) (month dt) (day dt) (hour dt) (minute dt)
                (second dt) 0 (Some (L * 1000000))) in *.
  assert (Hwf0 : well_formed dt0 = true).
  { pose proof (well_formed_bounds dt Hwf) as Hb.
    unfold well_formed in *. apply andb_true_iff in Hwf.
    destruct Hwf as [Hvd _]. unfold dt0. cbn. rewrite Hvd. cbn [andb].
    unfold valid_time.
    repeat (apply andb_true_iff; split); apply Z.leb_le; lia. }
  exact (shift_back dt0 (utc_seconds uu) (L * 1000000) (Some 0)
           (Some (L * 1000000)) Hwf0 Hs0).
Qed.

(** The confirmation shows the time that was asked for.  A start time
    without an offset, in a zone whose rule gives the same offset at the
    wall-clock value and at the UTC value it converts to: when the
    meeting that comes back carries the UTC start the tool sent, the
    [When] line of the confirmation is that wall-clock time, in the form
    [Month DD, YYYY at HH:MM AM/PM]. *)
Theorem shown_time_is_asked_time (e : env) (s z utc : string)
  (dt : datetime) (tz : zone) (d : Z) (result : json) (m : dict)
  (tp join_url id password start_url : json) :
  fromisoformat (replace "Z" "+00:00" s) = Ok dt ->
  utcoffset dt = None ->
  timezone (tzdb e) z = Some tz ->
  ZoomAPI.utc_start e s z = Ok utc ->
  (forall u, fromisoformat (replace "Z" "+00:00" utc) = Ok u ->
             fromutc_offset tz u = localize_offset tz dt) ->
  py_getitem result "meeting" = Ok (JObj m) ->
  dict_get "start_time" m = Some (JStr utc) ->
  dict_get "topic" m = Some tp ->
  dict_get "join_url" m = Some join_url ->
  dict_get "id" m = Some id ->
  dict_get "password" m = Some password ->
  dict_get "start_url" m = Some start_url ->
  ZoomAPI.success_content e result d z
  = Ok ("**Meeting Scheduled Successfully!**" ++ ZoomAPI.nl ++ ZoomAPI.nl
        ++ "**Topic:** " ++ py_str e tp ++ ZoomAPI.nl
        ++ "**When:** " ++ strftime_pretty dt ++ " (" ++ z ++ ")" ++ ZoomAPI.nl
        ++ "**Duration:** " ++ str_int d ++ " minutes" ++ ZoomAPI.nl
        ++ "**Join Link:** " ++ py_str e join_url ++ ZoomAPI.nl
        ++ "**Meeting ID:** `" ++ py_str e id ++ "`" ++ ZoomAPI.nl
        ++ "**Passcode:** `" ++ py_str e password ++ "`" ++ ZoomAPI.nl
        ++ ZoomAPI.nl
        ++ "_Host start link (private): " ++ py_str e start_url ++ "_").
Proof.
  intros Hp Hn Htz Hutc Hzone Hm Hst Htp Hj Hid Hpw Hsu.
  destruct (back_to_local e s z utc dt tz Hp Hn Htz Hutc) as (u & Hu & Hback).
  specialize (Hback (Hzone u Hu)).
  unfold ZoomAPI.success_content. rewrite Hm. cbn [rbind py_getitem].
  rewrite Hst. cbn [rbind]. rewrite Hu. cbn [rbind].
  unfold pytz_timezone. rewrite Htz. cbn [rbind]. rewrite Hback.
  cbn [rbind]. rewrite Htp, Hj, Hid, Hpw, Hsu. cbn [rbind].
  reflexivity.
Qed.

Lemma shown_time_is_asked_time_witness :
  ZoomAPI.success_content (Demo.demo_env Demo.no_network)
    (JObj [("success", JBool true);
           ("meeting", JObj [("id", JNum 81234567890);
                             ("topic", JStr "Sync");
                             ("join_url", JStr "https://zoom.us/j/81234567890");
                             ("start_url", JStr "https://zoom.us/s/81234567890");
                             ("password", JStr "p4ss");
                             ("start_time", JStr "2025-11-15T04:30:00Z")])])
    30 "Asia/Kolkata"
  = Ok ("**Meeting Scheduled Successfully!**" ++ ZoomAPI.nl ++ ZoomAPI.nl
        ++ "**Topic:** Sync" ++ ZoomAPI.nl
        ++ "**When:** November 15, 2025 at 10:00 AM (Asia/Kolkata)"
        ++ ZoomAPI.nl
        ++ "**Duration:** 30 minutes" ++ ZoomAPI.nl
        ++ "**Join Link:** https://zoom.us/j/81234567890" ++ ZoomAPI.nl
        ++ "**Meeting ID:** `81234567890`" ++ ZoomAPI.nl
        ++ "**Passcode:** `p4ss`" ++ ZoomAPI.nl ++ ZoomAPI.nl
        ++ "_Host start link (private): https://zoom.us/s/81234567890_").
Proof.
  exact (shown_time_is_asked_time (Demo.demo_env Demo.no_network)
           "2025-11-15T10:00:00" "Asia/Kolkata" "2025-11-15T04:30:00Z"
           (mkdatetime 2025 11 15 10 0 0 0 None) (Demo.fixed_zone 19800) 30
           (JObj [("success", JBool true);
                  ("meeting",
                   JObj [("id", JNum 81234567890);
                         ("topic", JStr "Sync");
                         ("join_url", JStr "https://zoom.us/j/81234567890");
                         ("start_url", JStr "https://zoom.us/s/81234567890");
                         ("password", JStr "p4ss");
                         ("start_time", JStr "2025-11-15T04:30:00Z")])])
           [("id", JNum 81234567890);
            ("topic", JStr "Sync");
            ("join_url", JStr "https://zoom.us/j/81234567890");
            ("start_url", JStr "https://zoom.us/s/81234567890");
            ("password", JStr "p4ss");
            ("start_time", JStr "2025-11-15T04:30:00Z")]
           (JStr "Sync") (JStr "https://zoom.us/j/81234567890")
           (JNum 81234567890) (JStr "p4ss")
           (JStr "https://zoom.us/s/81234567890")
           eq_refl eq_refl eq_refl eq_refl (fun _ _ => eq_refl)
           eq_refl eq_refl eq_refl eq_refl eq_refl eq_refl eq_refl).
Defined.

(** ** From [convert_to_iso] to [schedule_meeting] *)

Lemma revapp_decimal_digit (a : Z) (d d' : Decimal.uint) :
  0 <= a <= 9 ->
  Decimal.revapp (decimal_digit a d) d' = Decimal.revapp d (decimal_digit a d').
Proof. intros H. each_digit H; reflexivity. Qed.

Lemma of_lu_decimal_digit (a : Z) (d : Decimal.uint) :
  0 <= a <= 9 ->
  DecimalPos.Unsigned.of_lu (decimal_digit a d)
  = (Z.to_N a + 10 * DecimalPos.Unsigned.of_lu d)%N.
Proof. intros H. each_digit H; reflexivity. Qed.

Lemma string_of_decimal_digit (a : Z) (d : Decimal.uint) :
  0 <= a <= 9 ->
  NilEmpty.string_of_uint (decimal_digit a d)
  = String (digit_char a) (NilEmpty.string_of_uint d).
Proof. intros H. each_digit H; reflexivity. Qed.

Lemma string_of_leading_digit (a : Z) (d : Decimal.uint) :
  0 <= a <= 9 ->
  NilZero.string_of_uint (decimal_digit a d)
  = NilEmpty.string_of_uint (decimal_digit a d).
Proof. intros H. each_digit H; reflexivity. Qed.

Lemma unorm_decimal_digit (a : Z) (d : Decimal.uint) :
  1 <= a <= 9 -> Decimal.unorm (decimal_digit a d) = decimal_digit a d.
Proof.
  intros H. assert (H' : 0 <= a <= 9) by lia.
  each_digit H'; try reflexivity. lia.
Qed.

(** A year of four digits prints the same padded or not. *)
Lemma str_year_pad4 (y : Z) : 1000 <= y <= 9999 -> str_year y = pad4 y.
Proof.
  intros H.
  set (a := y / 1000). set (b := y / 100 mod 10).
  set (c := y mod 100 / 10). set (e := (y mod 100) mod 10).
  assert (Ha : 1 <= a <= 9) by (subst a; Z.div_mod_to_equations; lia).
  assert (Hb : 0 <= b <= 9) by (subst b; Z.div_mod_to_equations; lia).
  assert (Hc : 0 <= c <= 9) by (subst c; Z.div_mod_to_equations; lia).
  assert (He : 0 <= e <= 9) by (subst e; Z.div_mod_to_equations; lia).
  assert (Ha0 : 0 <= a <= 9) by lia.
  set (U := decimal_digit a (decimal_digit b (decimal_digit c
              (decimal_digit e Decimal.Nil)))).
  assert (Hval : Z.of_int (Decimal.Pos U) = y).
  { cbn [Z.of_int]. unfold Z.of_uint.
    rewrite DecimalPos.Unsigned.of_uint_alt. unfold Decimal.rev, U.
    rewrite !revapp_decimal_digit by assumption. cbn [Decimal.revapp].
    rewrite !of_lu_decimal_digit by assumption.
    cbn [DecimalPos.Unsigned.of_lu].
    subst a b c e. Z.div_mod_to_equations. lia. }
  unfold str_year, str_int. rewrite <- Hval at 1.
  rewrite DecimalZ.to_of. cbn [Decimal.norm].
  unfold U at 1. rewrite unorm_decimal_digit by assumption. fold U.
  cbn [NilZero.string_of_int]. unfold U.
  rewrite string_of_leading_digit by assumption.
  rewrite !string_of_decimal_digit by assumption.
  reflexivity.
Qed.

Lemma string_app_empty (p : string) : p ++ "" = p.
Proof.
  induction p as [|x p IH]; cbn [append]; [reflexivity | now rewrite IH].
Qed.

Lemma replace_absent (a : ascii) (old' new p : string) :
  lacks a p = true -> replace (String a old') new p = p.
Proof.
  intros H. unfold replace.
  rewrite <- (string_app_empty p) at 1.
  rewrite replace_aux_lacks by assumption. cbn [replace_aux].
  apply string_app_empty.
Qed.

Lemma fromisoformat_naive (dt : datetime) :
  well_formed dt = true ->
  fromisoformat (isoformat_naive dt)
  = Ok (mkdatetime (year dt) (month dt) (day dt) (hour dt) (minute dt)
          (second dt) 0 None).
Proof.
  intros Hwf. pose proof (well_formed_bounds dt Hwf) as Hb.
  unfold fromisoformat, parse_isoformat_date, isoformat_naive.
  rewrite take_digits_pad4 by lia. cbn [append].
  rewrite take_digits_pad2 by lia. cbn [append].
  rewrite take_digits_pad2 by lia. cbn [append].
  unfold parse_isoformat_time, parse_hh_mm_ss_ff.
  rewrite take_digits_pad2 by lia. cbn [append].
  rewrite take_digits_pad2 by lia. cbn [append].
  rewrite <- (string_app_empty (pad2 (second dt))).
  rewrite take_digits_pad2 by lia.
  unfold new_datetime. cbn [valid_offset negb].
  unfold well_formed in Hwf. apply andb_true_iff in Hwf.
  destruct Hwf as [Hvd _]. rewrite Hvd. cbn [negb].
  replace (valid_time (hour dt) (minute dt) (second dt) 0) with true.
  - reflexivity.
  - symmetry. unfold valid_time.
    repeat (apply andb_true_iff; split); apply Z.leb_le; lia.
Qed.

(** What [convert_to_iso] returns is a start time that [schedule_meeting]
    can read.  For a parsed value of a year with four digits, the text it
    returns holds no [Z], and [fromisoformat] reads it back as the same
    date and time of day, to the second, without an offset: the form in
    which the tool then places it in the zone it is given. *)
Theorem convert_to_iso_feeds_tool (du : Agent.dateutil)
  (datetime_string timezone_iana : string) (tz : zone) (dt : datetime) :
  Agent.gettz du timezone_iana = Some tz ->
  Agent.parse du datetime_string = Ok dt ->
  well_formed dt = true ->
  1000 <= year dt ->
  let iso := Agent.convert_to_iso du datetime_string timezone_iana in
  String.length iso = 19%nat
  /\ replace "Z" "+00:00" iso = iso
  /\ fromisoformat (replace "Z" "+00:00" iso)
     = Ok (mkdatetime (year dt) (month dt) (day dt) (hour dt) (minute dt)
             (second dt) 0 None).
Proof.
  intros Hg Hp Hwf Hy iso.
  pose proof (well_formed_bounds dt Hwf) as Hb.
  assert (Hiso : iso = isoformat_naive dt).
  { unfold iso, Agent.convert_to_iso. rewrite Hg, Hp.
    unfold strftime_iso, isoformat_naive.
    cbn [replace_tzinfo year month day hour minute second].
    now rewrite str_year_pad4 by lia. }
  assert (Hparts := Hwf). unfold well_formed in Hparts.
  apply andb_true_iff in Hparts. destruct Hparts as [Hvd Hvt].
  assert (HZ : replace "Z" "+00:00" iso = iso).
  { rewrite Hiso. apply replace_absent.
    apply lacks_isoformat_naive; auto; reflexivity. }
  split; [|split; [exact HZ|]].
  - rewrite Hiso. unfold isoformat_naive.
    rewrite !string_length_app. reflexivity.
  - rewrite HZ, Hiso. now apply fromisoformat_naive.
Qed.

Lemma convert_to_iso_feeds_tool_witness :
  fromisoformat
    (replace "Z" "+00:00"
       (Agent.convert_to_iso Demo.demo_dateutil "November 5, 2025 at 3 PM"
          "America/New_York"))
  = Ok (mkdatetime 2025 11 5 15 0 0 0 None).
Proof.
  refine (proj2 (proj2 (convert_to_iso_feeds_tool Demo.demo_dateutil
                          "November 5, 2025 at 3 PM" "America/New_York"
                          (Demo.fixed_zone (-18000))
                          (mkdatetime 2025 11 5 15 0 0 0 None)
                          eq_refl eq_refl eq_refl _))).
  simpl. lia.
Defined.

(** ** A start time with and without its offset *)

Lemma format_offset_seconds (o : Z) :
  o mod 1000000 = 0 ->
  format_offset (Some o)
  = (if o <? 0 then "-" else "+")
    ++ pad2 (Z.abs o / 3600000000) ++ ":" ++ pad2 (Z.abs o / 60000000 mod 60)
    ++ (if Z.abs o / 1000000 mod 60 =? 0 then ""
        else ":" ++ pad2 (Z.abs o / 1000000 mod 60)).
Proof.
  intros Hus. unfold format_offset.
  assert (Ha : Z.abs o mod 1000000 = 0) by (Z.div_mod_to_equations; lia).
  rewrite Ha. cbn [Z.eqb]. rewrite andb_true_r.
  rewrite string_app_empty. reflexivity.
Qed.

Lemma parse_tz_formatted (a : Z) :
  0 <= a < DAY -> a mod 1000000 = 0 ->
  parse_tz (pad2 (a / 3600000000) ++ ":" ++ pad2 (a / 60000000 mod 60)
            ++ (if a / 1000000 mod 60 =? 0 then ""
                else ":" ++ pad2 (a / 1000000 mod 60)))
  = Some a.
Proof.
  intros Hr Hus. unfold DAY in Hr.
  assert (Hh : 0 <= a / 3600000000 < 100) by (Z.div_mod_to_equations; lia).
  assert (Hm : 0 <= a / 60000000 mod 60 < 100)
    by (Z.div_mod_to_equations; lia).
  assert (Hs : 0 <= a / 1000000 mod 60 < 100)
    by (Z.div_mod_to_equations; lia).
  unfold parse_tz.
  destruct (Z.eqb_spec (a / 1000000 mod 60) 0) as [Hz|Hz].
  - rewrite !string_length_app. cbn [String.length pad2 Nat.add Nat.eqb orb].
    unfold parse_hh_mm_ss_ff.
    rewrite take_digits_pad2 by assumption. cbn [append].
    rewrite take_digits_pad2 by assumption.
    f_equal. Z.div_mod_to_equations. lia.
  - rewrite !string_length_app. cbn [String.length pad2 Nat.add Nat.eqb orb].
    unfold parse_hh_mm_ss_ff.
    rewrite take_digits_pad2 by assumption. cbn [append].
    rewrite take_digits_pad2 by assumption. cbn [append].
    rewrite <- (string_app_empty (pad2 (a / 1000000 mod 60))).
    rewrite take_digits_pad2 by assumption.
    f_equal. Z.div_mod_to_equations. lia.
Qed.

Lemma lacks_format_offset (c : ascii) (o : Z) :
  is_digit c = false -> Ascii.eqb "+" c = false -> Ascii.eqb "-" c = false ->
  Ascii.eqb ":" c = false ->
  - DAY < o < DAY -> o mod 1000000 = 0 ->
  lacks c (format_offset (Some o)) = true.
Proof.
  intros Hd Hp Hm Hc Hr Hus. unfold DAY in Hr.
  rewrite (format_offset_seconds o Hus).
  assert (Hh : 0 <= Z.abs o / 3600000000 < 100)
    by (Z.div_mod_to_equations; lia).
  assert (Hmi : 0 <= Z.abs o / 60000000 mod 60 < 100)
    by (Z.div_mod_to_equations; lia).
  assert (Hs : 0 <= Z.abs o / 1000000 mod 60 < 100)
    by (Z.div_mod_to_equations; lia).
  rewrite !lacks_app, !lacks_pad2 by assumption.
  assert (Hsign : lacks c (if o <? 0 then "-" else "+") = true).
  { destruct (o <? 0); cbn [lacks]; [rewrite Hm | rewrite Hp]; reflexivity. }
  rewrite Hsign. cbn [lacks]. rewrite Hc. cbn [negb andb].
  destruct (Z.abs o / 1000000 mod 60 =? 0); [reflexivity|].
  rewrite lacks_app, lacks_pad2 by assumption. cbn [lacks].
  now rewrite Hc.
Qed.

(** Reading back a value written with its offset. *)
Lemma fromisoformat_with_offset (dt : datetime) (o : Z) :
  well_formed dt = true ->
  - DAY < o < DAY -> o mod 1000000 = 0 ->
  fromisoformat (isoformat_naive dt ++ format_offset (Some o))
  = Ok (mkdatetime (year dt) (month dt) (day dt) (hour dt) (minute dt)
          (second dt) 0 (Some o)).
Proof.
  intros Hwf Hr Hus. pose proof (well_formed_bounds dt Hwf) as Hb.
  rewrite (format_offset_seconds o Hus).
  pose proof (parse_tz_formatted (Z.abs o)) as Htz.
  assert (Habs : 0 <= Z.abs o < DAY) by (unfold DAY in *; lia).
  assert (Habs0 : Z.abs o mod 1000000 = 0) by (Z.div_mod_to_equations; lia).
  specialize (Htz Habs Habs0).
  unfold fromisoformat, parse_isoformat_date, isoformat_naive.
  rewrite !string_app_assoc.
  rewrite take_digits_pad4 by lia. cbn [append].
  rewrite take_digits_pad2 by lia. cbn [append].
  rewrite take_digits_pad2 by lia. cbn [append].
  unfold parse_isoformat_time, parse_hh_mm_ss_ff.
  rewrite take_digits_pad2 by lia. cbn [append].
  rewrite take_digits_pad2 by lia. cbn [append].
  rewrite take_digits_pad2 by lia.
  assert (Hvo : valid_offset (Some o) = true).
  { cbn [valid_offset]. apply andb_true_iff. split; apply Z.ltb_lt; lia. }
  assert (Hnew : new_datetime (year dt) (month dt) (day dt) (hour dt)
                   (minute dt) (second dt) 0 (Some o)
                 = Ok (mkdatetime (year dt) (month dt) (day dt) (hour dt)
                         (minute dt) (second dt) 0 (Some o))).
  { unfold new_datetime. rewrite Hvo. cbn [negb].
    unfold well_formed in Hwf. apply andb_true_iff in Hwf.
    destruct Hwf as [Hvd _]. rewrite Hvd. cbn [negb].
    replace (valid_time (hour dt) (minute dt) (second dt) 0) with true;
      [reflexivity|].
    symmetry. unfold valid_time.
    repeat (apply andb_true_iff; split); apply Z.leb_le; lia. }
  cbn [append] in Htz.
  destruct (Z.ltb_spec o 0) as [Hneg|Hpos]; cbn [append].
  - change (Ascii.eqb "-" "+") with false.
    change (Ascii.eqb "-" "-") with true. cbv iota. rewrite Htz.
    replace (- Z.abs o) with o by lia. exact Hnew.
  - change (Ascii.eqb "+" "+") with true. cbv iota. rewrite Htz.
    replace (Z.abs o) with o by lia. exact Hnew.
Qed.



(** ** The consent link *)

Lemma hex_digit_safe (n : nat) : (n < 16)%nat -> always_safe (hex_digit n) = true.
Proof.
  intros H.
  do 16 (destruct n as [|n]; [reflexivity|]).
  lia.
Qed.

Lemma always_safe_quoted (c : ascii) : always_safe c = true -> quoted_char c = true.
Proof. intros H. unfold quoted_char. now rewrite H. Qed.

Lemma quote_plus_chars (s : string) :
  forallb quoted_char (list_ascii_of_string (quote_plus s)) = true.
Proof.
  induction s as [|a s IH]; [reflexivity|].
  cbn [quote_plus]. unfold quote_char.
  destruct (always_safe a) eqn:Hs.
  - cbn [append list_ascii_of_string forallb].
    now rewrite (always_safe_quoted a Hs), IH.
  - destruct (Ascii.eqb a " ").
    + cbn [append list_ascii_of_string forallb]. now rewrite IH.
    + cbn [append list_ascii_of_string forallb].
      assert (Hb : (nat_of_ascii a < 256)%nat) by apply nat_ascii_bounded.
      change (quoted_char "%") with true.
      rewrite (always_safe_quoted (hex_digit (nat_of_ascii a / 16))),
        (always_safe_quoted (hex_digit (nat_of_ascii a mod 16))), IH;
        [reflexivity| |].
      * apply hex_digit_safe, Nat.mod_upper_bound. lia.
      * apply hex_digit_safe, Nat.Div0.div_lt_upper_bound. lia.
Qed.

Lemma lacks_unquoted (c : ascii) (s : string) :
  quoted_char c = false ->
  forallb quoted_char (list_ascii_of_string s) = true ->
  lacks c s = true.
Proof.
  intros Hc. induction s as [|a s IH]; [reflexivity|].
  cbn [list_ascii_of_string forallb lacks]. intros H.
  apply andb_true_iff in H. destruct H as [Ha Hs].
  rewrite (IH Hs), andb_true_r.
  destruct (Ascii.eqb_spec a c) as [->|_]; [congruence | reflexivity].
Qed.

(** The consent link of the login page has three parameters, whatever the
    client id is: the id is written between [client_id=] and
    [&redirect_uri=] with letters, digits, [_.-~+] and [%] escapes only,
    so it holds no [&], [=], space, double quote, [<] or [>], and can
    neither add a parameter nor end the [href] attribute. *)
Theorem consent_link_parameters (e : env) :
  App.authorize_url e
  = "https://zoom.us/oauth/authorize?response_type=code&client_id="
    ++ quote_plus (CLIENT_ID e)
    ++ "&redirect_uri=http%3A%2F%2Flocalhost%3A5000%2Foauth%2Fcallback"
  /\ forallb quoted_char (list_ascii_of_string (quote_plus (CLIENT_ID e)))
     = true
  /\ lacks "&" (quote_plus (CLIENT_ID e)) = true
  /\ lacks "=" (quote_plus (CLIENT_ID e)) = true
  /\ lacks " " (quote_plus (CLIENT_ID e)) = true
  /\ lacks (ascii_of_nat 34) (quote_plus (CLIENT_ID e)) = true
  /\ lacks "<" (quote_plus (CLIENT_ID e)) = true
  /\ lacks ">" (quote_plus (CLIENT_ID e)) = true.
Proof.
  split.
  - unfold App.authorize_url, urlencode.
    change (quote_plus "response_type") with "response_type".
    change (quote_plus "code") with "code".
    change (quote_plus "client_id") with "client_id".
    change (quote_plus "redirect_uri") with "redirect_uri".
    change (quote_plus App.REDIRECT_URI)
      with "http%3A%2F%2Flocalhost%3A5000%2Foauth%2Fcallback".
    cbn [append]. reflexivity.
  - pose proof (quote_plus_chars (CLIENT_ID e)) as H.
    split; [exact H|].
    repeat split; apply lacks_unquoted; auto.
Qed.

(** ** What the provider's answer becomes *)

(** An answer of the provider to the create call with a status other
    than 201 and 429 (a 200 as well) is passed on under that status with
    [success] false; the error is the answer's JSON as text, or its body
    when that is not JSON.  The create call is the one request sent after
    the token block and the token file stays as the token block left
    it. *)
Theorem provider_error_relayed (e : env) (data : json)
  (mr : App.MeetingRequest) (w w1 : world) (token : dict)
  (at_ payload : json) (r : response) :
  App.validate e data = Ok (inr mr) ->
  App.ensure_valid e w = (Ok token, w1) ->
  dict_get "access_token" token = Some at_ ->
  App.meeting_payload data mr = Ok payload ->
  http e (App.provider_call e at_ payload) = inl r ->
  status_code r <> 429 -> status_code r <> 201 ->
  App.schedule_meeting e data w
  = (App.error_reply (match json_body r with
                      | Some v => py_str e v
                      | None => text r
                      end) (status_code r),
     {| token_file := token_file w1; ticks := ticks w1;
        sent := (sent w1 ++ [App.provider_call e at_ payload])%list |}).
Proof.
  intros Hv He Hat Hp Hr H429 H201.
  unfold App.schedule_meeting. rewrite Hv, He.
  rewrite (create_meeting_run e data mr token w1 at_ payload r Hat Hp Hr).
  apply Z.eqb_neq in H429. apply Z.eqb_neq in H201.
  rewrite H429, H201. cbn [negb]. unfold response_json.
  destruct (json_body r); reflexivity.
Qed.

Lemma provider_error_relayed_witness :
  let r := Demo.token_response 200 [("code", JNum 3001)] in
  let e := Demo.demo_env (Demo.always r) in
  let w := Demo.world_with (Some Demo.fresh_token) in
  fst (App.schedule_meeting e Demo.sync_request w)
  = App.error_reply "<repr>" 200.
Proof.
  cbv zeta.
  rewrite (provider_error_relayed
             (Demo.demo_env
                (Demo.always (Demo.token_response 200 [("code", JNum 3001)])))
             Demo.sync_request Demo.sync_fields
             (Demo.world_with (Some Demo.fresh_token))
             (tick (Demo.world_with (Some Demo.fresh_token)))
             Demo.fresh_token (JStr "at-1") Demo.sync_payload
             (Demo.token_response 200 [("code", JNum 3001)])
             eq_refl eq_refl eq_refl eq_refl eq_refl);
    [reflexivity | discriminate | discriminate].
Defined.

(** When the create call gets no answer at all, the reply is a 500 with
    the text of the connection error; the call is recorded as attempted
    and the token file stays as the token block left it. *)
Theorem provider_unreachable (e : env) (data : json)
  (mr : App.MeetingRequest) (w w1 : world) (token : dict)
  (at_ payload : json) (msg : string) :
  App.validate e data = Ok (inr mr) ->
  App.ensure_valid e w = (Ok token, w1) ->
  dict_get "access_token" token = Some at_ ->
  App.meeting_payload data mr = Ok payload ->
  http e (App.provider_call e at_ payload) = inr msg ->
  App.schedule_meeting e data w
  = (App.error_reply msg 500,
     {| token_file := token_file w1; ticks := ticks w1;
        sent := (sent w1 ++ [App.provider_call e at_ payload])%list |}).
Proof.
  intros Hv He Hat Hp Hr.
  unfold App.schedule_meeting. rewrite Hv, He.
  unfold App.create_meeting, bind, lift, requests_post, ret.
  cbn [py_getitem]. rewrite Hat, Hp, Hr. reflexivity.
Qed.

Lemma provider_unreachable_witness :
  let e := Demo.demo_env Demo.no_network in
  let w := Demo.world_with (Some Demo.fresh_token) in
  fst (App.schedule_meeting e Demo.sync_request w)
  = App.error_reply "connection refused" 500.
Proof.
  cbv zeta.
  rewrite (provider_unreachable (Demo.demo_env Demo.no_network)
             Demo.sync_request Demo.sync_fields
             (Demo.world_with (Some Demo.fresh_token))
             (tick (Demo.world_with (Some Demo.fresh_token)))
             Demo.fresh_token (JStr "at-1") Demo.sync_payload
             "connection refused"
             eq_refl eq_refl eq_refl eq_refl eq_refl).
  reflexivity.
Defined.
